(** * Cortex-R agent: orchestration loop, plan sandbox and history cache

    A shallow embedding of
    - [core/loop.py]        ([AgentLoop.run], the step / retry loop),
    - [modules/action.py]   ([run_python_sandbox] and its tool proxy),
    - [modules/decision.py] ([generate_plan], from the model's reply on),
    - [agent.py]            ([ConversationHistory], and [main], the driver),
    together with the properties the specification states about them
    (C1 to C10) and further properties the code shows (X1 to X20).

    Conventions.  Python [str] values are [string]s read as sequences of
    code points below 256.  Python [int]s are [Z].  Similarity scores are
    compared and never computed with, so they are rationals ([Q]); a float
    among the values of a plan is known by its [repr].  External
    collaborators (the language model behind perception and planning, the
    tool dispatcher, the Python interpreter with [str], f-strings and
    [json.dumps] under the sandbox, the clock, [difflib] and [json] under
    the history) are section variables; [Py] and [Json] write the
    conversions and the file format of the history out for the runs at the
    end.

    Scope.  A plan is what its text does under Python: it fails to compile,
    its module body raises or leaves, there is no [solve], or there is one
    and the plan is a finite tree of steps on the tool proxy (calls through
    it, reads and assignments of its counter, calls on the dispatcher
    behind it) that ends in a value, in an exception, or in what the handler
    of the sandbox does not take ([SystemExit], [KeyboardInterrupt],
    [CancelledError], an exception without a message).  The sandbox is
    embedded with all of these; the loop and the driver are embedded for
    the plans that do not leave the sandbox in the last way.  Plans that do
    not end, that start tasks or threads of their own, or that replace the
    proxy or its parts are outside the embedding, and so are the lines
    written to the log.  The driver reads what arrives at its prompts from
    a list; an interrupt while the agent runs is outside the embedding.
    The session context and the memory store are not among the sources and
    are modelled from the specification, where marked. *)

From Stdlib Require Import ZArith List String Ascii Bool Lia QArith.
From Stdlib Require Import Numbers.DecimalString.
Import ListNotations.

Set Warnings "-register-all".

Local Open Scope string_scope.
Local Open Scope Z_scope.

(* ===================================================================== *)
(** * Python string operations used by the sources                       *)
(* ===================================================================== *)

Module PyStr.

(** [str.isspace] on one character (the class [\s] of [re] is the same set):
    TAB..CR, FS..US, SPACE, NEL and NBSP. *)
Definition isspace (c : ascii) : bool :=
  let n := nat_of_ascii c in
  (((9 <=? n) && (n <=? 13)) || ((28 <=? n) && (n <=? 32))
   || (n =? 133) || (n =? 160))%nat.

(** [str.lower] on one character: A-Z, and the Latin-1 capitals but the
    multiplication sign, move up by 32. *)
Definition lower_char (c : ascii) : ascii :=
  let n := nat_of_ascii c in
  if (((65 <=? n) && (n <=? 90))
      || ((192 <=? n) && (n <=? 222) && negb (n =? 215)))%nat
  then ascii_of_nat (n + 32) else c.

Fixpoint lower (s : string) : string :=
  match s with
  | EmptyString => EmptyString
  | String c r => String (lower_char c) (lower r)
  end.

Fixpoint lstrip (s : string) : string :=
  match s with
  | EmptyString => EmptyString
  | String c r => if isspace c then lstrip r else s
  end.

Fixpoint rstrip (s : string) : string :=
  match s with
  | EmptyString => EmptyString
  | String c r =>
      match rstrip r with
      | EmptyString => if isspace c then EmptyString else String c EmptyString
      | r' => String c r'
      end
  end.

(** [s.strip()] *)
Definition strip (s : string) : string := rstrip (lstrip s).

(** [s.startswith(p)] *)
Fixpoint startswith (s p : string) {struct p} : bool :=
  match p with
  | EmptyString => true
  | String a p' =>
      match s with
      | String b s' => Ascii.eqb a b && startswith s' p'
      | EmptyString => false
      end
  end.

(** [sub in s] *)
Fixpoint contains (sub s : string) : bool :=
  startswith s sub
  || match s with
     | EmptyString => false
     | String _ r => contains sub r
     end.

(** [s.split(sep)] for a non-empty separator: scan from the left, cut at
    every occurrence, resume after it.  [skip] counts the characters of a
    separator still to be passed over; [cur] is the piece being built. *)
Fixpoint split_go (sep : string) (skip : nat) (cur s : string) : list string :=
  match s with
  | EmptyString => [cur]
  | String c r =>
      match skip with
      | S k => split_go sep k cur r
      | O =>
          if startswith s sep
          then cur :: split_go sep (String.length sep - 1) EmptyString r
          else split_go sep O (cur ++ String c EmptyString) r
      end
  end.

Definition split (s sep : string) : list string := split_go sep O EmptyString s.

(** [sep.join(l)] *)
Fixpoint join (sep : string) (l : list string) : string :=
  match l with
  | [] => EmptyString
  | [x] => x
  | x :: r => x ++ sep ++ join sep r
  end.

(** [str(n)] for an [int]. *)
Definition str_of_Z (n : Z) : string := NilZero.string_of_int (Z.to_int n).

(** ** The plan pattern [^\s*(async\s+)?def\s+solve\s*\(] under [re.MULTILINE] *)

(** Consume a literal. *)
Fixpoint eat (lit s : string) : option string :=
  match lit with
  | EmptyString => Some s
  | String a lit' =>
      match s with
      | String b r => if Ascii.eqb a b then eat lit' r else None
      | EmptyString => None
      end
  end.

(** [\s+]: at least one blank, then all of them. *)
Definition eat_ws1 (s : string) : option string :=
  match s with
  | String c r => if isspace c then Some (lstrip r) else None
  | EmptyString => None
  end.

Definition bind_opt {A B} (x : option A) (f : A -> option B) : option B :=
  match x with Some a => f a | None => None end.

(** The pattern without its anchor, tried at one position.  Every blank run
    is followed by a letter or a bracket, so the greedy reading is the only
    one and no backtracking is lost. *)
Definition match_solve_here (s : string) : bool :=
  let s1 := lstrip s in
  let after_async :=
    match eat "async" s1 with
    | Some r => eat_ws1 r
    | None => Some s1
    end in
  match bind_opt after_async (fun s2 =>
        bind_opt (eat "def" s2) (fun s3 =>
        bind_opt (eat_ws1 s3) (fun s4 =>
        bind_opt (eat "solve" s4) (fun s5 =>
        eat "(" (lstrip s5))))) with
  | Some _ => true
  | None => false
  end.

(** [re.search] with [^] matching at the start and after every newline. *)
Fixpoint search_from (at_line_start : bool) (s : string) : bool :=
  (at_line_start && match_solve_here s)
  || match s with
     | EmptyString => false
     | String c r => search_from (Ascii.eqb c "010"%char) r
     end.

(** [re.search(r"^\s*(async\s+)?def\s+solve\s*\(", plan, re.MULTILINE)] *)
Definition defines_solve (plan : string) : bool := search_from true plan.

End PyStr.

Import PyStr.

(* ===================================================================== *)
(** * Python values and exceptions                                        *)
(* ===================================================================== *)

Module Py.

(** The values a plan returns and tools exchange: [None], booleans,
    integers, floats (a float is known by its [repr], the shortest text
    that reads back as the same float: "1.5", "1e+16", "inf", "nan"),
    strings, lists, dictionaries (in insertion order, with values of any
    kind for keys), tuples, and [VObj] for an object of any other class (a
    tool result object, a set, ...), known by its type name and its text
    ([str()] and [repr()] alike), and equal to itself only. *)
Inductive PyVal : Type :=
| VNone
| VBool (b : bool)
| VInt (n : Z)
| VFloat (repr : string)
| VStr (s : string)
| VList (l : list PyVal)
| VDict (d : list (PyVal * PyVal))
| VTuple (l : list PyVal)
| VObj (type_name text : string).

(** An exception of class [Exception] (or of a class that derives from
    it) that has a message: its class name and the text [str(e)] returns. *)
Inductive PyExc : Type := Exc (cls msg : string).

Definition exc_msg (e : PyExc) : string := let 'Exc _ m := e in m.

(** What the handler of the sandbox lets through to its caller:
    - [ExitOf cls msg]: an exit, that is what [raise] throws when its class
      derives from [BaseException] and not from [Exception] ([SystemExit],
      [KeyboardInterrupt], [asyncio.CancelledError], [GeneratorExit]), with
      its class name and [str(e)];
    - [Unprintable cls]: an exception of a class [cls] that derives from
      [Exception] and whose [__str__] raises: the handler fails in its turn
      when it asks for the message. *)
Inductive PyExit : Type :=
| ExitOf (cls msg : string)
| Unprintable (cls : string).

(** A computation that returns or raises an exception of class
    [Exception]. *)
Inductive Outcome (A : Type) : Type :=
| Normal (a : A)
| Raises (e : PyExc).
Arguments Normal {A} a.
Arguments Raises {A} e.

(** Collect the results, or stop at the first exception. *)
Fixpoint sequence {A} (l : list (Outcome A)) : Outcome (list A) :=
  match l with
  | [] => Normal []
  | Raises e :: _ => Raises e
  | Normal x :: r =>
      match sequence r with
      | Normal xs => Normal (x :: xs)
      | Raises e => Raises e
      end
  end.

(** ["result" in d] and [d["result"]] for a key that is a [str]: the only
    keys equal to a [str] are the [str]s with the same characters. *)
Definition is_key (key : string) (k : PyVal) : bool :=
  match k with
  | VStr s => String.eqb s key
  | _ => false
  end.

Fixpoint dict_get (key : string) (d : list (PyVal * PyVal)) : option PyVal :=
  match d with
  | [] => None
  | (k, v) :: r => if is_key key k then Some v else dict_get key r
  end.

Definition quote : string := String "034"%char EmptyString.
Definition apostrophe : string := String "039"%char EmptyString.
Definition backslash : string := String "092"%char EmptyString.

(** ** [str], [repr] and [json.dumps] written out

    The sandbox takes these functions of the library as they are (see
    [Interpreter] below).  They are written out here for the runs at the
    end of the file, on the values those runs use; the limit Python puts on
    the digits of an integer it turns into text is left out. *)

Definition hex_digit (n : nat) : ascii :=
  ascii_of_nat (if (n <? 10)%nat then 48 + n else 87 + n).

(** Two lowercase hexadecimal digits of a code point below 256. *)
Definition hex2 (n : nat) : string :=
  String (hex_digit (n / 16)) (String (hex_digit (n mod 16)) EmptyString).

(** [repr] of one character of a [str], inside the quotes [q]. *)
Definition repr_char (q : ascii) (c : ascii) : string :=
  let n := nat_of_ascii c in
  if Ascii.eqb c q || Ascii.eqb c "092"%char then String "092"%char (String c EmptyString)
  else if (n =? 9)%nat then backslash ++ "t"
  else if (n =? 10)%nat then backslash ++ "n"
  else if (n =? 13)%nat then backslash ++ "r"
  else if ((n <? 32) || ((127 <=? n) && (n <=? 160)) || (n =? 173))%nat
       then backslash ++ "x" ++ hex2 n
  else String c EmptyString.

Fixpoint repr_chars (q : ascii) (s : string) : string :=
  match s with
  | EmptyString => EmptyString
  | String c r => repr_char q c ++ repr_chars q r
  end.

(** [repr(s)]: single quotes, unless [s] has one and no double quote. *)
Definition repr_str (s : string) : string :=
  let q := if contains apostrophe s && negb (contains quote s)
           then "034"%char else "039"%char in
  String q (repr_chars q s ++ String q EmptyString).

Fixpoint py_repr (v : PyVal) : string :=
  match v with
  | VNone => "None"
  | VBool b => if b then "True" else "False"
  | VInt n => str_of_Z n
  | VFloat repr => repr
  | VStr s => repr_str s
  | VList l => "[" ++ join ", " (map py_repr l) ++ "]"
  | VDict d =>
      "{" ++ join ", " (map (fun kv => py_repr (fst kv) ++ ": " ++ py_repr (snd kv)) d)
          ++ "}"
  | VTuple l =>
      match l with
      | [x] => "(" ++ py_repr x ++ ",)"
      | _ => "(" ++ join ", " (map py_repr l) ++ ")"
      end
  | VObj _ text => text
  end.

(** [str(v)], which is also what an f-string field [{v}] gives. *)
Definition py_str (v : PyVal) : string :=
  match v with
  | VStr s => s
  | _ => py_repr v
  end.

(** One character of a JSON string under [ensure_ascii=True]. *)
Definition json_char (c : ascii) : string :=
  let n := nat_of_ascii c in
  if (n =? 34)%nat then backslash ++ quote
  else if (n =? 92)%nat then backslash ++ backslash
  else if (n =? 10)%nat then backslash ++ "n"
  else if (n =? 13)%nat then backslash ++ "r"
  else if (n =? 9)%nat then backslash ++ "t"
  else if (n =? 12)%nat then backslash ++ "f"
  else if (n =? 8)%nat then backslash ++ "b"
  else if ((n <? 32) || (126 <? n))%nat then backslash ++ "u00" ++ hex2 n
  else String c EmptyString.

Fixpoint json_chars (s : string) : string :=
  match s with
  | EmptyString => EmptyString
  | String c r => json_char c ++ json_chars r
  end.

Definition json_string (s : string) : string := quote ++ json_chars s ++ quote.

(** A float in JSON text: its [repr], but for the three that JSON has no
    text for. *)
Definition json_float (repr : string) : string :=
  if String.eqb repr "nan" then "NaN"
  else if String.eqb repr "inf" then "Infinity"
  else if String.eqb repr "-inf" then "-Infinity"
  else repr.

Definition type_name_of (v : PyVal) : string :=
  match v with
  | VNone => "NoneType"
  | VBool _ => "bool"
  | VInt _ => "int"
  | VFloat _ => "float"
  | VStr _ => "str"
  | VList _ => "list"
  | VDict _ => "dict"
  | VTuple _ => "tuple"
  | VObj type_name _ => type_name
  end.

(** A key of a dictionary in JSON text. *)
Definition json_key (k : PyVal) : Outcome string :=
  match k with
  | VStr s => Normal (json_string s)
  | VInt n => Normal (quote ++ str_of_Z n ++ quote)
  | VBool b => Normal (quote ++ (if b then "true" else "false") ++ quote)
  | VNone => Normal (quote ++ "null" ++ quote)
  | VFloat repr => Normal (quote ++ json_float repr ++ quote)
  | _ => Raises (Exc "TypeError"
                     ("keys must be str, int, float, bool or None, not "
                        ++ type_name_of k))
  end.

(** [json.dumps(v)] with its defaults. *)
Fixpoint json_dumps (v : PyVal) : Outcome string :=
  match v with
  | VNone => Normal "null"
  | VBool b => Normal (if b then "true" else "false")
  | VInt n => Normal (str_of_Z n)
  | VFloat repr => Normal (json_float repr)
  | VStr s => Normal (json_string s)
  | VList l =>
      match sequence (map json_dumps l) with
      | Normal xs => Normal ("[" ++ join ", " xs ++ "]")
      | Raises e => Raises e
      end
  | VDict d =>
      match sequence (map (fun kv =>
               match json_key (fst kv), json_dumps (snd kv) with
               | Normal k, Normal x => Normal (k ++ ": " ++ x)
               | Raises e, _ => Raises e
               | _, Raises e => Raises e
               end) d) with
      | Normal xs => Normal ("{" ++ join ", " xs ++ "}")
      | Raises e => Raises e
      end
  | VTuple l =>
      match sequence (map json_dumps l) with
      | Normal xs => Normal ("[" ++ join ", " xs ++ "]")
      | Raises e => Raises e
      end
  | VObj type_name _ =>
      Raises (Exc "TypeError"
                  ("Object of type " ++ type_name ++ " is not JSON serializable"))
  end.

End Py.

Import Py.

(* ===================================================================== *)
(** * modules/action.py: the plan sandbox                                 *)
(* ===================================================================== *)

Module Action.

(** What the plan does with the proxy [mcp] it finds in its namespace, from
    the moment [solve] is there: what its module body did to the counter, if
    anything, and then what awaiting [solve_fn()] does.  It returns, it
    raises an exception, it leaves ([Exit]: it raises what the handler of
    the sandbox does not take, or is interrupted or cancelled there), or it
    does one thing with the proxy and goes on:
    - it awaits [mcp.call_tool(tool_name, input_dict)] and goes on from what
      the call returned or raised ([try] / [except] around a call is a
      continuation that does not re-raise);
    - it reads [mcp.call_count], or assigns it;
    - it awaits [mcp.dispatcher.call_tool(tool_name, input_dict)], past the
      proxy.
    [X] is the type of what plans may leave with.  A plan that starts tasks
    or threads of its own, or that puts other objects in the place of the
    proxy, of its method or of its dispatcher, is outside the embedding. *)
Inductive Prog (X : Type) : Type :=
| Ret (v : PyVal)
| Raise (e : PyExc)
| Exit (x : X)
| CallTool (tool_name : string) (input_dict : PyVal) (k : Outcome PyVal -> Prog X)
| GetCallCount (k : Z -> Prog X)
| SetCallCount (n : Z) (k : Prog X)
| CallDispatcher (tool_name : string) (input_dict : PyVal)
                 (k : Outcome PyVal -> Prog X).
Arguments Ret {X} v.
Arguments Raise {X} e.
Arguments Exit {X} x.
Arguments CallTool {X} tool_name input_dict k.
Arguments GetCallCount {X} k.
Arguments SetCallCount {X} n k.
Arguments CallDispatcher {X} tool_name input_dict k.

(** What [exec(compile(code, ...), sandbox.__dict__)] followed by
    [sandbox.__dict__.get("solve")] finds.  A module body that assigns the
    counter and then raises, leaves, or defines no [solve] is the plan that
    raises, leaves, or defines no [solve]: the proxy is not used after
    it. *)
Inductive Plan (X : Type) : Type :=
| CompileError (e : PyExc)   (* [compile] raises *)
| ExecError (e : PyExc)      (* the module body raises an exception *)
| ExecExit (x : X)           (* the module body leaves *)
| NoSolve                    (* no [solve] in the namespace *)
| Solve (body : Prog X).     (* [solve] is there; the plan goes on as [body] *)
Arguments CompileError {X} e.
Arguments ExecError {X} e.
Arguments ExecExit {X} x.
Arguments NoSolve {X}.
Arguments Solve {X} body.

(** How a block of code ends: it returns, it raises an exception with a
    message, or it leaves. *)
Inductive Ending (X A : Type) : Type :=
| Returned (a : A)
| Raised (e : PyExc)
| Escaped (x : X).
Arguments Returned {X A} a.
Arguments Raised {X A} e.
Arguments Escaped {X A} x.

(** What a call of [run_python_sandbox] comes to: the [str] it returns, or
    what it lets through to its caller. *)
Inductive SandboxResult (X : Type) : Type :=
| Returns (text : string)
| Propagates (x : X).
Arguments Returns {X} text.
Arguments Propagates {X} x.

(** An outcome as an ending. *)
Definition of_outcome {X A} (o : Outcome A) : Ending X A :=
  match o with
  | Normal a => Returned a
  | Raises e => Raised e
  end.

(** What a generator comes to: all its items, or what the first item that
    does not return ends with. *)
Fixpoint gather {X A} (l : list (Ending X A)) : Ending X (list A) :=
  match l with
  | [] => Returned []
  | Returned a :: r =>
      match gather r with
      | Returned rest => Returned (a :: rest)
      | Raised e => Raised e
      | Escaped x => Escaped x
      end
  | Raised e :: _ => Raised e
  | Escaped x :: _ => Escaped x
  end.

(** The Python interpreter and library, as far as the sandbox uses them:
    what a plan text does; [str(v)]; the f-string [f"{v}"], that is
    [format(v, "")]; and [json.dumps(v)].  Each of the three conversions
    ends as the class of the value has it: for the values Python comes with
    it returns a text, or raises where the library says so. *)
Record Interpreter (X : Type) : Type := mkInterpreter {
  py_exec : string -> Plan X;
  str : PyVal -> Ending X string;
  format : PyVal -> Ending X string;
  dumps : PyVal -> Ending X string
}.
Arguments mkInterpreter {X} py_exec str format dumps.
Arguments py_exec {X} i code.
Arguments str {X} i v.
Arguments format {X} i v.
Arguments dumps {X} i v.

Definition MAX_TOOL_CALLS_PER_PLAN : Z := 5.

(** One tool call as the plan writes it. *)
Record ToolCall : Type := mkCall { call_name : string; call_args : PyVal }.

Section Sandbox.

(** What plans may leave with. *)
Variable X : Type.

(** The dispatcher ([MultiMCP], outside this module): a state and what
    [dispatcher.call_tool] answers in it, a value or an exception. *)
Variable D : Type.
Variable dispatch : D -> string -> PyVal -> Outcome PyVal * D.

Variable py : Interpreter X.

(** [class SandboxMCP].  [issued] and [dispatched] are not in the source:
    they keep, oldest first, every call the plan made to the proxy with its
    answer, and every call that reached the dispatcher. *)
Record SandboxMCP : Type := mkMCP {
  dispatcher : D;
  call_count : Z;
  issued : list (ToolCall * Outcome PyVal);
  dispatched : list ToolCall
}.

(** [SandboxMCP.__init__] *)
Definition SandboxMCP_init (d : D) : SandboxMCP :=
  {| dispatcher := d; call_count := 0; issued := []; dispatched := [] |}.

Definition budget_error : PyExc :=
  Exc "RuntimeError"
      ("Exceeded max tool calls (" ++ str_of_Z MAX_TOOL_CALLS_PER_PLAN
         ++ ") in solve() plan.").

(** [SandboxMCP.call_tool] *)
Definition call_tool (self : SandboxMCP) (tool_name : string) (input_dict : PyVal)
  : Outcome PyVal * SandboxMCP :=
  let c := mkCall tool_name input_dict in
  let count := call_count self + 1 in
  if count >? MAX_TOOL_CALLS_PER_PLAN then
    (Raises budget_error,
     {| dispatcher := dispatcher self; call_count := count;
        issued := issued self ++ [(c, Raises budget_error)];
        dispatched := dispatched self |})
  else
    let (result, d') := dispatch (dispatcher self) tool_name input_dict in
    (result,
     {| dispatcher := d'; call_count := count;
        issued := issued self ++ [(c, result)];
        dispatched := dispatched self ++ [c] |}).

(** [mcp.call_count = n], written by the plan. *)
Definition set_call_count (n : Z) (self : SandboxMCP) : SandboxMCP :=
  {| dispatcher := dispatcher self; call_count := n;
     issued := issued self; dispatched := dispatched self |}.

(** [mcp.dispatcher.call_tool(tool_name, input_dict)], awaited by the plan. *)
Definition call_dispatcher (self : SandboxMCP) (tool_name : string)
    (input_dict : PyVal) : Outcome PyVal * SandboxMCP :=
  let (result, d') := dispatch (dispatcher self) tool_name input_dict in
  (result,
   {| dispatcher := d'; call_count := call_count self;
      issued := issued self;
      dispatched := dispatched self ++ [mkCall tool_name input_dict] |}).

(** The plan at work on the proxy. *)
Fixpoint run_prog (p : Prog X) (mcp : SandboxMCP) : Ending X PyVal * SandboxMCP :=
  match p with
  | Ret v => (Returned v, mcp)
  | Raise e => (Raised e, mcp)
  | Exit x => (Escaped x, mcp)
  | CallTool tool_name input_dict k =>
      let (r, mcp') := call_tool mcp tool_name input_dict in
      run_prog (k r) mcp'
  | GetCallCount k => run_prog (k (call_count mcp)) mcp
  | SetCallCount n k => run_prog k (set_call_count n mcp)
  | CallDispatcher tool_name input_dict k =>
      let (r, mcp') := call_dispatcher mcp tool_name input_dict in
      run_prog (k r) mcp'
  end.

(** "Clean result formatting": the [if] / [elif] chain after the call.
    [isinstance(result, dict)] holds of the dictionaries and
    [isinstance(result, list)] of the lists; a tuple is neither. *)
Definition format_result (result : PyVal) : Ending X string :=
  match result with
  | VDict d =>
      match dict_get "result" d with
      | Some v => format py v
      | None => dumps py result
      end
  | VList l =>
      match gather (map (str py) l) with
      | Returned texts => Returned (join " " texts)
      | Raised e => Raised e
      | Escaped x => Escaped x
      end
  | _ => format py result
  end.

(** The body of the [try] block. *)
Definition sandbox_try (code : string) (mcp : SandboxMCP)
  : Ending X string * SandboxMCP :=
  match py_exec py code with
  | CompileError e => (Raised e, mcp)
  | ExecError e => (Raised e, mcp)
  | ExecExit x => (Escaped x, mcp)
  | NoSolve => (Raised (Exc "ValueError" "No solve() function found in plan."), mcp)
  | Solve body =>
      let (r, mcp') := run_prog body mcp in
      match r with
      | Returned result => (format_result result, mcp')
      | Raised e => (Raised e, mcp')
      | Escaped x => (Escaped x, mcp')
      end
  end.

(** [f"[sandbox error: {str(e)}]"] *)
Definition sandbox_error (e : PyExc) : string :=
  "[sandbox error: " ++ exc_msg e ++ "]".

(** [try: ... except Exception as e: return f"[sandbox error: {str(e)}]"]:
    the handler takes the exceptions and returns their Error text; what
    else the block ends with goes to the caller. *)
Definition handle (r : Ending X string) : SandboxResult X :=
  match r with
  | Returned text => Returns text
  | Raised e => Returns (sandbox_error e)
  | Escaped x => Propagates x
  end.

(** [run_python_sandbox(code, dispatcher)], with the proxy it leaves
    behind. *)
Definition run_python_sandbox_mcp (code : string) (d : D)
  : SandboxResult X * SandboxMCP :=
  let (r, mcp) := sandbox_try code (SandboxMCP_init d) in (handle r, mcp).

(** ** Vocabulary for the properties of the sandbox *)

(** A plan that reaches the tools through [mcp.call_tool] only and does not
    assign the counter. *)
Inductive through_proxy : Prog X -> Prop :=
| through_Ret v : through_proxy (Ret v)
| through_Raise e : through_proxy (Raise e)
| through_Exit x : through_proxy (Exit x)
| through_CallTool t a k :
    (forall r, through_proxy (k r)) -> through_proxy (CallTool t a k)
| through_GetCallCount k :
    (forall n, through_proxy (k n)) -> through_proxy (GetCallCount k).

(** A plan that, at work on the proxy [m], does not handle the budget
    failure: at the first call the proxy refuses, if there is one, the plan
    does nothing but raise the failure it got. *)
Fixpoint lets_budget_failure_through (p : Prog X) (m : SandboxMCP) : Prop :=
  match p with
  | CallTool t a k =>
      if call_count m + 1 >? MAX_TOOL_CALLS_PER_PLAN
      then k (Raises budget_error) = Raise budget_error
      else lets_budget_failure_through (k (fst (call_tool m t a)))
                                       (snd (call_tool m t a))
  | GetCallCount k => lets_budget_failure_through (k (call_count m)) m
  | SetCallCount n k => lets_budget_failure_through k (set_call_count n m)
  | CallDispatcher t a k =>
      lets_budget_failure_through (k (fst (call_dispatcher m t a)))
                                  (snd (call_dispatcher m t a))
  | _ => True
  end.

(** The sandbox gives [out] for a conversion that ends as [conversion]:
    the text it returned, the Error text with the message of the exception
    it raised, or, at the caller, what it left with. *)
Definition yields (conversion : Ending X string) (out : SandboxResult X) : Prop :=
  (forall text, conversion = Returned text -> out = Returns text)
  /\ (forall e, conversion = Raised e ->
        out = Returns ("[sandbox error: " ++ exc_msg e ++ "]"))
  /\ (forall x, conversion = Escaped x -> out = Propagates x).

(** The calls the plan made to the proxy, without their answers. *)
Definition calls (m : SandboxMCP) : list ToolCall := map fst (issued m).

(** The proxy's books are in order: the counter counts the calls made, the
    first five of them went to the dispatcher and no other, and any later
    one was answered with the budget failure. *)
Record accounted (m : SandboxMCP) : Prop := mkAccounted {
  acc_count : call_count m = Z.of_nat (List.length (issued m));
  acc_dispatched : dispatched m = firstn 5 (calls m);
  acc_refused :
    forall i c r, nth_error (issued m) i = Some (c, r) -> (5 <= i)%nat ->
                  r = Raises budget_error
}.

(** The dispatcher after it answered the calls [cs], one after the other,
    starting in [d]. *)
Definition replay (cs : list ToolCall) (d : D) : D :=
  fold_left (fun d c => snd (dispatch d (call_name c) (call_args c))) cs d.

(** The dispatcher with a count of the calls it answered; the count is not
    in the source. *)
Definition counting (s : D * nat) (tool_name : string) (input_dict : PyVal)
  : Outcome PyVal * (D * nat) :=
  let (r, d') := dispatch (fst s) tool_name input_dict in (r, (d', S (snd s))).

(** Under the budget the proxy adds nothing of its own: its dispatcher is
    the one that answered the calls passed on, starting in [d0], and each
    of the first five calls got the answer the dispatcher gave it in the
    state the calls before it had left. *)
Record transparent (d0 : D) (m : SandboxMCP) : Prop := mkTransparent {
  tr_dispatcher : dispatcher m = replay (dispatched m) d0;
  tr_answers :
    forall i c r, nth_error (issued m) i = Some (c, r) -> (i < 5)%nat ->
      r = fst (dispatch (replay (firstn i (calls m)) d0) (call_name c) (call_args c))
}.

End Sandbox.

Arguments run_prog {X} D dispatch p mcp.
Arguments format_result {X} py result.
Arguments sandbox_try {X} D dispatch py code mcp.
Arguments run_python_sandbox_mcp {X} D dispatch py code d.
Arguments through_proxy {X} p.
Arguments lets_budget_failure_through {X} D dispatch p m.
Arguments handle {X} r.
Arguments yields {X} conversion out.

(** What the call returns where no plan leaves. *)
Definition text_of (r : SandboxResult Empty_set) : string :=
  match r with
  | Returns text => text
  | Propagates x => match x with end
  end.

(** [run_python_sandbox(code, dispatcher)] as the loop awaits it: the loop
    is embedded for the plans that do not leave, and for them the call
    returns its [str]. *)
Definition run_python_sandbox (D : Type)
    (dispatch : D -> string -> PyVal -> Outcome PyVal * D)
    (py : Interpreter Empty_set) (code : string) (d : D) : string * D :=
  let (r, mcp) := run_python_sandbox_mcp D dispatch py code d in
  (text_of r, dispatcher D mcp).

(** [v = await mcp.call_tool(t, a)] with no handler around it. *)
Definition await_call {X} (t : string) (a : PyVal) (next : PyVal -> Prog X) : Prog X :=
  CallTool t a (fun r => match r with Normal v => next v | Raises e => Raise e end).

End Action.

Import Action.

(* ===================================================================== *)
(** * core/loop.py: the orchestration loop                                *)
(* ===================================================================== *)

Module Loop.

(** [PerceptionResult] of modules/perception.py. *)
Record PerceptionResult : Type := mkPerception {
  intent : string;
  entities : list string;
  tool_hint : option string;
  tags : list string;
  selected_servers : list string
}.

(** Modelled from the spec: the session memory store (modules/memory.py is
    not among the sources).  It is an ordered sequence of prior exchanges;
    [add_tool_output] appends what it is given and [get_session_items]
    reads the sequence. *)
Record MemoryItem : Type := mkItem {
  item_tool_name : string;
  item_plan : string;
  item_result : string;
  item_success : bool;
  item_tags : list string
}.

(** Modelled from the spec: the session context (core/context.py is not
    among the sources), with the fields and methods [run] uses.  The subtask
    log is append-only: [log_subtask] and [update_subtask_status] add the
    pair (tool name, status). *)
Record AgentContext : Type := mkContext {
  user_input : string;
  user_input_override : option string;
  step : Z;
  final_answer : option string;
  subtasks : list (string * string);
  memory : list MemoryItem;
  max_steps : Z;                   (* agent_profile.strategy.max_steps *)
  max_lifelines_per_step : Z       (* agent_profile.strategy.max_lifelines_per_step *)
}.

Definition set_override (o : option string) (c : AgentContext) : AgentContext :=
  mkContext (user_input c) o (step c) (final_answer c) (subtasks c) (memory c)
            (max_steps c) (max_lifelines_per_step c).

Definition set_step (s : Z) (c : AgentContext) : AgentContext :=
  mkContext (user_input c) (user_input_override c) s (final_answer c) (subtasks c)
            (memory c) (max_steps c) (max_lifelines_per_step c).

Definition set_final_answer (a : string) (c : AgentContext) : AgentContext :=
  mkContext (user_input c) (user_input_override c) (step c) (Some a) (subtasks c)
            (memory c) (max_steps c) (max_lifelines_per_step c).

Definition log_subtask (tool_name status : string) (c : AgentContext) : AgentContext :=
  mkContext (user_input c) (user_input_override c) (step c) (final_answer c)
            (subtasks c ++ [(tool_name, status)]) (memory c)
            (max_steps c) (max_lifelines_per_step c).

Definition update_subtask_status := log_subtask.

Definition add_tool_output (it : MemoryItem) (c : AgentContext) : AgentContext :=
  mkContext (user_input c) (user_input_override c) (step c) (final_answer c)
            (subtasks c) (memory c ++ [it]) (max_steps c) (max_lifelines_per_step c).

Definition get_session_items (c : AgentContext) : list MemoryItem := memory c.

(** What happened, oldest first.  Not in the source: it records where the
    source logs. *)
Inductive Event : Type :=
| EvPass (step iteration : Z)     (* a pass of the [while] body, past the guard *)
| EvPerceive (input : string)     (* [run_perception] is called *)
| EvReuse                         (* the cached perception is used instead *)
| EvSandbox (plan : string).      (* [run_python_sandbox] is called *)

Definition FINAL_ANSWER : string := "FINAL_ANSWER:".
Definition FURTHER_PROCESSING_REQUIRED : string := "FURTHER_PROCESSING_REQUIRED:".
Definition SANDBOX_ERROR : string := "[sandbox error:".
Definition MAX_ITERATIONS_REACHED : string := "FINAL_ANSWER: [Max iterations reached]".
Definition MAX_STEPS_REACHED : string := "FINAL_ANSWER: [Max steps reached]".
Definition EXECUTION_FAILED : string := "FINAL_ANSWER: [Execution failed]".

Definition nl : string := String "010"%char EmptyString.

(** Truth value of an optional [str], and [a or b]. *)
Definition truthy (o : option string) : bool :=
  match o with
  | Some s => negb (String.eqb s EmptyString)
  | None => false
  end.

Definition or_else (o : option string) (dflt : string) : string :=
  match o with
  | Some s => if String.eqb s EmptyString then dflt else s
  | None => dflt
  end.

Definition nonempty {A} (l : list A) : bool :=
  match l with [] => false | _ => true end.

(** How often the sandbox was called, and how many passes went past the
    guard. *)
Fixpoint sandbox_calls (es : list Event) : nat :=
  match es with
  | [] => O
  | EvSandbox _ :: r => S (sandbox_calls r)
  | _ :: r => sandbox_calls r
  end.

Fixpoint passes (es : list Event) : nat :=
  match es with
  | [] => O
  | EvPass _ _ :: r => S (passes r)
  | _ :: r => passes r
  end.

Section Run.

(** ** External collaborators *)

(** The dispatcher, and the interpreter under the sandbox.  No plan leaves
    the sandbox here otherwise than by its [return]: what the sandbox lets
    through would end [run] itself. *)
Variable D : Type.
Variable dispatch : D -> string -> PyVal -> Outcome PyVal * D.
Variable py : Interpreter Empty_set.

(** Tools as the dispatcher lists them, and their summary for the prompt. *)
Variable Tool : Type.
Variable get_tools_from_servers : list string -> list Tool.
Variable summarize_tools : list Tool -> string.

(** [run_perception(context, user_input)] and [generate_plan(...)] ask the
    language model; the first argument is the pass that asks, so that two
    calls need not agree. *)
Variable run_perception : Z -> AgentContext -> string -> PerceptionResult.
Variable generate_plan :
  Z -> forall (user_input : string) (perception : PerceptionResult)
         (memory_items : list MemoryItem) (tool_descriptions : string)
         (step_num max_steps : Z), string.

(** The regular-expression search and [unicode_escape] decoding inside
    [clean_tool_result]: the decoded text of the "result" field, if the
    pattern matches and decodes. *)
Variable decode_result_field : string -> option string.

(** [clean_tool_result(content)] *)
Definition clean_tool_result (content : string) : string :=
  if contains "content=[TextContent(" content
     && contains (quote ++ "result" ++ quote ++ ":") content
  then match decode_result_field content with
       | Some decoded => decoded
       | None => content
       end
  else content.

(** The locals of [run] and the context it mutates. *)
Record RunState : Type := mkState {
  context : AgentContext;
  mcp : D;
  last_perception : option PerceptionResult;
  last_selected_servers : option (list string);
  total_iterations : Z;
  events : list Event
}.

Definition with_context (f : AgentContext -> AgentContext) (st : RunState) : RunState :=
  mkState (f (context st)) (mcp st) (last_perception st) (last_selected_servers st)
          (total_iterations st) (events st).

Definition emit (e : Event) (st : RunState) : RunState :=
  mkState (context st) (mcp st) (last_perception st) (last_selected_servers st)
          (total_iterations st) (events st ++ [e]).

(** How one pass of the [while] body ends. *)
Inductive PassExit : Type :=
| PReturn (result : string)   (* [return {"status": "done", "result": result}] *)
| PBreak                      (* [break] *)
| PRetry.                     (* [lifelines_left -= 1; continue] *)

(** The text put in [user_input_override] on a continuation. *)
Definition forward_text (c : AgentContext) (cleaned_content : string) : string :=
  "Original user task: " ++ user_input c ++ nl ++ nl
  ++ "Your last tool produced this result:" ++ nl ++ nl
  ++ cleaned_content ++ nl ++ nl
  ++ "If this fully answers the task, return:" ++ nl
  ++ "FINAL_ANSWER: your answer" ++ nl ++ nl
  ++ "Otherwise, return the next FUNCTION_CALL.".

(** "=== Perception ===": the cached pair, if there is an override and a
    cached perception and the cached server list is not empty; a fresh call
    otherwise, whose result is cached. *)
Definition perceive (user_input_override : option string) (st : RunState)
  : PerceptionResult * list string * RunState :=
  let fresh :=
    let input := or_else user_input_override (user_input (context st)) in
    let perception := run_perception (total_iterations st) (context st) input in
    (perception, selected_servers perception,
     emit (EvPerceive input)
          (mkState (context st) (mcp st) (Some perception)
                   (Some (selected_servers perception))
                   (total_iterations st) (events st))) in
  match last_perception st, last_selected_servers st with
  | Some p, Some servers =>
      if truthy user_input_override && nonempty servers then
        (p, servers, emit EvReuse (with_context (set_override None) st))
      else fresh
  | _, _ => fresh
  end.

(** "=== Execution ===" for a plan that defines [solve].  The sandbox
    returns a [str], so the [else] of [isinstance(result, str)] is dead and
    left out. *)
Definition execute (plan : string) (st : RunState) : RunState * PassExit :=
  let st := with_context (log_subtask "solve_sandbox" "pending") st in
  let st := emit (EvSandbox plan) st in
  let (raw, d') := run_python_sandbox D dispatch py plan (mcp st) in
  let st := mkState (context st) d' (last_perception st) (last_selected_servers st)
                    (total_iterations st) (events st) in
  let result := strip raw in
  let record success :=
    add_tool_output (mkItem "solve_sandbox" plan result success ["sandbox"]) in
  if startswith result FINAL_ANSWER then
    let st := with_context (set_final_answer result) st in
    let st := with_context (update_subtask_status "solve_sandbox" "success") st in
    let st := with_context (record true) st in
    (st, PReturn result)
  else if startswith result FURTHER_PROCESSING_REQUIRED then
    let content := strip (nth 1 (split result FURTHER_PROCESSING_REQUIRED) EmptyString) in
    let cleaned_content := clean_tool_result content in
    let st := with_context
                (fun c => set_override (Some (forward_text c cleaned_content)) c) st in
    (st, PBreak)
  else
    let success := negb (startswith result SANDBOX_ERROR) in
    let answer := if success then "FINAL_ANSWER: " ++ result else EXECUTION_FAILED in
    let st := with_context (set_final_answer answer) st in
    let st := with_context
                (update_subtask_status "solve_sandbox"
                   (if success then "success" else "failure")) st in
    let st := with_context (record success) st in
    if success && negb (contains FURTHER_PROCESSING_REQUIRED result)
    then (st, PReturn answer)
    else (st, PRetry).

(** The state after [total_iterations += 1]. *)
Definition counted (st : RunState) : RunState :=
  mkState (context st) (mcp st) (last_perception st)
          (last_selected_servers st) (total_iterations st + 1) (events st).

(** The first half of a pass of [while lifelines_left >= 0], up to the
    plan: the iteration guard, perception, tool selection, planning. *)
Inductive PlanPhase : Type :=
| GuardFired (st : RunState)               (* [total_iterations > max_total_iterations] *)
| NoTools (st : RunState)                  (* [not selected_tools] *)
| Planned (plan : string) (st : RunState). (* [generate_plan] returned [plan] *)

Definition plan_phase (step : Z) (st : RunState) : PlanPhase :=
  let max_steps := max_steps (context st) in
  let max_total_iterations := max_steps * 2 in
  let st := counted st in
  if total_iterations st >? max_total_iterations then
    GuardFired (with_context (set_final_answer MAX_ITERATIONS_REACHED) st)
  else
    let st := emit (EvPass step (total_iterations st)) st in
    let user_input_override := user_input_override (context st) in
    let '(perception, selected_servers, st) := perceive user_input_override st in
    let selected_tools := get_tools_from_servers selected_servers in
    if negb (nonempty selected_tools) then NoTools st
    else
      let memory_items := get_session_items (context st) in
      let tool_descriptions := summarize_tools selected_tools in
      let plan :=
        generate_plan (total_iterations st)
          (or_else user_input_override (user_input (context st)))
          perception memory_items tool_descriptions (step + 1) max_steps in
      Planned plan st.

(** One pass of the body of [while lifelines_left >= 0]. *)
Definition pass (step : Z) (st : RunState) : RunState * PassExit :=
  match plan_phase step st with
  | GuardFired st' => (st', PReturn MAX_ITERATIONS_REACHED)
  | NoTools st' => (st', PBreak)
  | Planned plan st' =>
      if defines_solve plan then execute plan st' else (st', PRetry)
  end.

(** How the [while] loop of one step ends. *)
Inductive LoopExit : Type :=
| LReturn (result : string)   (* [run] returned *)
| LBreak                      (* left by [break] *)
| LExhausted                  (* [lifelines_left >= 0] became false *)
| LFuel.                      (* the bound on passes below was not enough *)

(** [while lifelines_left >= 0: ...].  Every pass that loops again takes one
    lifeline, so [lifelines_left + 1] passes are enough ([while_loop_total]
    below); [fuel] is that bound. *)
Fixpoint while_loop (fuel : nat) (step lifelines_left : Z) (st : RunState)
  : RunState * LoopExit :=
  if lifelines_left >=? 0 then
    match fuel with
    | O => (st, LFuel)
    | S fuel' =>
        let (st', e) := pass step st in
        match e with
        | PReturn r => (st', LReturn r)
        | PBreak => (st', LBreak)
        | PRetry => while_loop fuel' step (lifelines_left - 1) st'
        end
    end
  else (st, LExhausted).

(** The dictionary [run] returns. *)
Record RunResult : Type := mkResult { status : string; result : string }.

Definition done (answer : string) : RunResult := mkResult "done" answer.

(** [self.context.step = step]: the state in which a step starts. *)
Definition enter (step : Z) (st : RunState) : RunState :=
  with_context (set_step step) st.

(** [for step in range(max_steps): ...] and the lines after it.  [None]
    stands for a [while] loop that ran out of [fuel]. *)
Fixpoint for_steps (steps : list Z) (st : RunState) : RunState * option RunResult :=
  match steps with
  | [] =>
      (with_context (set_final_answer MAX_STEPS_REACHED) st,
       Some (done MAX_STEPS_REACHED))
  | step :: rest =>
      let st := enter step st in
      let lifelines_left := max_lifelines_per_step (context st) in
      match while_loop (Z.to_nat (lifelines_left + 1)) step lifelines_left st with
      | (st', LReturn r) => (st', Some (done r))
      | (st', LBreak) => for_steps rest st'
      | (st', LExhausted) => for_steps rest st'
      | (st', LFuel) => (st', None)
      end
  end.

(** [range(n)] *)
Definition range (n : Z) : list Z := map Z.of_nat (seq 0 (Z.to_nat n)).

(** The locals of [run] before its [for] loop. *)
Definition start (c : AgentContext) (d : D) : RunState :=
  {| context := c; mcp := d; last_perception := None;
     last_selected_servers := None; total_iterations := 0; events := [] |}.

(** [AgentLoop.run] *)
Definition run (c : AgentContext) (d : D) : RunState * option RunResult :=
  for_steps (range (max_steps c)) (start c d).

(** ** Vocabulary for the properties of [run] *)

(** The cached server selection still offers tools. *)
Definition cache_ok (st : RunState) : Prop :=
  forall servers,
    last_selected_servers st = Some servers ->
    nonempty (get_tools_from_servers servers) = true.

(** The sandbox has not been called. *)
Definition no_sandbox (st : RunState) : Prop :=
  forall plan, ~ In (EvSandbox plan) (events st).

(** The state in which the guard ends the run. *)
Definition guard_state (st : RunState) : RunState :=
  with_context (set_final_answer MAX_ITERATIONS_REACHED) (counted st).

(** What every pass keeps: the profile, and a usable cache. *)
Record kept (st st' : RunState) : Prop := mkKept {
  kept_max_steps : max_steps (context st') = max_steps (context st);
  kept_lifelines :
    max_lifelines_per_step (context st') = max_lifelines_per_step (context st);
  kept_cache : cache_ok st -> cache_ok st'
}.

(** What a pass without execution keeps as well. *)
Record quiet (st st' : RunState) : Prop := mkQuiet {
  quiet_mcp : mcp st' = mcp st;
  quiet_subtasks : subtasks (context st') = subtasks (context st);
  quiet_memory : memory (context st') = memory (context st);
  quiet_sandbox : no_sandbox st -> no_sandbox st'
}.

(** A text that some call of [generate_plan] returned. *)
Definition generated (plan : string) : Prop :=
  exists i ui p m td s ms, plan = generate_plan i ui p m td s ms.

(** The text [run] looks at: the sandbox result, stripped. *)
Definition sandbox_text (plan : string) (st : RunState) : string :=
  strip (fst (run_python_sandbox D dispatch py plan (mcp st))).

(** The intermediate content cut out of a continuation result. *)
Definition forwarded (r : string) : string :=
  clean_tool_result
    (strip (nth 1 (split r FURTHER_PROCESSING_REQUIRED) EmptyString)).

(** What one pass does to the books, whatever the collaborators answer: it
    counts itself; it keeps the profile and the user's input; it adds to
    the logs and touches nothing that is there; either the guard stops it
    before anything happens, or it is one pass with at most one call of the
    sandbox; and what it returns opens with the final-answer marker and is
    the context's final answer. *)
Record framed (st st' : RunState) (e : PassExit) : Prop := mkFramed {
  fr_total : total_iterations st' = total_iterations st + 1;
  fr_max_steps : max_steps (context st') = max_steps (context st);
  fr_lifelines :
    max_lifelines_per_step (context st') = max_lifelines_per_step (context st);
  fr_user_input : user_input (context st') = user_input (context st);
  fr_subtasks : exists new, subtasks (context st') = (subtasks (context st) ++ new)%list;
  fr_memory : exists new, memory (context st') = (memory (context st) ++ new)%list;
  fr_events :
    exists new,
      events st' = (events st ++ new)%list
      /\ (sandbox_calls new <= passes new)%nat
      /\ ((total_iterations st + 1 > max_steps (context st) * 2
            /\ new = [] /\ e = PReturn MAX_ITERATIONS_REACHED)
           \/ (total_iterations st + 1 <= max_steps (context st) * 2
               /\ passes new = 1%nat));
  fr_return :
    forall r, e = PReturn r ->
      startswith r FINAL_ANSWER = true /\ final_answer (context st') = Some r
}.

(** The books of a run of the context [c] in progress. *)
Record within (c : AgentContext) (st : RunState) : Prop := mkWithin {
  in_max_steps : max_steps (context st) = max_steps c;
  in_lifelines : max_lifelines_per_step (context st) = max_lifelines_per_step c;
  in_user_input : user_input (context st) = user_input c;
  in_subtasks : exists new, subtasks (context st) = (subtasks c ++ new)%list;
  in_memory : exists new, memory (context st) = (memory c ++ new)%list;
  in_passes :
    Z.of_nat (passes (events st)) <= Z.min (total_iterations st) (max_steps c * 2);
  in_sandbox : (sandbox_calls (events st) <= passes (events st))%nat
}.

End Run.

(** A plan of invalid shape: no [solve] definition and no final-answer
    marker. *)
Definition invalid_shape (plan : string) : Prop :=
  defines_solve plan = false /\ contains FINAL_ANSWER plan = false.

(** A bare final answer: the marker, and no [solve] definition. *)
Definition bare_final_answer (plan : string) : Prop :=
  defines_solve plan = false /\ contains FINAL_ANSWER plan = true.

End Loop.

Import Loop.

(* ===================================================================== *)
(** * agent.py: the conversation history                                  *)
(* ===================================================================== *)

Module History.

(** One record of the store: [{"query": ..., "answer": ..., "timestamp": ...}]. *)
Record Entry : Type := mkEntry { query : string; answer : string; timestamp : string }.

(** What the operating system does with one attempt to write the file. *)
Inductive WriteOutcome : Type :=
| Written                              (* [open] and [json.dump] go through *)
| WriteFails (residue : option string).   (* an exception; [residue] stays on disk *)

Section ConversationHistory.

(** [SequenceMatcher(None, a, b).ratio()] of [difflib]: the float it
    returns, as the rational it is. *)
Variable ratio : string -> string -> Q.

(** [json.dump(history, f, indent=2, ensure_ascii=False)] and [json.load(f)]
    on stores that are lists of records; [None] is a [json.load] that raises. *)
Variable json_dump : list Entry -> string.
Variable json_load : string -> option (list Entry).

(** [self.history] and the file at [self.filepath] ([None]: no such file). *)
Record ConversationHistory : Type := mkHistory {
  history : list Entry;
  file : option string
}.

(** [_load] *)
Definition _load (f : option string) : list Entry :=
  match f with
  | Some text =>
      match json_load text with
      | Some h => h
      | None => []
      end
  | None => []
  end.

(** [__init__] *)
Definition init (f : option string) : ConversationHistory :=
  {| history := _load f; file := f |}.

(** [_save] *)
Definition _save (w : WriteOutcome) (self : ConversationHistory) : ConversationHistory :=
  match w with
  | Written => {| history := history self; file := Some (json_dump (history self)) |}
  | WriteFails residue => {| history := history self; file := residue |}
  end.

(** [similarity] *)
Definition similarity (str1 str2 : string) : Q :=
  ratio (strip (lower str1)) (strip (lower str2)).

(** [a > b] on scores. *)
Definition Qgt_bool (a b : Q) : bool := negb (Qle_bool a b).

(** The [for] loop of [search_similar]. *)
Fixpoint search_loop (q : string) (threshold : Q) (entries : list Entry)
    (best_match : option Entry) (best_score : Q) : option Entry * Q :=
  match entries with
  | [] => (best_match, best_score)
  | entry :: rest =>
      let score := similarity q (query entry) in
      if Qgt_bool score best_score && Qle_bool threshold score
      then search_loop q threshold rest (Some entry) score
      else search_loop q threshold rest best_match best_score
  end.

(** [search_similar]; a record is a non-empty dictionary, hence true. *)
Definition search_similar (self : ConversationHistory) (q : string) (threshold : Q)
  : option Entry :=
  fst (search_loop q threshold (history self) None 0%Q).

(** [add], at the clock reading [now] ([datetime.now().isoformat()]). *)
Definition add (now : string) (w : WriteOutcome) (q a : string)
    (self : ConversationHistory) : ConversationHistory :=
  let entry := mkEntry q a now in
  _save w {| history := history self ++ [entry]; file := file self |}.

(** One call of [add]: its arguments, the clock reading, and the fate of
    its write. *)
Record AddCall : Type := mkAdd {
  add_query : string;
  add_answer : string;
  add_now : string;
  add_write : WriteOutcome
}.

(** A sequence of [add] calls. *)
Fixpoint add_all (calls : list AddCall) (self : ConversationHistory)
  : ConversationHistory :=
  match calls with
  | [] => self
  | c :: rest =>
      add_all rest (add (add_now c) (add_write c) (add_query c) (add_answer c) self)
  end.

(** ** Vocabulary for the properties of the store *)

Local Open Scope Q_scope.

(** What the [for] loop of [search_similar] holds after the entries [seen]:
    either nothing qualified so far, or [best_match] is the first of the
    entries with the highest score, which reaches the threshold and is
    positive. *)
Definition best_so_far (q : string) (threshold : Q) (seen : list Entry)
    (best_match : option Entry) (best_score : Q) : Prop :=
  match best_match with
  | None =>
      best_score = 0
      /\ forall x, In x seen ->
           similarity q (query x) < threshold \/ similarity q (query x) <= 0
  | Some e =>
      best_score = similarity q (query e)
      /\ threshold <= best_score /\ 0 < best_score
      /\ exists before after,
           seen = (before ++ e :: after)%list
           /\ (forall x, In x before -> similarity q (query x) < best_score)
           /\ (forall x, In x after -> similarity q (query x) <= best_score)
  end.

Local Close Scope Q_scope.

End ConversationHistory.

(** The record a call of [add] appends. *)
Definition entry_of (c : AddCall) : Entry :=
  mkEntry (add_query c) (add_answer c) (add_now c).

(** Every write of the calls goes through. *)
Definition all_written (calls : list AddCall) : Prop :=
  forall c, In c calls -> add_write c = Written.

End History.

Import History.

(* ===================================================================== *)
(** * The store as JSON text                                              *)
(* ===================================================================== *)

(** [json.dump(history, f, indent=2, ensure_ascii=False)] and [json.load(f)]
    written out for stores that are lists of records with the three string
    fields. *)
Module Json.

(** One character of a string under [ensure_ascii=False]: only the quote,
    the backslash and the control characters are escaped. *)
Definition escape_char (c : ascii) : string :=
  let n := nat_of_ascii c in
  if (n =? 34)%nat then backslash ++ quote
  else if (n =? 92)%nat then backslash ++ backslash
  else if (n =? 10)%nat then backslash ++ "n"
  else if (n =? 13)%nat then backslash ++ "r"
  else if (n =? 9)%nat then backslash ++ "t"
  else if (n =? 12)%nat then backslash ++ "f"
  else if (n =? 8)%nat then backslash ++ "b"
  else if (n <? 32)%nat then backslash ++ "u00" ++ hex2 n
  else String c EmptyString.

Fixpoint escape (s : string) : string :=
  match s with
  | EmptyString => EmptyString
  | String c r => escape_char c ++ escape r
  end.

Definition dump_string (s : string) : string := quote ++ escape s ++ quote.

Definition dump_entry (e : Entry) : string :=
  "{" ++ nl
  ++ "    " ++ dump_string "query" ++ ": " ++ dump_string (query e) ++ "," ++ nl
  ++ "    " ++ dump_string "answer" ++ ": " ++ dump_string (answer e) ++ "," ++ nl
  ++ "    " ++ dump_string "timestamp" ++ ": " ++ dump_string (timestamp e) ++ nl
  ++ "  }".

(** The separator between two records. *)
Definition record_sep : string := "," ++ nl ++ "  ".

Definition dump (h : list Entry) : string :=
  match h with
  | [] => "[]"
  | _ => "[" ++ nl ++ "  " ++ join record_sep (map dump_entry h) ++ nl ++ "]"
  end.

(** JSON white space. *)
Definition is_ws (c : ascii) : bool :=
  let n := nat_of_ascii c in
  ((n =? 32) || (n =? 9) || (n =? 10) || (n =? 13))%nat.

Fixpoint skip_ws (s : string) : string :=
  match s with
  | String c r => if is_ws c then skip_ws r else s
  | EmptyString => EmptyString
  end.

Definition hex_value (c : ascii) : option nat :=
  let n := nat_of_ascii c in
  if ((48 <=? n) && (n <=? 57))%nat then Some (n - 48)%nat
  else if ((97 <=? n) && (n <=? 102))%nat then Some (n - 87)%nat
  else if ((65 <=? n) && (n <=? 70))%nat then Some (n - 55)%nat
  else None.

(** The characters of a string up to its closing quote, escapes decoded;
    a raw control character is refused, as is a code point above 255. *)
Fixpoint load_chars (s : string) : option (string * string) :=
  match s with
  | EmptyString => None
  | String c r =>
      if Ascii.eqb c "034"%char then Some (EmptyString, r)
      else if Ascii.eqb c "092"%char then
        match r with
        | String e r' =>
            let simple (d : ascii) :=
              match load_chars r' with
              | Some (t, rest) => Some (String d t, rest)
              | None => None
              end in
            if Ascii.eqb e "034"%char then simple "034"%char
            else if Ascii.eqb e "092"%char then simple "092"%char
            else if Ascii.eqb e "/"%char then simple "/"%char
            else if Ascii.eqb e "n"%char then simple "010"%char
            else if Ascii.eqb e "r"%char then simple "013"%char
            else if Ascii.eqb e "t"%char then simple "009"%char
            else if Ascii.eqb e "f"%char then simple "012"%char
            else if Ascii.eqb e "b"%char then simple "008"%char
            else if Ascii.eqb e "u"%char then
              match r' with
              | String h1 (String h2 (String h3 (String h4 r''))) =>
                  match hex_value h1, hex_value h2, hex_value h3, hex_value h4 with
                  | Some O, Some O, Some a, Some b =>
                      match load_chars r'' with
                      | Some (t, rest) =>
                          Some (String (ascii_of_nat (16 * a + b)) t, rest)
                      | None => None
                      end
                  | _, _, _, _ => None
                  end
              | _ => None
              end
            else None
        | EmptyString => None
        end
      else if (nat_of_ascii c <? 32)%nat then None
      else
        match load_chars r with
        | Some (t, rest) => Some (String c t, rest)
        | None => None
        end
  end.

(** A string value, after white space. *)
Definition load_string (s : string) : option (string * string) :=
  match skip_ws s with
  | String c r => if Ascii.eqb c "034"%char then load_chars r else None
  | EmptyString => None
  end.

(** The character [c], after white space. *)
Definition expect (c : ascii) (s : string) : option string :=
  match skip_ws s with
  | String c' r => if Ascii.eqb c c' then Some r else None
  | EmptyString => None
  end.

(** The members of an object after its first brace: ["key": "value"] pairs
    separated by commas, up to the closing brace. *)
Fixpoint load_members (fuel : nat) (s : string)
  : option (list (string * string) * string) :=
  match fuel with
  | O => None
  | S fuel' =>
      match load_string s with
      | None => None
      | Some (k, s1) =>
          match expect ":" s1 with
          | None => None
          | Some s2 =>
              match load_string s2 with
              | None => None
              | Some (v, s3) =>
                  match expect "," s3 with
                  | Some s4 =>
                      match load_members fuel' s4 with
                      | Some (kvs, rest) => Some ((k, v) :: kvs, rest)
                      | None => None
                      end
                  | None =>
                      match expect "}" s3 with
                      | Some rest => Some ([(k, v)], rest)
                      | None => None
                      end
                  end
              end
          end
      end
  end.

(** The value of [key] in a loaded object; the last occurrence wins. *)
Fixpoint member (key : string) (kvs : list (string * string)) : option string :=
  match kvs with
  | [] => None
  | (k, v) :: r =>
      match member key r with
      | Some v' => Some v'
      | None => if String.eqb k key then Some v else None
      end
  end.

Definition entry_of_members (kvs : list (string * string)) : option Entry :=
  match member "query" kvs, member "answer" kvs, member "timestamp" kvs with
  | Some q, Some a, Some t => Some (mkEntry q a t)
  | _, _, _ => None
  end.

Definition load_entry (fuel : nat) (s : string) : option (Entry * string) :=
  match expect "{" s with
  | None => None
  | Some s1 =>
      match load_members fuel s1 with
      | None => None
      | Some (kvs, rest) =>
          match entry_of_members kvs with
          | Some e => Some (e, rest)
          | None => None
          end
      end
  end.

(** The records of an array after its first one. *)
Fixpoint load_entries (fuel : nat) (s : string) : option (list Entry * string) :=
  match fuel with
  | O => None
  | S fuel' =>
      match load_entry fuel' s with
      | None => None
      | Some (e, s1) =>
          match expect "," s1 with
          | Some s2 =>
              match load_entries fuel' s2 with
              | Some (es, rest) => Some (e :: es, rest)
              | None => None
              end
          | None =>
              match expect "]" s1 with
              | Some rest => Some ([e], rest)
              | None => None
              end
          end
      end
  end.

(** [json.load]: an array of records and nothing after it. *)
Definition load (text : string) : option (list Entry) :=
  match expect "[" text with
  | None => None
  | Some s1 =>
      match expect "]" s1 with
      | Some rest =>
          match skip_ws rest with
          | EmptyString => Some []
          | _ => None
          end
      | None =>
          match load_entries (S (String.length text)) s1 with
          | Some (es, rest) =>
              match skip_ws rest with
              | EmptyString => Some es
              | _ => None
              end
          | None => None
          end
      end
  end.

End Json.

(* ===================================================================== *)
(** * modules/decision.py: what the planner makes of the model's reply     *)
(* ===================================================================== *)

Module Decision.

(** [s.strip(chars)] for the single character [c]. *)
Fixpoint lstrip_char (c : ascii) (s : string) : string :=
  match s with
  | EmptyString => EmptyString
  | String a r => if Ascii.eqb a c then lstrip_char c r else s
  end.

Fixpoint rstrip_char (c : ascii) (s : string) : string :=
  match s with
  | EmptyString => EmptyString
  | String a r =>
      match rstrip_char c r with
      | EmptyString => if Ascii.eqb a c then EmptyString else String a EmptyString
      | r' => String a r'
      end
  end.

Definition strip_char (c : ascii) (s : string) : string :=
  rstrip_char c (lstrip_char c s).

(** [s[n:]] *)
Fixpoint drop (n : nat) (s : string) : string :=
  match n, s with
  | S k, String _ r => drop k r
  | _, _ => s
  end.

Definition fence : string := "```".

(** The [try] block of [generate_plan] from the reply of
    [model.generate_text(prompt)] on: the stripping of a code fence, the two
    accepted shapes, and the fallbacks. *)
Definition plan_of_reply (reply : Outcome string) : string :=
  match reply with
  | Raises _ => "FINAL_ANSWER: [unknown]"
  | Normal text =>
      let raw := strip text in
      let raw :=
        if startswith raw fence then
          let raw := strip (strip_char "`" raw) in
          if startswith (lower raw) "python"
          then strip (drop (String.length "python") raw)
          else raw
        else raw in
      if defines_solve raw then raw
      else if contains "FINAL_ANSWER:" raw then raw
      else "FINAL_ANSWER: [Could not generate valid solve()]"
  end.

(** A reply in a code fence: the fence with its language tag, the body on
    lines of its own, the closing fence. *)
Definition fenced (tag body : string) : string :=
  fence ++ tag ++ nl ++ body ++ nl ++ fence.

Section Planner.

(** [model.generate_text(prompt)] for the prompt [generate_plan] builds from
    its arguments (the prompt file, the tool descriptions, the user input,
    the memory texts), asked on pass [i]: the reply, or the exception
    raised.  Building the prompt is taken to go through. *)
Variable generate_text :
  Z -> string -> PerceptionResult -> list MemoryItem -> string -> Z -> Z -> Outcome string.

(** [generate_plan(user_input, perception, memory_items, tool_descriptions,
    prompt_path, step_num, max_steps)] *)
Definition generate_plan (i : Z) (user_input : string) (perception : PerceptionResult)
    (memory_items : list MemoryItem) (tool_descriptions : string)
    (step_num max_steps : Z) : string :=
  plan_of_reply
    (generate_text i user_input perception memory_items tool_descriptions
                   step_num max_steps).

End Planner.

End Decision.

(* ===================================================================== *)
(** * agent.py: the interactive driver                                    *)
(* ===================================================================== *)

Module Agent.

(** What arrives at a prompt of [input()]: a line, or Ctrl-C. *)
Inductive Key : Type :=
| Line (text : string)
| CtrlC.

(** What [main] prints about answers; the wording and the other prints are
    left out. *)
Inductive Output : Type :=
| OfferCached (e : Entry)          (* "Found similar query in history" *)
| CachedAnswer (a : string)        (* "Cached Answer: ..." *)
| FinalAnswer (a : string)         (* "Final Answer: ..." *)
| FurtherProcessing (input : string)
| RawAnswer (a : string).          (* "Final Answer (raw): ..." *)

(** How [main] ends. *)
Inductive MainExit : Type :=
| Exited          (* the user typed "exit" *)
| Interrupted     (* [KeyboardInterrupt] at a prompt, caught by [main] *)
| EndOfInput      (* [input()] raises [EOFError], which [main] lets through *)
| OutOfFuel.      (* the bound on re-runs below was not enough *)

Section Main.

(** ** External collaborators *)

(** Those of the loop; perception and the planner get the number of the
    run as well, so that two runs need not agree. *)
Variable D : Type.
Variable dispatch : D -> string -> PyVal -> Outcome PyVal * D.
Variable py : Interpreter Empty_set.
Variable Tool : Type.
Variable get_tools_from_servers : list string -> list Tool.
Variable summarize_tools : list Tool -> string.
Variable run_perception : nat -> Z -> AgentContext -> string -> PerceptionResult.
Variable generate_plan :
  nat -> Z -> string -> PerceptionResult -> list MemoryItem -> string -> Z -> Z -> string.
Variable decode_result_field : string -> option string.

(** Those of the history. *)
Variable ratio : string -> string -> Q.
Variable json_dump : list Entry -> string.
Variable json_load : string -> option (list Entry).

(** [AgentContext(user_input=..., session_id=..., ...)] of core/context.py,
    which is not among the sources: the context of run number [n] and its
    [session_id]. *)
Variable AgentContext_init : nat -> string -> option string -> AgentContext * string.

(** The clock and the fate of the write at the [add] after run number [n]. *)
Variable clock : nat -> string.
Variable disk : nat -> WriteOutcome.

(** The locals of [main]; [runs] counts the calls of [agent.run()] and is
    not in the source. *)
Record MainState : Type := mkMain {
  current_session : option string;
  conv_history : ConversationHistory;
  multi_mcp : D;
  runs : nat;
  output : list Output
}.

Definition print (o : Output) (st : MainState) : MainState :=
  mkMain (current_session st) (conv_history st) (multi_mcp st) (runs st)
         (output st ++ [o]).

(** [agent.run()] in run number [n]. *)
Definition agent_run (n : nat) (c : AgentContext) (d : D)
  : RunState D * option RunResult :=
  run D dispatch py Tool get_tools_from_servers summarize_tools
      (run_perception n) (generate_plan n) decode_result_field c d.

(** The inner [while True] of [main]: run the agent on [user_input], and
    again on what follows the continuation marker as long as a result asks
    for it.  [fuel] bounds the runs; [None] is a loop that needs more. *)
Fixpoint solve_task (fuel : nat) (user_input : string) (st : MainState)
  : option MainState :=
  match fuel with
  | O => None
  | S fuel' =>
      let n := runs st in
      let (context, session_id) := AgentContext_init n user_input (current_session st) in
      let session :=
        if truthy (current_session st) then current_session st else Some session_id in
      match agent_run n context (multi_mcp st) with
      | (_, None) => None
      | (rs, Some res) =>
          let st := mkMain session (conv_history st) (mcp D rs) (S n) (output st) in
          let answer := result res in
          if contains "FINAL_ANSWER:" answer then
            let final_answer := strip (nth 1 (split answer "FINAL_ANSWER:") EmptyString) in
            let st := print (FinalAnswer final_answer) st in
            let original_query := Loop.user_input (Loop.context D rs) in
            Some (mkMain (current_session st)
                         (History.add json_dump (clock n) (disk n) original_query
                                      final_answer (conv_history st))
                         (multi_mcp st) (runs st) (output st))
          else if contains "FURTHER_PROCESSING_REQUIRED:" answer then
            let user_input :=
              strip (nth 1 (split answer "FURTHER_PROCESSING_REQUIRED:") EmptyString) in
            solve_task fuel' user_input (print (FurtherProcessing user_input) st)
          else Some (print (RawAnswer answer) st)
      end
  end.

(** The [while True] of [main] on the keys that arrive at its prompts. *)
Fixpoint main_loop (fuel : nat) (console : list Key) (st : MainState)
  : MainState * MainExit :=
  match console with
  | [] => (st, EndOfInput)
  | CtrlC :: _ => (st, Interrupted)
  | Line user_input :: rest =>
      if String.eqb (lower user_input) "exit" then (st, Exited)
      else if String.eqb (lower user_input) "new" then
        main_loop fuel rest
          (mkMain None (conv_history st) (multi_mcp st) (runs st) (output st))
      else
        match History.search_similar ratio (conv_history st) user_input (3 # 4) with
        | Some cached =>
            let st := print (OfferCached cached) st in
            match rest with
            | [] => (st, EndOfInput)
            | CtrlC :: _ => (st, Interrupted)
            | Line use_cached :: rest' =>
                if String.eqb (strip (lower use_cached)) "y" then
                  main_loop fuel rest' (print (CachedAnswer (answer cached)) st)
                else
                  match solve_task fuel user_input st with
                  | Some st' => main_loop fuel rest' st'
                  | None => (st, OutOfFuel)
                  end
            end
        | None =>
            match solve_task fuel user_input st with
            | Some st' => main_loop fuel rest st'
            | None => (st, OutOfFuel)
            end
        end
  end.

(** [main] from the first prompt on, with the history file [f] and the
    dispatcher [d] it set up. *)
Definition main (fuel : nat) (f : option string) (d : D) (console : list Key)
  : MainState * MainExit :=
  main_loop fuel console
    (mkMain None (History.init json_load f) d O []).

End Main.

End Agent.


(* ===================================================================== *)
(** * Concrete worlds for the runs below                                  *)
(* ===================================================================== *)

Module Demo.

(** A small world: one server, named after its tool; a dispatcher that
    answers every call with a tool result object; a perception that always
    selects the server. *)
Definition tool_result : PyVal :=
  VObj "CallToolResult"
       "meta=None content=[TextContent(type='text', text='4')] isError=False".

Definition dispatch (d : unit) (_ : string) (_ : PyVal) : Outcome PyVal * unit :=
  (Normal tool_result, d).
Definition get_tools (servers : list string) : list string := servers.
Definition summarize (tools : list string) : string := join ", " tools.
Definition perception (_ : Z) (_ : AgentContext) (_ : string) : PerceptionResult :=
  mkPerception "calculate" [] None [] ["math"].
Definition decode (_ : string) : option string := None.

Definition task (N L : Z) : AgentContext :=
  mkContext "What is 2+2?" None 0 None [] [] N L.

(** A run is played with one plan text: the planner always answers it, and
    the interpreter knows what it does; no other text is asked for, and any
    other is taken not to compile. *)
Record Scenario : Type := mkScenario { plan : string; behaviour : Plan Empty_set }.

Definition syntax_error : PyExc := Exc "SyntaxError" "invalid syntax".

Definition planner (s : Scenario)
  : Z -> string -> PerceptionResult -> list MemoryItem -> string -> Z -> Z -> string :=
  fun _ _ _ _ _ _ _ => plan s.

(** The interpreter that knows the plan text [code], with the conversions
    of the library as [Py] writes them out. *)
Definition interpreter_of {X} (code : string) (b : Plan X) : Interpreter X :=
  mkInterpreter
    (fun c => if String.eqb c code then b else CompileError syntax_error)
    (fun v => Returned (py_str v))
    (fun v => Returned (py_str v))
    (fun v => of_outcome (json_dumps v)).

Definition interpreter (s : Scenario) : Interpreter Empty_set :=
  interpreter_of (plan s) (behaviour s).

Definition run_in (s : Scenario) (N L : Z) : RunState unit * option RunResult :=
  run unit dispatch (interpreter s) string get_tools summarize perception (planner s)
      decode (task N L) tt.

Definition for_steps_in (s : Scenario) (steps : list Z) (st : RunState unit)
  : RunState unit * option RunResult :=
  for_steps unit dispatch (interpreter s) string get_tools summarize perception
            (planner s) decode steps st.

Definition pass_in (s : Scenario) (step : Z) (st : RunState unit)
  : RunState unit * PassExit :=
  pass unit dispatch (interpreter s) string get_tools summarize perception
       (planner s) decode step st.

Definition sandbox_in (s : Scenario) : string * SandboxMCP unit :=
  let (r, mcp) := run_python_sandbox_mcp unit dispatch (interpreter s) (plan s) tt in
  (text_of r, mcp).

(** The state in which [run] starts, and the state in which the first pass
    of step 0 has its plan. *)
Definition st0 (N L : Z) : RunState unit := start unit (task N L) tt.

Definition st1 (s : Scenario) (N L : Z) : RunState unit :=
  match plan_phase unit string get_tools summarize perception (planner s) 0
          (enter unit 0 (st0 N L)) with
  | Planned _ _ st => st
  | GuardFired _ st => st
  | NoTools _ st => st
  end.

(** The planner of modules/decision.py when the model always replies
    [reply]. *)
Definition shipped (reply : string) : Scenario :=
  mkScenario (Decision.plan_of_reply (Normal reply)) (CompileError syntax_error).

(** ** Plans for the loop *)

(** [def solve(): return <literal>] *)
Definition returning (literal : string) (v : PyVal) : Scenario :=
  mkScenario ("def solve():" ++ nl ++ "    return " ++ literal) (Solve (Ret v)).

(** Neither a [solve] definition nor a final answer. *)
Definition unsure : Scenario := mkScenario "I am not sure." (CompileError syntax_error).

(** A bare final answer. *)
Definition final42 : Scenario := mkScenario "FINAL_ANSWER: 42" (CompileError syntax_error).

Definition further : Scenario :=
  returning "'FURTHER_PROCESSING_REQUIRED: 4'" (VStr "FURTHER_PROCESSING_REQUIRED: 4").

Definition four : Scenario := returning "4" (VInt 4).

Definition note_text : string := "Note: FURTHER_PROCESSING_REQUIRED: 4".
Definition note : Scenario :=
  returning "'Note: FURTHER_PROCESSING_REQUIRED: 4'" (VStr note_text).

(** ** Plans for the sandbox *)

Definition add_args (n : Z) : PyVal :=
  VDict [(VStr "a", VInt n); (VStr "b", VInt n)].

Definition answer_of {X} (r : PyVal) : Prog X :=
  Ret (VStr ("FINAL_ANSWER: " ++ py_str r)).

(** [for n in ns: r = await mcp.call_tool('add', {'a': n, 'b': n})], then
    the answer. *)
Fixpoint add_loop {X} (ns : list Z) (r : PyVal) : Prog X :=
  match ns with
  | [] => answer_of r
  | n :: rest => await_call "add" (add_args n) (fun v => add_loop rest v)
  end.

(** The same loop with [try: ... except Exception: return 'FINAL_ANSWER: done']
    around the call. *)
Fixpoint guarded_add_loop {X} (ns : list Z) (r : PyVal) : Prog X :=
  match ns with
  | [] => answer_of r
  | n :: rest =>
      CallTool "add" (add_args n)
        (fun o => match o with
                  | Normal v => guarded_add_loop rest v
                  | Raises _ => Ret (VStr "FINAL_ANSWER: done")
                  end)
  end.

Definition six_calls : Scenario :=
  mkScenario
    ("async def solve():" ++ nl
     ++ "    r = None" ++ nl
     ++ "    for n in range(1, 7):" ++ nl
     ++ "        r = await mcp.call_tool('add', {'a': n, 'b': n})" ++ nl
     ++ "    return f'FINAL_ANSWER: {r}'")
    (Solve (add_loop [1; 2; 3; 4; 5; 6] VNone)).

Definition six_calls_guarded : Scenario :=
  mkScenario
    ("async def solve():" ++ nl
     ++ "    r = None" ++ nl
     ++ "    for n in range(1, 7):" ++ nl
     ++ "        try:" ++ nl
     ++ "            r = await mcp.call_tool('add', {'a': n, 'b': n})" ++ nl
     ++ "        except Exception:" ++ nl
     ++ "            return 'FINAL_ANSWER: done'" ++ nl
     ++ "    return f'FINAL_ANSWER: {r}'")
    (Solve (guarded_add_loop [1; 2; 3; 4; 5; 6] VNone)).

Definition first_five : list ToolCall :=
  map (fun n => mkCall "add" (add_args n)) [1; 2; 3; 4; 5].

Definition no_solve : Scenario := mkScenario "x = 1" NoSolve.

Definition result_dict : Scenario :=
  returning "{'result': 4, 'unit': 'apples'}"
            (VDict [(VStr "result", VInt 4); (VStr "unit", VStr "apples")]).

Definition sum_dict : Scenario :=
  returning "{'sum': 4, 'ok': True}"
            (VDict [(VStr "sum", VInt 4); (VStr "ok", VBool true)]).

Definition a_list : Scenario :=
  returning "[1, 'two', None]" (VList [VInt 1; VStr "two"; VNone]).

Definition a_pair : Scenario := returning "1, 2" (VTuple [VInt 1; VInt 2]).

(** A plan that hands back what the tool gave it, inside a dictionary. *)
Definition wrapped : Scenario :=
  mkScenario
    ("async def solve():" ++ nl
     ++ "    r = await mcp.call_tool('add', {'a': 2, 'b': 2})" ++ nl
     ++ "    return {'output': r}")
    (Solve (await_call "add" (add_args 2)
                       (fun r => Ret (VDict [(VStr "output", r)])))).

(** ** More plans and worlds *)

(** A plan that returns a final answer. *)
Definition final_four : Scenario :=
  returning "'FINAL_ANSWER: 4'" (VStr "FINAL_ANSWER: 4").

(** A plan whose [solve] raises. *)
Definition crash : Scenario :=
  mkScenario ("def solve():" ++ nl ++ "    raise ValueError('no data')")
             (Solve (Raise (Exc "ValueError" "no data"))).

(** A dispatcher without tools. *)
Definition no_tools (_ : list string) : list string := [].

(** A planner that asks for a continuation on the user's input and has
    nothing usable to say on a forwarding text. *)
Definition forgetful_planner
  : Z -> string -> PerceptionResult -> list MemoryItem -> string -> Z -> Z -> string :=
  fun _ user_input _ _ _ _ _ =>
    if startswith user_input "Original user task:" then plan unsure else plan further.

(** The state after the first pass of step 0 under that planner: the
    continuation has been asked for. *)
Definition st_forwarded (N L : Z) : RunState unit :=
  fst (pass unit dispatch (interpreter further) string get_tools summarize perception
            forgetful_planner decode 0 (enter unit 0 (st0 N L))).

(** A model that always answers with a final answer of its own. *)
Definition direct_answer
  : Z -> string -> PerceptionResult -> list MemoryItem -> string -> Z -> Z
    -> Outcome string :=
  fun _ _ _ _ _ _ _ => Normal "FINAL_ANSWER: 4".

(** A dispatcher that counts the calls it answers, and answers with the
    count. *)
Definition counting_dispatch (d : Z) (_ : string) (_ : PyVal) : Outcome PyVal * Z :=
  (Normal (VInt (d + 1)), d + 1).

(** ** Plans that do not keep to [mcp.call_tool] *)

(** The loop of [add_loop], with the counter set back to 0 whenever it has
    come to 5. *)
Fixpoint reset_add_loop {X} (ns : list Z) (r : PyVal) : Prog X :=
  match ns with
  | [] => answer_of r
  | n :: rest =>
      GetCallCount (fun count =>
        let call := await_call "add" (add_args n) (fun v => reset_add_loop rest v) in
        if count =? 5 then SetCallCount 0 call else call)
  end.

Definition seven_calls_reset : Scenario :=
  mkScenario
    ("async def solve():" ++ nl
     ++ "    r = None" ++ nl
     ++ "    for n in range(1, 8):" ++ nl
     ++ "        if mcp.call_count == 5:" ++ nl
     ++ "            mcp.call_count = 0" ++ nl
     ++ "        r = await mcp.call_tool('add', {'a': n, 'b': n})" ++ nl
     ++ "    return f'FINAL_ANSWER: {r}'")
    (Solve (reset_add_loop [1; 2; 3; 4; 5; 6; 7] VNone)).

(** The counter is set by the module body, before [solve] is called. *)
Definition seven_calls_head_start : Scenario :=
  mkScenario
    ("mcp.call_count = -2" ++ nl
     ++ "async def solve():" ++ nl
     ++ "    r = None" ++ nl
     ++ "    for n in range(1, 8):" ++ nl
     ++ "        r = await mcp.call_tool('add', {'a': n, 'b': n})" ++ nl
     ++ "    return f'FINAL_ANSWER: {r}'")
    (Solve (SetCallCount (-2) (add_loop [1; 2; 3; 4; 5; 6; 7] VNone))).

(** The loop of [add_loop] on the dispatcher itself. *)
Fixpoint direct_add_loop {X} (ns : list Z) (r : PyVal) : Prog X :=
  match ns with
  | [] => answer_of r
  | n :: rest =>
      CallDispatcher "add" (add_args n)
        (fun o => match o with
                  | Normal v => direct_add_loop rest v
                  | Raises e => Raise e
                  end)
  end.

Definition seven_calls_direct : Scenario :=
  mkScenario
    ("async def solve():" ++ nl
     ++ "    r = None" ++ nl
     ++ "    for n in range(1, 8):" ++ nl
     ++ "        r = await mcp.dispatcher.call_tool('add', {'a': n, 'b': n})" ++ nl
     ++ "    return f'FINAL_ANSWER: {r}'")
    (Solve (direct_add_loop [1; 2; 3; 4; 5; 6; 7] VNone)).

Definition seven_sums : list ToolCall :=
  map (fun n => mkCall "add" (add_args n)) [1; 2; 3; 4; 5; 6; 7].

(** The sandbox on a counting dispatcher that has answered no call yet. *)
Definition counted_in (s : Scenario) : string * SandboxMCP Z :=
  let (r, mcp) := run_python_sandbox_mcp Z counting_dispatch (interpreter s) (plan s) 0 in
  (text_of r, mcp).

(** ** Plans that leave *)

Definition sys_exit_code : string :=
  "import sys" ++ nl ++ "def solve():" ++ nl ++ "    sys.exit('stop')".

Definition sys_exit : Plan PyExit := Solve (Exit (ExitOf "SystemExit" "stop")).

Definition interrupt_code : string := "raise KeyboardInterrupt".

Definition interrupt : Plan PyExit :=
  ExecExit (ExitOf "KeyboardInterrupt" EmptyString).

Definition mute_code : string :=
  "class Mute(Exception):" ++ nl
  ++ "    def __str__(self):" ++ nl
  ++ "        raise ValueError('no text')" ++ nl
  ++ "def solve():" ++ nl
  ++ "    raise Mute()".

Definition mute : Plan PyExit := Solve (Exit (Unprintable "Mute")).

Definition leaving_in (code : string) (b : Plan PyExit)
  : SandboxResult PyExit * SandboxMCP unit :=
  run_python_sandbox_mcp unit dispatch (interpreter_of code b) code tt.

(** ** More values to format *)

Definition float_dict : Scenario :=
  returning "{'x': 1.5}" (VDict [(VStr "x", VFloat "1.5")]).

Definition number_keys : Scenario :=
  returning "{1: 'one', None: [2.0, float('inf')]}"
            (VDict [(VInt 1, VStr "one");
                    (VNone, VList [VFloat "2.0"; VFloat "inf"])]).

Definition a_set : PyVal := VObj "set" "{1}".

Definition set_list : Scenario :=
  returning "['a b', 1.5, {1}]" (VList [VStr "a b"; VFloat "1.5"; a_set]).

Definition set_dict : Scenario :=
  returning "{'seen': {1}}" (VDict [(VStr "seen", a_set)]).

End Demo.

Module HistoryDemo.

(** A stand-in for [difflib] on the texts used below: 1 on equal texts, 0
    otherwise (texts without a common character score 0 there too). *)
Definition ratio (a b : string) : Q := if String.eqb a b then 1%Q else 0%Q.

Definition france : Entry :=
  mkEntry "What is the capital of France?" "Paris" "2025-01-01T10:00:00".
Definition gold : Entry :=
  mkEntry "current gold price" "unknown" "2025-01-02T11:30:00".

Definition store (h : list Entry) : ConversationHistory :=
  {| history := h; file := None |}.

Definition two_adds : list AddCall :=
  [mkAdd "What is 2+2?" "4" "2025-01-01T10:00:00" Written;
   mkAdd ("Say " ++ quote ++ "hi" ++ quote ++ nl ++ "twice") "hi hi"
         "2025-01-01T10:05:00" Written].

(** An [add] whose write fails, and one whose write goes through. *)
Definition lost_add : AddCall :=
  mkAdd "What is 2+2?" "4" "2025-01-01T10:00:00" (WriteFails None).
Definition kept_add : AddCall :=
  mkAdd "current gold price" "unknown" "2025-01-02T11:30:00" Written.

End HistoryDemo.

Module AgentDemo.

(** The driver in the small world of [Demo], played with one plan text; a
    profile of one step without lifelines; every write goes through. *)
Definition context_init (_ : nat) (user_input : string) (session : option string)
  : AgentContext * string :=
  (mkContext user_input None 0 None [] [] 1 0,
   match session with Some s => s | None => "session-1" end).

Definition clock (_ : nat) : string := "2025-01-01T10:00:00".
Definition disk (_ : nat) : WriteOutcome := Written.

Definition main_in (s : Demo.Scenario) (console : list Agent.Key)
  : Agent.MainState unit * Agent.MainExit :=
  Agent.main unit Demo.dispatch (Demo.interpreter s) string Demo.get_tools
    Demo.summarize (fun _ => Demo.perception) (fun _ => Demo.planner s) Demo.decode
    HistoryDemo.ratio Json.dump Json.load context_init clock disk
    1 None tt console.

End AgentDemo.

(* ===================================================================== *)
(** * Facts about strings                                                 *)
(* ===================================================================== *)

Lemma startswith_app (p s : string) : startswith (p ++ s) p = true.
Proof.
  induction p as [|c p IH]; simpl; [reflexivity|].
  now rewrite IH, Ascii.eqb_refl.
Qed.

(** A text cannot open with both markers. *)
Lemma further_not_final (r : string) :
  startswith r FURTHER_PROCESSING_REQUIRED = true -> startswith r FINAL_ANSWER = false.
Proof.
  unfold FURTHER_PROCESSING_REQUIRED, FINAL_ANSWER.
  destruct r as [|a [|b r]]; cbn [startswith]; try discriminate.
  - now rewrite andb_false_r.
  - destruct (Ascii.eqb_spec "F" a); [|discriminate].
    destruct (Ascii.eqb_spec "U" b) as [<-|]; [|discriminate].
    reflexivity.
Qed.

(* ===================================================================== *)
(** * Facts about the planner                                             *)
(* ===================================================================== *)

(** Whatever the model replies, the planner returns a [solve] definition or
    a text with the final-answer marker. *)
Lemma plan_of_reply_shape (reply : Outcome string) :
  defines_solve (Decision.plan_of_reply reply) = true
  \/ contains FINAL_ANSWER (Decision.plan_of_reply reply) = true.
Proof.
  unfold Decision.plan_of_reply. destruct reply as [text|e]; [|right; reflexivity].
  cbv zeta.
  match goal with |- context [if defines_solve ?r then _ else _] =>
    generalize r; intros raw end.
  destruct (defines_solve raw) eqn:Es; [left; exact Es|].
  change "FINAL_ANSWER:" with FINAL_ANSWER.
  destruct (contains FINAL_ANSWER raw) eqn:Ec; [right; exact Ec | right; reflexivity].
Qed.

(** So a plan of the planner that defines no [solve] is a bare final answer:
    the loop's "invalid plan" branch is the branch of the planner's final
    answers. *)
Lemma plan_of_reply_bare (reply : Outcome string) :
  defines_solve (Decision.plan_of_reply reply) = false ->
  bare_final_answer (Decision.plan_of_reply reply).
Proof.
  intros Hs. split; [exact Hs|].
  destruct (plan_of_reply_shape reply) as [H|H]; [congruence | exact H].
Qed.

(* ===================================================================== *)
(** * Facts about the orchestration loop                                  *)
(* ===================================================================== *)

Section LoopFacts.

Variable D : Type.
Variable dispatch : D -> string -> PyVal -> Outcome PyVal * D.
Variable py : Interpreter Empty_set.
Variable Tool : Type.
Variable get_tools_from_servers : list string -> list Tool.
Variable summarize_tools : list Tool -> string.
Variable run_perception : Z -> AgentContext -> string -> PerceptionResult.
Variable generate_plan :
  Z -> string -> PerceptionResult -> list MemoryItem -> string -> Z -> Z -> string.
Variable decode_result_field : string -> option string.

Local Abbreviation State := (RunState D).
Local Abbreviation sandbox := (run_python_sandbox D dispatch py).
Local Abbreviation perceive := (@Loop.perceive D run_perception).
Local Abbreviation plan_phase :=
  (@Loop.plan_phase D Tool get_tools_from_servers summarize_tools run_perception
                    generate_plan).
Local Abbreviation execute := (@Loop.execute D dispatch py decode_result_field).
Local Abbreviation pass :=
  (@Loop.pass D dispatch py Tool get_tools_from_servers summarize_tools
              run_perception generate_plan decode_result_field).
Local Abbreviation while_loop :=
  (@Loop.while_loop D dispatch py Tool get_tools_from_servers summarize_tools
                    run_perception generate_plan decode_result_field).
Local Abbreviation for_steps :=
  (@Loop.for_steps D dispatch py Tool get_tools_from_servers summarize_tools
                   run_perception generate_plan decode_result_field).
Local Abbreviation run :=
  (@Loop.run D dispatch py Tool get_tools_from_servers summarize_tools
             run_perception generate_plan decode_result_field).
Local Abbreviation enter := (Loop.enter D).
Local Abbreviation start := (Loop.start D).
Local Abbreviation counted := (Loop.counted D).
Local Abbreviation guard_state := (Loop.guard_state D).
Local Abbreviation cache_ok := (Loop.cache_ok D Tool get_tools_from_servers).
Local Abbreviation no_sandbox := (Loop.no_sandbox D).
Local Abbreviation kept := (Loop.kept D Tool get_tools_from_servers).
Local Abbreviation quiet := (Loop.quiet D).
Local Abbreviation kept_max_steps := (Loop.kept_max_steps D Tool get_tools_from_servers).
Local Abbreviation kept_lifelines := (Loop.kept_lifelines D Tool get_tools_from_servers).
Local Abbreviation quiet_sandbox := (Loop.quiet_sandbox D).
Local Abbreviation quiet_subtasks := (Loop.quiet_subtasks D).
Local Abbreviation generated := (Loop.generated generate_plan).
Local Abbreviation sandbox_text := (Loop.sandbox_text D dispatch py).
Local Abbreviation forwarded := (Loop.forwarded decode_result_field).

(** ** The loops end *)

Lemma while_loop_total (fuel : nat) :
  forall step l (st : State),
    (Z.to_nat (l + 1) <= fuel)%nat -> snd (while_loop fuel step l st) <> LFuel.
Proof.
  induction fuel as [|fuel IH]; intros step l st Hf; simpl.
  - destruct (l >=? 0) eqn:Hl; [|discriminate]. lia.
  - destruct (l >=? 0) eqn:Hl; [|discriminate].
    destruct (pass step st) as [st' [r| |]]; simpl; try discriminate.
    apply IH. lia.
Qed.

Lemma for_steps_total (steps : list Z) :
  forall st : State, exists r, snd (for_steps steps st) = Some r.
Proof.
  induction steps as [|step rest IH]; intros st; simpl.
  - eexists; reflexivity.
  - match goal with |- context [while_loop ?f ?s ?l ?x] =>
      pose proof (while_loop_total f s l x (Nat.le_refl _)) as Hw;
      destruct (while_loop f s l x) as [st' e] end.
    destruct e; simpl in *; try congruence; try apply IH.
    eexists; reflexivity.
Qed.

(** [run] always returns its dictionary. *)
Lemma run_total (c : AgentContext) (d : D) : exists r, snd (run c d) = Some r.
Proof. apply for_steps_total. Qed.

(** ** Leaving a step *)

Lemma while_loop_first_pass (fuel : nat) step l (st : State) :
  0 <= l ->
  while_loop (S fuel) step l st =
    match pass step st with
    | (st', PReturn r) => (st', LReturn r)
    | (st', PBreak) => (st', LBreak)
    | (st', PRetry) => while_loop fuel step (l - 1) st'
    end.
Proof.
  intros Hl. simpl. destruct (l >=? 0) eqn:E; [|lia].
  destruct (pass step st) as [st' [r| |]]; reflexivity.
Qed.

Lemma for_steps_first_pass step rest (st : State) :
  0 <= max_lifelines_per_step (context D st) ->
  for_steps (step :: rest) st =
    match pass step (enter step st) with
    | (st', PReturn r) => (st', Some (done r))
    | (st', PBreak) => for_steps rest st'
    | (st', PRetry) =>
        match while_loop (Z.to_nat (max_lifelines_per_step (context D st)))
                         step (max_lifelines_per_step (context D st) - 1) st' with
        | (st'', LReturn r) => (st'', Some (done r))
        | (st'', LFuel) => (st'', None)
        | (st'', _) => for_steps rest st''
        end
    end.
Proof.
  intros HL. cbn [Loop.for_steps]. fold (enter step st).
  replace (max_lifelines_per_step (context D (enter step st)))
    with (max_lifelines_per_step (context D st)) by reflexivity.
  replace (Z.to_nat (max_lifelines_per_step (context D st) + 1))
    with (S (Z.to_nat (max_lifelines_per_step (context D st)))) by lia.
  rewrite while_loop_first_pass by assumption.
  destruct (pass step (enter step st)) as [st' [r| |]]; reflexivity.
Qed.


(** ** The first half of a pass when tools are always on offer *)

Lemma no_sandbox_emit (e : Event) (st : State) :
  (forall plan, e <> EvSandbox plan) -> no_sandbox st -> no_sandbox (emit D e st).
Proof.
  intros He H plan Hin. cbn in Hin. apply in_app_or in Hin.
  destruct Hin as [Hin | [Hin | []]]; [exact (H plan Hin) | exact (He plan Hin)].
Qed.

Lemma kept_refl (st : State) : kept st st.
Proof. split; auto. Qed.

Lemma kept_trans (a b c : State) : kept a b -> kept b c -> kept a c.
Proof.
  intros [H1 H2 H3] [K1 K2 K3]. split; [congruence | congruence | auto].
Qed.

Lemma quiet_refl (st : State) : quiet st st.
Proof. split; auto. Qed.

Lemma quiet_trans (a b c : State) : quiet a b -> quiet b c -> quiet a c.
Proof.
  intros [H1 H2 H3 H4] [K1 K2 K3 K4]. split; [congruence | congruence | congruence | auto].
Qed.

Lemma kept_enter step (st : State) : kept st (enter step st).
Proof. split; auto. Qed.

Lemma quiet_enter step (st : State) : quiet st (enter step st).
Proof. split; auto. Qed.

Lemma kept_guard_state (st : State) : kept st (guard_state st).
Proof. split; auto. Qed.

Lemma quiet_guard_state (st : State) : quiet st (guard_state st).
Proof. split; auto. Qed.

Lemma plan_phase_guard step (st : State) :
  total_iterations D st + 1 > max_steps (context D st) * 2 ->
  plan_phase step st = GuardFired D (guard_state st).
Proof.
  intros Hg. unfold Loop.plan_phase. cbn.
  destruct (total_iterations D st + 1 >? max_steps (context D st) * 2) eqn:E;
    [reflexivity | lia].
Qed.

(** ** Execution *)

Local Opaque startswith contains strip.

Lemma execute_continuation plan (st : State) :
  startswith (sandbox_text plan st) FURTHER_PROCESSING_REQUIRED = true ->
  exists st',
    execute plan st = (st', PBreak)
    /\ user_input_override (context D st')
       = Some (forward_text (context D st) (forwarded (sandbox_text plan st)))
    /\ step (context D st') = step (context D st)
    /\ final_answer (context D st') = final_answer (context D st)
    /\ total_iterations D st' = total_iterations D st
    /\ kept st st'.
Proof.
  unfold sandbox_text. intros Hr. pose proof (further_not_final _ Hr) as Hf.
  unfold Loop.execute. cbn.
  destruct (sandbox plan (mcp D st)) as [raw d'] eqn:E. cbn in Hr, Hf |- *.
  rewrite Hf, Hr. eexists. split; [reflexivity|].
  cbn. repeat split; auto.
Qed.

Lemma execute_raw plan (st : State) :
  startswith (sandbox_text plan st) FINAL_ANSWER = false ->
  startswith (sandbox_text plan st) FURTHER_PROCESSING_REQUIRED = false ->
  startswith (sandbox_text plan st) SANDBOX_ERROR = false ->
  let r := sandbox_text plan st in
  let answer := "FINAL_ANSWER: " ++ r in
  exists st',
    execute plan st =
      (st', if contains FURTHER_PROCESSING_REQUIRED r then PRetry else PReturn answer)
    /\ final_answer (context D st') = Some answer
    /\ subtasks (context D st')
       = (subtasks (context D st)
            ++ [("solve_sandbox", "pending"); ("solve_sandbox", "success")])%list
    /\ memory (context D st')
       = (memory (context D st)
            ++ [mkItem "solve_sandbox" plan r true ["sandbox"]])%list
    /\ total_iterations D st' = total_iterations D st
    /\ kept st st'.
Proof.
  intros H1 H2 H3 r answer. subst r answer. unfold sandbox_text in *.
  unfold Loop.execute. cbn.
  destruct (sandbox plan (mcp D st)) as [raw d'] eqn:E. cbn in H1, H2, H3 |- *.
  rewrite H1, H2, H3. cbn.
  destruct (contains FURTHER_PROCESSING_REQUIRED (strip raw));
    (eexists; split; [reflexivity|]); cbn; rewrite <- app_assoc;
    repeat split; auto.
Qed.

Local Transparent startswith contains strip.

(** What the first half of a pass leaves of the context. *)
Lemma plan_phase_context step (st : State) plan st1 :
  plan_phase step st = Planned D plan st1 ->
  user_input (context D st1) = user_input (context D st)
  /\ Loop.step (context D st1) = Loop.step (context D st)
  /\ final_answer (context D st1) = final_answer (context D st)
  /\ subtasks (context D st1) = subtasks (context D st)
  /\ memory (context D st1) = memory (context D st)
  /\ total_iterations D st1 = total_iterations D st + 1.
Proof.
  unfold Loop.plan_phase. cbn.
  destruct (total_iterations D st + 1 >? max_steps (context D st) * 2); [discriminate|].
  unfold Loop.perceive. cbn.
  destruct (last_perception D st) as [p|];
    [destruct (last_selected_servers D st) as [servers|];
     [destruct (truthy (user_input_override (context D st)) && nonempty servers)|]|];
    cbn;
    match goal with |- context [nonempty ?t] => destruct (nonempty t) end;
    cbn; intros H; inversion H; subst; cbn; repeat split; reflexivity.
Qed.

(** C1 (what the code does).  A pass whose sandbox result opens with the
    continuation marker stores the forwarding text as the pending override
    and leaves the [while] loop at no cost in lifelines; the [for] loop then
    goes on with the remaining step values, so the step in which the
    continuation was asked for is not entered again. *)
Theorem continuation_advances_step step rest (st : State) plan st1 :
  0 <= max_lifelines_per_step (context D st) ->
  plan_phase step (enter step st) = Planned D plan st1 ->
  defines_solve plan = true ->
  startswith (sandbox_text plan st1) FURTHER_PROCESSING_REQUIRED = true ->
  exists st',
    for_steps (step :: rest) st = for_steps rest st'
    /\ user_input_override (context D st')
       = Some (forward_text (context D st) (forwarded (sandbox_text plan st1)))
    /\ Loop.step (context D st') = step
    /\ total_iterations D st' = total_iterations D st + 1.
Proof.
  intros HL Hp Hs Hr.
  destruct (execute_continuation plan st1 Hr) as (st' & He & Ho & Hstep & _ & Ht & _).
  destruct (plan_phase_context _ _ _ _ Hp) as (Hu & Hstep1 & _ & _ & _ & Ht1).
  exists st'. rewrite for_steps_first_pass by exact HL.
  unfold Loop.pass. rewrite Hp, Hs, He.
  split; [reflexivity|]. split; [|split].
  - rewrite Ho. unfold forward_text. now rewrite Hu.
  - now rewrite Hstep, Hstep1.
  - now rewrite Ht, Ht1.
Qed.

(** C7 (as amended).  A sandbox result that, stripped, opens with none of
    the three markers is recorded as a successful subtask and becomes the
    final answer behind "FINAL_ANSWER: ".  If it does not contain the
    continuation marker anywhere, [run] returns it at once; if it does, the
    pass is retried at the cost of a lifeline. *)
Theorem raw_outcome step rest (st : State) plan st1 :
  0 <= max_lifelines_per_step (context D st) ->
  plan_phase step (enter step st) = Planned D plan st1 ->
  defines_solve plan = true ->
  let r := sandbox_text plan st1 in
  let answer := "FINAL_ANSWER: " ++ r in
  startswith r FINAL_ANSWER = false ->
  startswith r FURTHER_PROCESSING_REQUIRED = false ->
  startswith r SANDBOX_ERROR = false ->
  exists st',
    final_answer (context D st') = Some answer
    /\ subtasks (context D st')
       = (subtasks (context D st)
            ++ [("solve_sandbox", "pending"); ("solve_sandbox", "success")])%list
    /\ memory (context D st')
       = (memory (context D st)
            ++ [mkItem "solve_sandbox" plan r true ["sandbox"]])%list
    /\ (contains FURTHER_PROCESSING_REQUIRED r = false ->
          for_steps (step :: rest) st = (st', Some (done answer)))
    /\ (contains FURTHER_PROCESSING_REQUIRED r = true ->
          pass step (enter step st) = (st', PRetry)).
Proof.
  intros HL Hp Hs r answer H1 H2 H3.
  destruct (execute_raw plan st1 H1 H2 H3) as (st' & He & Hf & Hsub & Hmem & _).
  destruct (plan_phase_context _ _ _ _ Hp) as (_ & _ & _ & Hsub1 & Hmem1 & _).
  fold r in He, Hf, Hsub, Hmem. fold answer in He, Hf.
  exists st'. rewrite Hf, Hsub, Hmem, Hsub1, Hmem1.
  repeat split; intros Hc; rewrite Hc in He.
  - rewrite for_steps_first_pass by exact HL.
    unfold Loop.pass. now rewrite Hp, Hs, He.
  - unfold Loop.pass. now rewrite Hp, Hs, He.
Qed.

Section ToolsOnOffer.

Hypothesis tools_ok :
  forall i c input,
    nonempty (get_tools_from_servers (selected_servers (run_perception i c input))) = true.

Lemma plan_phase_planned step (st : State) :
  cache_ok st ->
  total_iterations D st + 1 <= max_steps (context D st) * 2 ->
  exists plan st',
    plan_phase step st = Planned D plan st'
    /\ generated plan
    /\ total_iterations D st' = total_iterations D st + 1
    /\ kept st st' /\ quiet st st'.
Proof.
  intros Hc Hg. unfold Loop.plan_phase. cbn.
  destruct (total_iterations D st + 1 >? max_steps (context D st) * 2) eqn:E; [lia|].
  unfold Loop.perceive. cbn.
  destruct (last_perception D st) as [p|] eqn:Ep;
    [destruct (last_selected_servers D st) as [servers|] eqn:Es;
     [destruct (truthy (user_input_override (context D st)) && nonempty servers) eqn:Et|]|].
  1: { apply andb_prop in Et. destruct Et as [_ Et].
       pose proof (Hc servers Es) as Htools.
       rewrite Htools. cbn. do 2 eexists. split; [reflexivity|].
       split; [unfold Loop.generated; repeat eexists|].
       split; [reflexivity|].
       split; split; try reflexivity.
       - intros _ s' Hs'. apply Hc. exact Hs'.
       - intros Hn. apply no_sandbox_emit; [discriminate|].
         intros plan Hin. cbn in Hin. apply in_app_or in Hin.
         destruct Hin as [Hin | [Hin | []]]; [exact (Hn plan Hin) | discriminate]. }
  all: rewrite tools_ok; cbn; do 2 eexists; (split; [reflexivity|]);
    (split; [unfold Loop.generated; repeat eexists|]);
    (split; [reflexivity|]); split; split; try reflexivity;
    [ intros _ s' Hs'; cbn in Hs'; injection Hs' as <-; apply tools_ok
    | intros Hn plan Hin; cbn in Hin; apply in_app_or in Hin;
      destruct Hin as [Hin | [Hin | []]]; [|discriminate];
      apply in_app_or in Hin; destruct Hin as [Hin | [Hin | []]];
      [exact (Hn plan Hin) | discriminate] ].
Qed.

(** ** Runs in which no plan defines [solve] *)

Section NoSolvePlans.

Hypothesis no_solve : forall plan, generated plan -> defines_solve plan = false.

Lemma pass_no_solve step (st : State) :
  cache_ok st ->
  total_iterations D st + 1 <= max_steps (context D st) * 2 ->
  exists st',
    pass step st = (st', PRetry)
    /\ total_iterations D st' = total_iterations D st + 1
    /\ kept st st' /\ quiet st st'.
Proof.
  intros Hc Hg.
  destruct (plan_phase_planned step st Hc Hg) as (plan & st' & Hp & Hgen & Ht & Hk & Hq).
  exists st'. unfold Loop.pass. rewrite Hp, (no_solve _ Hgen). auto.
Qed.

Lemma pass_guard step (st : State) :
  total_iterations D st + 1 > max_steps (context D st) * 2 ->
  pass step st = (guard_state st, PReturn MAX_ITERATIONS_REACHED).
Proof.
  intros Hg. unfold Loop.pass. now rewrite plan_phase_guard.
Qed.

(** The [while] loop of a step: it uses up its lifelines, unless the guard
    stops it first. *)
Lemma while_no_solve (fuel : nat) :
  forall step l (st : State),
    cache_ok st ->
    (Z.to_nat (l + 1) <= fuel)%nat ->
    -1 <= l ->
    total_iterations D st <= max_steps (context D st) * 2 ->
    exists st',
      kept st st' /\ quiet st st'
      /\ ((total_iterations D st + (l + 1) <= max_steps (context D st) * 2
           /\ while_loop fuel step l st = (st', LExhausted)
           /\ total_iterations D st' = total_iterations D st + (l + 1))
          \/ (max_steps (context D st) * 2 < total_iterations D st + (l + 1)
              /\ while_loop fuel step l st = (st', LReturn MAX_ITERATIONS_REACHED)
              /\ total_iterations D st' = max_steps (context D st) * 2 + 1
              /\ final_answer (context D st') = Some MAX_ITERATIONS_REACHED)).
Proof.
  induction fuel as [|fuel IH]; intros step l st Hc Hf Hl Ht.
  - assert (l = -1) as -> by lia. exists st.
    split; [apply kept_refl|]. split; [apply quiet_refl|].
    left. repeat split; lia.
  - destruct (Z.eq_dec l (-1)) as [->|Hne].
    + exists st. split; [apply kept_refl|]. split; [apply quiet_refl|].
      left. repeat split; lia.
    + rewrite while_loop_first_pass by lia.
      destruct (Z_le_gt_dec (total_iterations D st + 1) (max_steps (context D st) * 2))
        as [Hg|Hg].
      * destruct (pass_no_solve step st Hc Hg) as (st1 & Hp & Ht1 & Hk1 & Hq1).
        rewrite Hp.
        destruct (IH step (l - 1) st1) as (st' & Hk & Hq & Hcases);
          [apply Hk1, Hc | lia | lia | rewrite (kept_max_steps _ _ Hk1); lia |].
        exists st'. split; [eapply kept_trans; eauto|].
        split; [eapply quiet_trans; eauto|].
        rewrite (kept_max_steps _ _ Hk1), Ht1 in Hcases.
        destruct Hcases as [(A & B & C)|(A & B & C & E)]; [left | right];
          repeat split; auto; lia.
      * rewrite pass_guard by lia. exists (guard_state st).
        split; [apply kept_guard_state|]. split; [apply quiet_guard_state|].
        right. repeat split; cbn; lia.
Qed.

Lemma for_no_solve (steps : list Z) :
  forall st : State,
    cache_ok st ->
    -1 <= max_lifelines_per_step (context D st) ->
    total_iterations D st <= max_steps (context D st) * 2 ->
    let N := max_steps (context D st) in
    let passes := Z.of_nat (List.length steps) * (max_lifelines_per_step (context D st) + 1) in
    exists st',
      quiet st st'
      /\ ((total_iterations D st + passes <= N * 2
           /\ for_steps steps st = (st', Some (done MAX_STEPS_REACHED))
           /\ total_iterations D st' = total_iterations D st + passes
           /\ final_answer (context D st') = Some MAX_STEPS_REACHED)
          \/ (N * 2 < total_iterations D st + passes
              /\ for_steps steps st = (st', Some (done MAX_ITERATIONS_REACHED))
              /\ total_iterations D st' = N * 2 + 1
              /\ final_answer (context D st') = Some MAX_ITERATIONS_REACHED)).
Proof.
  induction steps as [|step rest IH]; intros st Hc HL Ht N passes; subst N passes.
  - exists (with_context D (set_final_answer MAX_STEPS_REACHED) st).
    split; [split; auto|]. left. cbn. repeat split; lia.
  - cbn [Loop.for_steps]. fold (enter step st).
    destruct (while_no_solve (Z.to_nat (max_lifelines_per_step (context D (enter step st)) + 1))
                step (max_lifelines_per_step (context D (enter step st))) (enter step st))
      as (st1 & Hk & Hq & Hcases); auto; try lia.
    change (max_lifelines_per_step (context D (enter step st)))
      with (max_lifelines_per_step (context D st)) in *.
    change (max_steps (context D (enter step st))) with (max_steps (context D st)) in *.
    change (total_iterations D (enter step st)) with (total_iterations D st) in *.
    pose proof (kept_max_steps _ _ Hk) as HN. pose proof (kept_lifelines _ _ Hk) as HLL.
    cbn in HN, HLL.
    replace (Z.of_nat (List.length (step :: rest)))
      with (Z.of_nat (List.length rest) + 1) by (cbn [List.length]; lia).
    destruct Hcases as [(A & B & C)|(A & B & C & E)]; rewrite B.
    + destruct (IH st1) as (st' & Hq' & Hcases');
        [apply Hk; exact Hc | lia | lia |].
      rewrite HN, HLL, C in Hcases'.
      exists st'. split; [eapply quiet_trans; [|exact Hq']; eapply quiet_trans;
                          [apply quiet_enter | exact Hq]|].
      destruct Hcases' as [(A' & B' & C' & E')|(A' & B' & C' & E')]; [left | right];
        repeat split; auto; lia.
    + exists st1. split; [eapply quiet_trans; [apply quiet_enter | exact Hq]|].
      right. repeat split; auto.
      assert (0 <= Z.of_nat (List.length rest) * (max_lifelines_per_step (context D st) + 1))
        by (apply Z.mul_nonneg_nonneg; lia).
      lia.
Qed.

Lemma length_range (n : Z) : Z.of_nat (List.length (range n)) = Z.max 0 n.
Proof. unfold range. rewrite length_map, length_seq. lia. Qed.

Lemma cache_ok_start c d : cache_ok (start c d).
Proof. intros s Hs. discriminate. Qed.

Lemma no_sandbox_start c d : no_sandbox (start c d).
Proof. intros plan []. Qed.

(** A run in which no plan defines [solve]: the passes it makes, and the
    sentinel it ends with. *)
Lemma run_no_solve (c : AgentContext) (d : D) :
  0 <= max_steps c -> 0 <= max_lifelines_per_step c ->
  let N := max_steps c in
  let L := max_lifelines_per_step c in
  let st' := fst (run c d) in
  quiet (start c d) st'
  /\ ((N * (L + 1) <= N * 2
       /\ snd (run c d) = Some (done MAX_STEPS_REACHED)
       /\ total_iterations D st' = N * (L + 1)
       /\ final_answer (context D st') = Some MAX_STEPS_REACHED)
      \/ (N * 2 < N * (L + 1)
          /\ snd (run c d) = Some (done MAX_ITERATIONS_REACHED)
          /\ total_iterations D st' = N * 2 + 1
          /\ final_answer (context D st') = Some MAX_ITERATIONS_REACHED)).
Proof.
  intros HN HL N L st'. subst st'. unfold Loop.run. fold (start c d).
  destruct (for_no_solve (range (max_steps c)) (start c d)) as (st1 & Hq & Hcases);
    [apply cache_ok_start | cbn; lia | cbn; lia |].
  rewrite length_range, Z.max_r in Hcases by exact HN. cbn in Hcases.
  split; [destruct Hcases as [(_ & B & _)|(_ & B & _)]; rewrite B; exact Hq|].
  destruct Hcases as [(A & B & C & E)|(A & B & C & E)]; rewrite B; cbn; [left | right];
    repeat split; auto.
Qed.

End NoSolvePlans.

(** C2 (as amended).  When every plan has an invalid shape, a run with
    [max_steps = N] and [L] lifelines per step makes [N * (L + 1)] passes and
    ends with the "max steps reached" sentinel if that many passes fit under
    the iteration guard, [N * (L + 1) <= 2 * N]; otherwise the guard ends it
    on pass [2 * N + 1] with the "max iterations reached" sentinel. *)
Theorem invalid_plans_run (c : AgentContext) (d : D) :
  (forall plan, generated plan -> invalid_shape plan) ->
  0 <= max_steps c -> 0 <= max_lifelines_per_step c ->
  let N := max_steps c in
  let L := max_lifelines_per_step c in
  (N * (L + 1) <= 2 * N ->
     snd (run c d) = Some (done MAX_STEPS_REACHED)
     /\ total_iterations D (fst (run c d)) = N * (L + 1))
  /\ (2 * N < N * (L + 1) ->
       snd (run c d) = Some (done MAX_ITERATIONS_REACHED)
       /\ total_iterations D (fst (run c d)) = 2 * N + 1).
Proof.
  intros Hinv HN HL N L.
  destruct (run_no_solve (fun p Hp => proj1 (Hinv p Hp)) c d HN HL)
    as (_ & [(A & B & C & _)|(A & B & C & _)]); fold N L in A, C;
    split; intros H; try lia; split; auto; lia.
Qed.

(** C4 (what the code does).  When every plan is a bare final-answer string,
    the loop never hands it to the sandbox and never returns it: each pass
    costs a lifeline, and the run ends with one of the two sentinels. *)
Theorem bare_final_answer_is_retried (c : AgentContext) (d : D) :
  (forall plan, generated plan -> bare_final_answer plan) ->
  0 <= max_steps c -> 0 <= max_lifelines_per_step c ->
  no_sandbox (fst (run c d))
  /\ subtasks (context D (fst (run c d))) = subtasks c
  /\ (snd (run c d) = Some (done MAX_STEPS_REACHED)
      \/ snd (run c d) = Some (done MAX_ITERATIONS_REACHED)).
Proof.
  intros Hbare HN HL.
  destruct (run_no_solve (fun p Hp => proj1 (Hbare p Hp)) c d HN HL)
    as (Hq & Hcases).
  split; [apply (quiet_sandbox _ _ Hq), no_sandbox_start|].
  split; [apply (quiet_subtasks _ _ Hq)|].
  destruct Hcases as [(_ & B & _)|(_ & B & _)]; auto.
Qed.

(** ** Runs in which every plan asks for a continuation *)

Section Continuations.

Hypothesis all_solve : forall plan, generated plan -> defines_solve plan = true.
Hypothesis all_continue :
  forall plan, generated plan ->
    forall d, startswith (strip (fst (sandbox plan d))) FURTHER_PROCESSING_REQUIRED = true.

Lemma pass_continue step (st : State) :
  cache_ok st ->
  total_iterations D st + 1 <= max_steps (context D st) * 2 ->
  exists st',
    pass step st = (st', PBreak)
    /\ total_iterations D st' = total_iterations D st + 1
    /\ kept st st'.
Proof.
  intros Hc Hg.
  destruct (plan_phase_planned step st Hc Hg) as (plan & st1 & Hp & Hgen & Ht & Hk & _).
  destruct (execute_continuation plan st1 (all_continue plan Hgen (mcp D st1)))
    as (st' & He & _ & _ & _ & Ht' & Hk').
  exists st'. unfold Loop.pass. rewrite Hp, (all_solve _ Hgen), He.
  split; [reflexivity|]. split; [lia | eapply kept_trans; eauto].
Qed.

Lemma for_continue (steps : list Z) :
  forall st : State,
    cache_ok st ->
    0 <= max_lifelines_per_step (context D st) ->
    total_iterations D st + Z.of_nat (List.length steps) <= max_steps (context D st) * 2 ->
    exists st',
      for_steps steps st = (st', Some (done MAX_STEPS_REACHED))
      /\ total_iterations D st' = total_iterations D st + Z.of_nat (List.length steps)
      /\ final_answer (context D st') = Some MAX_STEPS_REACHED.
Proof.
  induction steps as [|step rest IH]; intros st Hc HL Ht.
  - eexists. split; [reflexivity|]. cbn. split; [lia | reflexivity].
  - cbn [List.length] in *. rewrite for_steps_first_pass by exact HL.
    destruct (pass_continue step (enter step st)) as (st1 & Hp & Ht1 & Hk);
      [exact Hc | cbn; lia |].
    rewrite Hp. cbn in Ht1.
    pose proof (kept_max_steps _ _ Hk) as HN. pose proof (kept_lifelines _ _ Hk) as HLL.
    cbn in HN, HLL.
    destruct (IH st1) as (st' & Hf & Ht' & Ha);
      [apply Hk; exact Hc | lia | lia |].
    exists st'. split; [exact Hf|]. split; [lia | exact Ha].
Qed.

(** C3 (what the code does).  When every plan is executed and every result
    opens with the continuation marker, each of the [N] steps makes one
    pass and gives way to the next: the run ends after [N] passes with the
    "max steps reached" sentinel, and the iteration guard never fires. *)
Theorem continuations_use_up_the_steps (c : AgentContext) (d : D) :
  0 <= max_steps c -> 0 <= max_lifelines_per_step c ->
  snd (run c d) = Some (done MAX_STEPS_REACHED)
  /\ total_iterations D (fst (run c d)) = max_steps c
  /\ final_answer (context D (fst (run c d))) = Some MAX_STEPS_REACHED.
Proof.
  intros HN HL. unfold Loop.run. fold (start c d).
  pose proof (length_range (max_steps c)) as Hlen. rewrite Z.max_r in Hlen by exact HN.
  destruct (for_continue (range (max_steps c)) (start c d)) as (st' & Hf & Ht & Ha);
    [apply cache_ok_start | exact HL | cbn; lia |].
  rewrite Hf. cbn. rewrite Ht, Hlen. auto.
Qed.

End Continuations.

End ToolsOnOffer.

End LoopFacts.


(* ===================================================================== *)
(** * Facts about the sandbox                                             *)
(* ===================================================================== *)

Lemma gather_all {X A B : Type} (f : A -> Ending X B) (l : list A) (out : list B) :
  Forall2 (fun a b => f a = Returned b) l out -> gather (map f l) = Returned out.
Proof.
  induction 1 as [|a b l out Hab _ IH]; cbn [map gather]; [reflexivity|].
  now rewrite Hab, IH.
Qed.

Lemma gather_first_raise {X A B : Type} (f : A -> Ending X B)
    (l1 : list A) (a : A) (l2 : list A) (e : PyExc) :
  Forall (fun a => exists b, f a = Returned b) l1 -> f a = Raised e ->
  gather (map f (l1 ++ a :: l2)) = Raised e.
Proof.
  intros Hl Ha. induction Hl as [|x l1 [b Hx] _ IH]; cbn [app map gather].
  - now rewrite Ha.
  - now rewrite Hx, IH.
Qed.

Lemma gather_first_escape {X A B : Type} (f : A -> Ending X B)
    (l1 : list A) (a : A) (l2 : list A) (x : X) :
  Forall (fun a => exists b, f a = Returned b) l1 -> f a = Escaped x ->
  gather (map f (l1 ++ a :: l2)) = Escaped x.
Proof.
  intros Hl Ha. induction Hl as [|y l1 [b Hy] _ IH]; cbn [app map gather].
  - now rewrite Ha.
  - now rewrite Hy, IH.
Qed.

Section SandboxFacts.

Variable X : Type.
Variable D : Type.
Variable dispatch : D -> string -> PyVal -> Outcome PyVal * D.
Variable py : Interpreter X.

Local Abbreviation Proxy := (SandboxMCP D).
Local Abbreviation call_tool := (Action.call_tool D dispatch).
Local Abbreviation run_prog := (Action.run_prog D dispatch).
Local Abbreviation sandbox_try := (Action.sandbox_try D dispatch py).
Local Abbreviation sandbox_mcp := (run_python_sandbox_mcp D dispatch py).
Local Abbreviation calls := (Action.calls D).
Local Abbreviation accounted := (Action.accounted D).
Local Abbreviation lets_budget_failure_through :=
  (Action.lets_budget_failure_through D dispatch).

Lemma accounted_init (d : D) : accounted (SandboxMCP_init D d).
Proof.
  split; try reflexivity. intros [|i] c r H; discriminate H.
Qed.

(** A call adds one entry to the books. *)
Lemma call_tool_issued (m : Proxy) t a :
  issued D (snd (call_tool m t a))
  = (issued D m ++ [(mkCall t a, fst (call_tool m t a))])%list.
Proof.
  unfold Action.call_tool.
  destruct (call_count D m + 1 >? MAX_TOOL_CALLS_PER_PLAN); [reflexivity|].
  destruct (dispatch (dispatcher D m) t a); reflexivity.
Qed.

Lemma call_tool_accounted (m : Proxy) t a :
  accounted m -> accounted (snd (call_tool m t a)).
Proof.
  intros [Hc Hd Hr]. unfold Action.calls in *. unfold Action.call_tool, MAX_TOOL_CALLS_PER_PLAN.
  destruct (call_count D m + 1 >? 5) eqn:E.
  - assert (5 <= List.length (issued D m))%nat as Hlen by lia.
    split; unfold Action.calls; cbn [Action.dispatched Action.issued Action.call_count snd].
    + rewrite length_app. cbn. lia.
    + rewrite Hd, map_app, firstn_app, length_map.
      replace (5 - List.length (issued D m))%nat with O by lia.
      cbn. now rewrite app_nil_r.
    + intros i c r Hn Hi.
      destruct (Nat.lt_ge_cases i (List.length (issued D m))) as [Hlt|Hge].
      * rewrite nth_error_app1 in Hn by exact Hlt. eauto.
      * rewrite nth_error_app2 in Hn by exact Hge.
        destruct (i - List.length (issued D m))%nat as [|[|k]]; cbn in Hn;
          congruence.
  - assert (List.length (issued D m) < 5)%nat as Hlen by lia.
    destruct (dispatch (dispatcher D m) t a) as [r d'].
    split; unfold Action.calls; cbn [Action.dispatched Action.issued Action.call_count snd].
    + rewrite length_app. cbn. lia.
    + rewrite Hd, map_app, !firstn_all2; [reflexivity | | ];
        rewrite ?length_app, length_map; cbn; lia.
    + intros i c r' Hn Hi.
      assert (i < List.length (issued D m ++ [(mkCall t a, r)]))%nat as Hb
          by (apply nth_error_Some; congruence).
      rewrite length_app in Hb. cbn in Hb. lia.
Qed.

(** A plan that keeps to [mcp.call_tool] keeps the books in order. *)
Lemma run_prog_accounted (p : Prog X) :
  through_proxy p ->
  forall m, accounted m -> accounted (snd (run_prog p m)).
Proof.
  induction 1 as [v|e|x|t a k _ IH|k _ IH]; intros m Hm; cbn [Action.run_prog snd];
    try exact Hm.
  - pose proof (call_tool_accounted m t a Hm) as Hm'.
    destruct (call_tool m t a) as [r m']. apply IH. exact Hm'.
  - apply IH. exact Hm.
Qed.

(** The books only grow. *)
Lemma run_prog_issued (p : Prog X) :
  through_proxy p ->
  forall m, (List.length (issued D m) <= List.length (issued D (snd (run_prog p m))))%nat.
Proof.
  induction 1 as [v|e|x|t a k _ IH|k _ IH]; intros m; cbn [Action.run_prog snd];
    try apply Nat.le_refl.
  - pose proof (call_tool_issued m t a) as Hi.
    destruct (call_tool m t a) as [r m']. cbn [fst snd] in Hi.
    specialize (IH r m'). rewrite Hi, length_app in IH. cbn in IH. lia.
  - apply IH.
Qed.

(** A plan that does not handle the budget failure ends with it as soon as
    the proxy refuses a call. *)
Lemma run_prog_refused (p : Prog X) :
  through_proxy p ->
  forall m, accounted m -> lets_budget_failure_through p m ->
    (List.length (issued D m) <= 5)%nat ->
    (6 <= List.length (issued D (snd (run_prog p m))))%nat ->
    fst (run_prog p m) = Raised budget_error.
Proof.
  induction 1 as [v|e|x|t a k _ IH|k _ IH]; intros m Hm Hl Hle Hge;
    cbn [Action.run_prog fst snd] in *; try lia.
  - pose proof (call_tool_accounted m t a Hm) as Hm'.
    pose proof (call_tool_issued m t a) as Hi.
    cbn [Action.lets_budget_failure_through] in Hl.
    destruct (call_count D m + 1 >? MAX_TOOL_CALLS_PER_PLAN) eqn:E.
    + unfold Action.call_tool in *. rewrite E in *. rewrite Hl. reflexivity.
    + assert (List.length (issued D m) < 5)%nat as Hlt.
      { destruct Hm as [Hc _ _]. unfold MAX_TOOL_CALLS_PER_PLAN in E. lia. }
      destruct (call_tool m t a) as [r m']. cbn [fst snd] in *.
      apply IH; try assumption.
      rewrite Hi, length_app. cbn. lia.
  - apply IH; assumption.
Qed.

Lemma handle_yields (conversion : Ending X string) :
  yields conversion (handle conversion).
Proof.
  repeat split; intros ? ->; reflexivity.
Qed.

Lemma sandbox_mcp_solve code d body :
  py_exec py code = Solve body ->
  sandbox_mcp code d
  = (match fst (run_prog body (SandboxMCP_init D d)) with
     | Returned result => handle (format_result py result)
     | Raised e => Returns (sandbox_error e)
     | Escaped x => Propagates x
     end,
     snd (run_prog body (SandboxMCP_init D d))).
Proof.
  intros Hb. unfold run_python_sandbox_mcp, Action.sandbox_try. rewrite Hb.
  destruct (run_prog body (SandboxMCP_init D d)) as [[v|e|x] m]; reflexivity.
Qed.


(** C6 (as amended).  What [run_python_sandbox] does with the ways its [try]
    block can end.  Every exception with a message, raised while compiling,
    running the module body, looking up [solve], calling it or formatting
    its result, comes back as the Error text with that message, and a plan
    without [solve] gives the "No solve() function found" Error.  What the
    plan leaves with (an exit such as [SystemExit], [KeyboardInterrupt] or
    [CancelledError], or an exception that has no message to give) goes to
    the caller, be it from the module body, from [solve] or from the
    formatting of what [solve] returned; and nothing else goes to the
    caller. *)
Theorem sandbox_errors_are_results (code : string) (d : D) :
  let out := fst (sandbox_mcp code d) in
  (forall e, py_exec py code = CompileError e ->
     out = Returns ("[sandbox error: " ++ exc_msg e ++ "]"))
  /\ (forall e, py_exec py code = ExecError e ->
        out = Returns ("[sandbox error: " ++ exc_msg e ++ "]"))
  /\ (py_exec py code = NoSolve ->
        out = Returns "[sandbox error: No solve() function found in plan.]")
  /\ (forall body e, py_exec py code = Solve body ->
        fst (run_prog body (SandboxMCP_init D d)) = Raised e ->
        out = Returns ("[sandbox error: " ++ exc_msg e ++ "]"))
  /\ (forall body v e, py_exec py code = Solve body ->
        fst (run_prog body (SandboxMCP_init D d)) = Returned v ->
        format_result py v = Raised e ->
        out = Returns ("[sandbox error: " ++ exc_msg e ++ "]"))
  /\ (forall x, py_exec py code = ExecExit x -> out = Propagates x)
  /\ (forall body x, py_exec py code = Solve body ->
        fst (run_prog body (SandboxMCP_init D d)) = Escaped x ->
        out = Propagates x)
  /\ (forall body v x, py_exec py code = Solve body ->
        fst (run_prog body (SandboxMCP_init D d)) = Returned v ->
        format_result py v = Escaped x ->
        out = Propagates x)
  /\ (forall x, out = Propagates x ->
        py_exec py code = ExecExit x
        \/ exists body,
             py_exec py code = Solve body
             /\ (fst (run_prog body (SandboxMCP_init D d)) = Escaped x
                 \/ exists v,
                      fst (run_prog body (SandboxMCP_init D d)) = Returned v
                      /\ format_result py v = Escaped x)).
Proof.
  intros out. subst out.
  split; [|split; [|split; [|split; [|split; [|split; [|split; [|split]]]]]]].
  - intros e H. unfold run_python_sandbox_mcp, Action.sandbox_try. now rewrite H.
  - intros e H. unfold run_python_sandbox_mcp, Action.sandbox_try. now rewrite H.
  - intros H. unfold run_python_sandbox_mcp, Action.sandbox_try. now rewrite H.
  - intros body e H Hr. rewrite (sandbox_mcp_solve code d body H), Hr. reflexivity.
  - intros body v e H Hr Hf. rewrite (sandbox_mcp_solve code d body H), Hr, Hf.
    reflexivity.
  - intros x H. unfold run_python_sandbox_mcp, Action.sandbox_try. now rewrite H.
  - intros body x H Hr. rewrite (sandbox_mcp_solve code d body H), Hr. reflexivity.
  - intros body v x H Hr Hf. rewrite (sandbox_mcp_solve code d body H), Hr, Hf.
    reflexivity.
  - intros x. destruct (py_exec py code) as [e|e|x'| |body] eqn:Ep.
    5: { rewrite (sandbox_mcp_solve code d body Ep). cbn [fst].
         destruct (fst (run_prog body (SandboxMCP_init D d))) as [v|e|x'] eqn:Er.
         - destruct (format_result py v) as [text|e|x'] eqn:Ef; try discriminate.
           intros [= ->]. right. exists body. split; [reflexivity|].
           right. exists v. split; [exact Er | exact Ef].
         - discriminate.
         - intros [= ->]. right. exists body. split; [reflexivity|]. left. exact Er. }
    all: unfold run_python_sandbox_mcp, Action.sandbox_try; rewrite Ep; cbn [fst];
      try discriminate.
    intros [= ->]. left. reflexivity.
Qed.

(** C10 (as amended).  The value [solve] returned is turned into text so: a
    dictionary with a "result" key gives the text of that key's value; any
    other dictionary gives what [json.dumps] makes of it; a list gives the
    texts of its elements joined by single spaces; any other value, a tuple
    included, gives its text.  Where the conversion raises (as [json.dumps]
    does on a value that JSON has no form for), the sandbox returns the
    Error text with the message of that exception; in a list it is the
    first element without a text that decides. *)
Theorem sandbox_normalizes (code : string) (d : D) (body : Prog X) (v : PyVal) :
  py_exec py code = Solve body ->
  fst (run_prog body (SandboxMCP_init D d)) = Returned v ->
  let out := fst (sandbox_mcp code d) in
  (forall dict x, v = VDict dict -> dict_get "result" dict = Some x ->
     yields (format py x) out)
  /\ (forall dict, v = VDict dict -> dict_get "result" dict = None ->
        yields (dumps py v) out)
  /\ (forall l texts, v = VList l ->
        Forall2 (fun r text => str py r = Returned text) l texts ->
        out = Returns (join " " texts))
  /\ (forall l1 r l2, v = VList (l1 ++ r :: l2) ->
        Forall (fun r => exists text, str py r = Returned text) l1 ->
        (forall text, str py r <> Returned text) ->
        yields (str py r) out)
  /\ ((forall dict, v <> VDict dict) -> (forall l, v <> VList l) ->
        yields (format py v) out).
Proof.
  intros Hb Hr out. subst out.
  rewrite (sandbox_mcp_solve code d body Hb), Hr.
  cbn [fst]. split; [|split; [|split; [|split]]].
  - intros dict x -> Hx. cbn [Action.format_result]. rewrite Hx. apply handle_yields.
  - intros dict -> Hx. cbn [Action.format_result]. rewrite Hx. apply handle_yields.
  - intros l texts -> Hl. cbn [Action.format_result].
    now rewrite (gather_all (str py) l texts Hl).
  - intros l1 r l2 -> Hl Hn. cbn [Action.format_result].
    destruct (str py r) as [text|e|x] eqn:Er; [elim (Hn text); reflexivity| |].
    + rewrite (gather_first_raise (str py) l1 r l2 e Hl Er).
      repeat split; intros ? [= <-]; reflexivity.
    + rewrite (gather_first_escape (str py) l1 r l2 x Hl Er).
      repeat split; intros ? [= <-]; reflexivity.
  - intros Hd Hl.
    destruct v as [| | | | |l|dict|l|]; try apply handle_yields;
      [elim (Hl l) | elim (Hd dict)]; reflexivity.
Qed.

End SandboxFacts.

(* ===================================================================== *)
(** * Facts about the conversation history                                *)
(* ===================================================================== *)

Section HistoryFacts.

Variable ratio : string -> string -> Q.
Variable json_dump : list Entry -> string.
Variable json_load : string -> option (list Entry).

Local Abbreviation similarity := (History.similarity ratio).
Local Abbreviation search_loop := (History.search_loop ratio).
Local Abbreviation search_similar := (History.search_similar ratio).
Local Abbreviation _load := (History._load json_load).
Local Abbreviation init := (History.init json_load).
Local Abbreviation add := (History.add json_dump).
Local Abbreviation add_all := (History.add_all json_dump).
Local Abbreviation best_so_far := (History.best_so_far ratio).

Local Open Scope Q_scope.

Lemma Qgt_bool_true (a b : Q) : Qgt_bool a b = true <-> b < a.
Proof.
  unfold Qgt_bool. rewrite negb_true_iff. split; intros H.
  - apply Qnot_le_lt. intros Hle. apply Qle_bool_iff in Hle. congruence.
  - destruct (Qle_bool a b) eqn:E; [|reflexivity].
    apply Qle_bool_iff in E. exfalso. exact (Qlt_not_le _ _ H E).
Qed.

Lemma Qgt_bool_false (a b : Q) : Qgt_bool a b = false <-> a <= b.
Proof.
  unfold Qgt_bool. rewrite negb_false_iff. apply Qle_bool_iff.
Qed.

Lemma Qle_bool_false (a b : Q) : Qle_bool a b = false <-> b < a.
Proof.
  rewrite <- Qgt_bool_true. unfold Qgt_bool. now rewrite negb_true_iff.
Qed.

Lemma search_loop_best (q : string) (threshold : Q) (rest : list Entry) :
  forall seen best_match best_score,
    best_so_far q threshold seen best_match best_score ->
    best_so_far q threshold (seen ++ rest)
      (fst (search_loop q threshold rest best_match best_score))
      (snd (search_loop q threshold rest best_match best_score)).
Proof.
  induction rest as [|entry rest IH]; intros seen bm bs Hinv; cbn [History.search_loop].
  - cbn. now rewrite app_nil_r.
  - replace (seen ++ entry :: rest)%list with ((seen ++ [entry]) ++ rest)%list
      by (rewrite <- app_assoc; reflexivity).
    destruct (Qgt_bool (similarity q (query entry)) bs) eqn:Eg; cbn [andb];
      [destruct (Qle_bool threshold (similarity q (query entry))) eqn:Et|];
      apply IH.
    + (* a new best entry *)
      apply Qgt_bool_true in Eg. apply Qle_bool_iff in Et.
      destruct bm as [e|]; cbn in Hinv |- *.
      * destruct Hinv as (Hbs & Hth & Hpos & before & after & Hseen & Hb & Ha).
        split; [reflexivity|]. split; [exact Et|].
        split; [eapply Qlt_trans; eassumption|].
        exists seen, []. split; [reflexivity|]. split; [|intros x []].
        intros x Hx. rewrite Hseen in Hx. apply in_app_or in Hx.
        destruct Hx as [Hx|[<-|Hx]].
        -- eapply Qlt_trans; [apply Hb, Hx | exact Eg].
        -- rewrite <- Hbs. exact Eg.
        -- eapply Qle_lt_trans; [apply Ha, Hx | exact Eg].
      * destruct Hinv as (Hbs & Hall). subst bs.
        split; [reflexivity|]. split; [exact Et|]. split; [exact Eg|].
        exists seen, []. split; [reflexivity|]. split; [|intros x []].
        intros x Hx. destruct (Hall x Hx) as [H|H].
        -- eapply Qlt_le_trans; eassumption.
        -- eapply Qle_lt_trans; eassumption.
    + (* higher than the best, but under the threshold *)
      apply Qgt_bool_true in Eg. apply Qle_bool_false in Et.
      destruct bm as [e|]; cbn in Hinv |- *.
      * destruct Hinv as (Hbs & Hth & Hpos & _).
        exfalso. apply (Qlt_irrefl threshold).
        eapply Qle_lt_trans; [exact Hth|]. eapply Qlt_trans; eassumption.
      * destruct Hinv as (Hbs & Hall). split; [exact Hbs|].
        intros x Hx. apply in_app_or in Hx. destruct Hx as [Hx|[<-|[]]]; auto.
    + (* not higher than the best *)
      apply Qgt_bool_false in Eg.
      destruct bm as [e|]; cbn in Hinv |- *.
      * destruct Hinv as (Hbs & Hth & Hpos & before & after & Hseen & Hb & Ha).
        split; [exact Hbs|]. split; [exact Hth|]. split; [exact Hpos|].
        exists before, (after ++ [entry])%list.
        split; [rewrite Hseen, <- app_assoc; reflexivity|]. split; [exact Hb|].
        intros x Hx. apply in_app_or in Hx. destruct Hx as [Hx|[<-|[]]]; auto.
      * destruct Hinv as (Hbs & Hall). split; [exact Hbs|]. subst bs.
        intros x Hx. apply in_app_or in Hx. destruct Hx as [Hx|[<-|[]]]; auto.
Qed.

(** C8 (as amended).  The similarity is the ratio of the two texts in lower
    case and stripped, a number in [0,1] when the ratio is; the search
    returns the first entry, in storage order, among those of the highest
    score, if that score is at or above the threshold and above zero; it
    returns none when the store is empty or when every entry is under the
    threshold or scores zero. *)
Theorem search_similar_best (self : ConversationHistory) (q : string) (threshold : Q) :
  (forall a b, 0 <= ratio a b <= 1) ->
  (forall x, similarity q (query x) = ratio (strip (lower q)) (strip (lower (query x)))
             /\ 0 <= similarity q (query x) <= 1)
  /\ (history self = [] -> search_similar self q threshold = None)
  /\ match search_similar self q threshold with
     | Some e =>
         threshold <= similarity q (query e)
         /\ 0 < similarity q (query e)
         /\ exists before after,
              history self = (before ++ e :: after)%list
              /\ (forall x, In x before -> similarity q (query x) < similarity q (query e))
              /\ (forall x, In x after -> similarity q (query x) <= similarity q (query e))
     | None =>
         forall x, In x (history self) ->
           similarity q (query x) < threshold \/ similarity q (query x) == 0
     end.
Proof.
  intros Hratio. split; [|split].
  - intros x. split; [reflexivity | apply Hratio].
  - unfold History.search_similar. now intros ->.
  - unfold History.search_similar.
    pose proof (search_loop_best q threshold (history self) [] None 0) as H.
    cbn [app] in H.
    destruct (search_loop q threshold (history self) None 0) as [[e|] bs]; cbn in H |- *.
    + destruct H as (-> & Hth & Hpos & Hex); [split; [reflexivity | intros x []]|].
      auto.
    + destruct H as (_ & Hall); [split; [reflexivity | intros x []]|].
      intros x Hx. destruct (Hall x Hx) as [H|H]; [left; exact H|right].
      apply Qle_antisym; [exact H | apply Hratio].
Qed.

Local Close Scope Q_scope.

Lemma add_all_history (calls : list AddCall) :
  forall self,
    history (add_all calls self) = (history self ++ map entry_of calls)%list.
Proof.
  induction calls as [|c rest IH]; intros self; cbn [History.add_all].
  - cbn. now rewrite app_nil_r.
  - rewrite IH. unfold History.add, History._save.
    destruct (add_write c); cbn; now rewrite <- app_assoc.
Qed.

(** After a successful [add] the file holds the whole store. *)
Lemma add_all_file (calls : list AddCall) :
  forall self,
    calls <> [] -> all_written calls ->
    file (add_all calls self) = Some (json_dump (history (add_all calls self))).
Proof.
  induction calls as [|c rest IH]; intros self Hne Hw; [congruence|].
  cbn [History.add_all]. destruct rest as [|c' rest].
  - cbn. rewrite (Hw c) by (left; reflexivity). reflexivity.
  - apply IH; [discriminate|]. intros x Hx. apply Hw. right. exact Hx.
Qed.

(** Loading the file after the [add]s gives the store in memory. *)
Lemma reload_gives_memory (f0 : option string) (calls : list AddCall) :
  let self := add_all calls (init f0) in
  all_written calls ->
  json_load (json_dump (history self)) = Some (history self) ->
  _load (file self) = history self.
Proof.
  intros self Hw Hrt. subst self.
  destruct calls as [|c rest]; [reflexivity|].
  rewrite add_all_file by (discriminate || exact Hw).
  unfold History._load. now rewrite Hrt.
Qed.

(** C9.  Open the store on a file, record N pairs with every write going
    through, and load the file again: provided [json.load] reads back what
    [json.dump] wrote for this store, the load gives the entries in memory,
    which are those the file held at the start followed by the N new ones,
    in order, each with its query, answer and timestamp. *)
Theorem history_round_trip (f0 : option string) (calls : list AddCall) :
  let self := add_all calls (init f0) in
  all_written calls ->
  json_load (json_dump (history self)) = Some (history self) ->
  _load (file self) = history self
  /\ history self = (_load f0 ++ map entry_of calls)%list
  /\ (f0 = None -> _load (file self) = map entry_of calls).
Proof.
  intros self Hw Hrt.
  pose proof (reload_gives_memory f0 calls Hw Hrt) as Hload. fold self in Hload.
  split; [exact Hload|]. split; [apply add_all_history|].
  intros ->. rewrite Hload. apply add_all_history.
Qed.

End HistoryFacts.


(** ** Loading what was dumped *)

Lemma append_assoc (a b c : string) : ((a ++ b) ++ c = a ++ (b ++ c))%string.
Proof. induction a as [|x a IH]; cbn; [reflexivity | now rewrite IH]. Qed.

Lemma length_append (a b : string) :
  String.length (a ++ b) = (String.length a + String.length b)%nat.
Proof. induction a as [|x a IH]; cbn; [reflexivity | now rewrite IH]. Qed.

(** One escaped character is read back as that character. *)
Lemma load_chars_escape_char (c : ascii) (t : string) :
  Json.load_chars (Json.escape_char c ++ t)
  = match Json.load_chars t with
    | Some (x, rest) => Some (String c x, rest)
    | None => None
    end.
Proof.
  destruct c as [[] [] [] [] [] [] [] []]; reflexivity.
Qed.

Lemma load_chars_escape (s rest : string) :
  Json.load_chars (Json.escape s ++ quote ++ rest) = Some (s, rest).
Proof.
  induction s as [|c s IH]; [reflexivity|].
  cbn [Json.escape]. now rewrite append_assoc, load_chars_escape_char, IH.
Qed.

Lemma load_chars_escape_quote (s rest : string) :
  Json.load_chars (Json.escape s ++ String "034"%char rest) = Some (s, rest).
Proof. apply (load_chars_escape s rest). Qed.

Lemma load_string_dump (s rest : string) :
  Json.load_string (Json.dump_string s ++ rest) = Some (s, rest).
Proof.
  unfold Json.dump_string. rewrite !append_assoc. apply load_chars_escape_quote.
Qed.

Lemma load_string_ws (w : ascii) (x : string) :
  Json.is_ws w = true -> Json.load_string (String w x) = Json.load_string x.
Proof. intros H. unfold Json.load_string. cbn [Json.skip_ws]. now rewrite H. Qed.

Lemma expect_ws (c w : ascii) (x : string) :
  Json.is_ws w = true -> Json.expect c (String w x) = Json.expect c x.
Proof. intros H. unfold Json.expect. cbn [Json.skip_ws]. now rewrite H. Qed.

Lemma expect_here (c : ascii) (x : string) :
  Json.is_ws c = false -> Json.expect c (String c x) = Some x.
Proof.
  intros H. unfold Json.expect. cbn [Json.skip_ws]. now rewrite H, Ascii.eqb_refl.
Qed.

Lemma expect_other (c c' : ascii) (x : string) :
  Json.is_ws c' = false -> Ascii.eqb c c' = false -> Json.expect c (String c' x) = None.
Proof.
  intros H E. unfold Json.expect. cbn [Json.skip_ws]. now rewrite H, E.
Qed.

Ltac json_step :=
  first
    [ rewrite load_string_dump
    | rewrite load_string_ws by reflexivity
    | rewrite expect_ws by reflexivity
    | rewrite expect_here by reflexivity
    | rewrite expect_other by reflexivity ].

Lemma load_entry_dump (fuel : nat) (e : Entry) (rest : string) :
  (3 <= fuel)%nat ->
  Json.load_entry fuel (Json.dump_entry e ++ rest) = Some (e, rest).
Proof.
  intros Hf. destruct fuel as [|[|[|fuel]]]; try lia. destruct e as [q a t].
  unfold Json.load_entry, Json.dump_entry.
  cbn [query answer timestamp]. rewrite !append_assoc.
  unfold nl. cbn [append Json.load_members].
  repeat json_step. reflexivity.
Qed.

Lemma load_entry_ws (fuel : nat) (w : ascii) (x : string) :
  Json.is_ws w = true -> Json.load_entry fuel (String w x) = Json.load_entry fuel x.
Proof. intros H. unfold Json.load_entry. now rewrite expect_ws. Qed.

Lemma load_entries_ws (fuel : nat) (w : ascii) (x : string) :
  Json.is_ws w = true -> Json.load_entries fuel (String w x) = Json.load_entries fuel x.
Proof.
  intros H. destruct fuel as [|fuel]; [reflexivity|].
  cbn [Json.load_entries]. now rewrite load_entry_ws.
Qed.

Lemma load_entries_dump (es : list Entry) :
  forall e fuel rest,
    (List.length (e :: es) + 3 <= fuel)%nat ->
    Json.load_entries fuel
      (join Json.record_sep (map Json.dump_entry (e :: es)) ++ nl ++ "]" ++ rest)
    = Some (e :: es, rest).
Proof.
  induction es as [|e2 es IH]; intros e fuel rest Hf;
    (destruct fuel as [|fuel]; [cbn in Hf; lia|]); cbn [List.length] in Hf.
  - cbn [map join Json.load_entries]. rewrite load_entry_dump by lia.
    unfold nl. cbn [append]. repeat json_step. reflexivity.
  - change (join Json.record_sep (map Json.dump_entry (e :: e2 :: es)))
      with (Json.dump_entry e ++ Json.record_sep
              ++ join Json.record_sep (map Json.dump_entry (e2 :: es))).
    cbn [Json.load_entries]. rewrite !append_assoc, load_entry_dump by lia.
    unfold Json.record_sep, nl. rewrite !append_assoc. cbn [append].
    json_step. rewrite !load_entries_ws by reflexivity.
    change (String "010" (String "]" rest)) with (nl ++ "]" ++ rest).
    fold nl Json.record_sep.
    rewrite IH by (cbn [List.length]; lia). reflexivity.
Qed.

Lemma length_join_dump (l : list Entry) :
  (List.length l <= String.length (join Json.record_sep (map Json.dump_entry l)))%nat.
Proof.
  induction l as [|x [|y r] IH]; cbn [List.length map join].
  - apply Nat.le_0_l.
  - unfold Json.dump_entry. cbn [append String.length]. lia.
  - rewrite !length_append. cbn [map List.length join] in IH.
    assert (1 <= String.length (Json.dump_entry x))%nat
      by (unfold Json.dump_entry; cbn [append String.length]; lia).
    lia.
Qed.

(** [json.load] reads back every store [json.dump] wrote. *)
Lemma json_round_trip (h : list Entry) : Json.load (Json.dump h) = Some h.
Proof.
  destruct h as [|e es]; [reflexivity|].
  unfold Json.load, Json.dump.
  set (J := join Json.record_sep (map Json.dump_entry (e :: es))).
  assert (List.length (e :: es) <= String.length J)%nat as HJ
      by apply length_join_dump.
  set (fuel := S (String.length ("[" ++ nl ++ "  " ++ J ++ nl ++ "]"))).
  assert (List.length (e :: es) + 3 <= fuel)%nat as Hfuel.
  { subst fuel. unfold nl. cbn [append String.length].
    rewrite length_append. cbn [String.length]. lia. }
  unfold nl at 1. cbn [append]. repeat json_step.
  assert (Json.expect "]" (J ++ nl ++ "]") = None) as ->.
  { subst J. destruct es as [|e2 es]; cbn [map join]; unfold Json.dump_entry;
      rewrite ?append_assoc; cbn [append]; now rewrite expect_other. }
  replace (J ++ nl ++ "]") with (J ++ nl ++ "]" ++ "") by reflexivity.
  subst J. rewrite !load_entries_ws by reflexivity.
  rewrite load_entries_dump by exact Hfuel. reflexivity.
Qed.

(** The store of the program, with its JSON file format: what is loaded
    after any sequence of successful [add]s is what is in memory. *)
Corollary history_round_trip_json (f0 : option string) (calls : list AddCall) :
  let self := History.add_all Json.dump calls (History.init Json.load f0) in
  all_written calls ->
  History._load Json.load (file self) = history self
  /\ history self = (History._load Json.load f0 ++ map entry_of calls)%list.
Proof.
  intros self Hw. split.
  - apply reload_gives_memory; [exact Hw | apply json_round_trip].
  - apply add_all_history.
Qed.

(* ===================================================================== *)
(** * The loop, whatever the collaborators answer                        *)
(* ===================================================================== *)

Lemma sandbox_calls_app (a b : list Event) :
  sandbox_calls (a ++ b) = (sandbox_calls a + sandbox_calls b)%nat.
Proof.
  induction a as [|[] a IH]; cbn; auto.
Qed.

Lemma passes_app (a b : list Event) :
  passes (a ++ b) = (passes a + passes b)%nat.
Proof.
  induction a as [|[] a IH]; cbn; auto.
Qed.

Lemma startswith_contains (s p : string) :
  startswith s p = true -> contains p s = true.
Proof. destruct s; cbn [contains]; intros ->; reflexivity. Qed.

Section LoopBooks.

Variable D : Type.
Variable dispatch : D -> string -> PyVal -> Outcome PyVal * D.
Variable py : Interpreter Empty_set.
Variable Tool : Type.
Variable get_tools_from_servers : list string -> list Tool.
Variable summarize_tools : list Tool -> string.
Variable run_perception : Z -> AgentContext -> string -> PerceptionResult.
Variable generate_plan :
  Z -> string -> PerceptionResult -> list MemoryItem -> string -> Z -> Z -> string.
Variable decode_result_field : string -> option string.

Local Abbreviation State := (RunState D).
Local Abbreviation sandbox := (run_python_sandbox D dispatch py).
Local Abbreviation plan_phase :=
  (@Loop.plan_phase D Tool get_tools_from_servers summarize_tools run_perception
                    generate_plan).
Local Abbreviation execute := (@Loop.execute D dispatch py decode_result_field).
Local Abbreviation pass :=
  (@Loop.pass D dispatch py Tool get_tools_from_servers summarize_tools
              run_perception generate_plan decode_result_field).
Local Abbreviation while_loop :=
  (@Loop.while_loop D dispatch py Tool get_tools_from_servers summarize_tools
                    run_perception generate_plan decode_result_field).
Local Abbreviation for_steps :=
  (@Loop.for_steps D dispatch py Tool get_tools_from_servers summarize_tools
                   run_perception generate_plan decode_result_field).
Local Abbreviation run :=
  (@Loop.run D dispatch py Tool get_tools_from_servers summarize_tools
             run_perception generate_plan decode_result_field).
Local Abbreviation enter := (Loop.enter D).
Local Abbreviation start := (Loop.start D).
Local Abbreviation guard_state := (Loop.guard_state D).
Local Abbreviation framed := (Loop.framed D).
Local Abbreviation within := (Loop.within D).
Local Abbreviation sandbox_text := (Loop.sandbox_text D dispatch py).

(** ** One pass *)

Local Opaque startswith contains strip.

Lemma execute_books plan (st : State) :
  exists st' e,
    execute plan st = (st', e)
    /\ total_iterations D st' = total_iterations D st
    /\ max_steps (context D st') = max_steps (context D st)
    /\ max_lifelines_per_step (context D st') = max_lifelines_per_step (context D st)
    /\ user_input (context D st') = user_input (context D st)
    /\ (exists new, subtasks (context D st') = (subtasks (context D st) ++ new)%list)
    /\ (exists new, memory (context D st') = (memory (context D st) ++ new)%list)
    /\ events D st' = (events D st ++ [EvSandbox plan])%list
    /\ mcp D st' = snd (sandbox plan (mcp D st))
    /\ (forall r, e = PReturn r ->
          startswith r FINAL_ANSWER = true /\ final_answer (context D st') = Some r).
Proof.
  unfold Loop.execute. cbn.
  destruct (sandbox plan (mcp D st)) as [raw d']. cbn.
  destruct (startswith (strip raw) FINAL_ANSWER) eqn:E1;
    [|destruct (startswith (strip raw) FURTHER_PROCESSING_REQUIRED) eqn:E2;
      [|destruct (startswith (strip raw) SANDBOX_ERROR) eqn:E3; cbn;
        [|destruct (contains FURTHER_PROCESSING_REQUIRED (strip raw)) eqn:E4; cbn]]];
    do 2 eexists; (split; [reflexivity|]); cbn;
    do 8 (split; [rewrite <- ?app_assoc; try reflexivity;
                  try (eexists; reflexivity); try (exists []; now rewrite app_nil_r)|]);
    intros r Hr; try discriminate; injection Hr as <-.
  - split; [exact E1 | reflexivity].
  - split; [|reflexivity].
    apply (startswith_app FINAL_ANSWER (" " ++ strip raw)).
Qed.

Local Transparent startswith contains strip.

Lemma plan_phase_books step (st : State) :
  match plan_phase step st with
  | GuardFired _ st' =>
      total_iterations D st + 1 > max_steps (context D st) * 2 /\ st' = guard_state st
  | NoTools _ st' | Planned _ _ st' =>
      total_iterations D st + 1 <= max_steps (context D st) * 2
      /\ total_iterations D st' = total_iterations D st + 1
      /\ max_steps (context D st') = max_steps (context D st)
      /\ max_lifelines_per_step (context D st') = max_lifelines_per_step (context D st)
      /\ user_input (context D st') = user_input (context D st)
      /\ subtasks (context D st') = subtasks (context D st)
      /\ memory (context D st') = memory (context D st)
      /\ mcp D st' = mcp D st
      /\ exists new,
           events D st' = (events D st ++ new)%list
           /\ passes new = 1%nat /\ sandbox_calls new = 0%nat
  end.
Proof.
  unfold Loop.plan_phase. cbn.
  destruct (total_iterations D st + 1 >? max_steps (context D st) * 2) eqn:E;
    [split; [lia | reflexivity]|].
  unfold Loop.perceive. cbn.
  destruct (last_perception D st) as [p|];
    [destruct (last_selected_servers D st) as [servers|];
     [destruct (truthy (user_input_override (context D st)) && nonempty servers)|]|];
    cbn;
    match goal with |- context [nonempty ?t] => destruct (nonempty t) end;
    cbn; (split; [lia|]); repeat (split; [reflexivity|]);
    rewrite <- ?app_assoc; eexists; (split; [reflexivity|]); split; reflexivity.
Qed.

(** Whatever the collaborators answer, a pass keeps its books. *)
Lemma pass_framed step (st : State) :
  framed st (fst (pass step st)) (snd (pass step st)).
Proof.
  unfold Loop.pass. pose proof (plan_phase_books step st) as H.
  destruct (plan_phase step st) as [st1|st1|plan st1].
  - destruct H as [Hg ->]. cbn [fst snd].
    split; try reflexivity; try (exists []; now rewrite app_nil_r).
    + exists []. rewrite app_nil_r. split; [reflexivity|]. split; [cbn; lia|].
      left. auto.
    + intros r Hr. injection Hr as <-. split; reflexivity.
  - destruct H as (Hg & Ht & HN & HL & Hu & Hs & Hm & _ & new & He & Hp & Hc).
    cbn [fst snd]. split; auto.
    + exists []. now rewrite app_nil_r.
    + exists []. now rewrite app_nil_r.
    + exists new. split; [exact He|]. split; [lia|]. right. auto.
    + discriminate.
  - destruct H as (Hg & Ht & HN & HL & Hu & Hs & Hm & _ & new & He & Hp & Hc).
    destruct (defines_solve plan).
    + destruct (execute_books plan st1)
        as (st' & e & -> & Ht' & HN' & HL' & Hu' & Hs' & Hm' & He' & _ & Hr).
      cbn [fst snd]. split; try congruence.
      * rewrite <- Hs. exact Hs'.
      * rewrite <- Hm. exact Hm'.
      * exists (new ++ [EvSandbox plan])%list.
        split; [rewrite He', He, <- app_assoc; reflexivity|].
        rewrite sandbox_calls_app, passes_app, Hp, Hc. cbn.
        split; [lia|]. right. split; [exact Hg | lia].
      * exact Hr.
    + cbn [fst snd]. split; auto.
      * exists []. now rewrite app_nil_r.
      * exists []. now rewrite app_nil_r.
      * exists new. split; [exact He|]. split; [lia|]. right. auto.
      * discriminate.
Qed.

(** ** The loops *)

Lemma within_pass (c : AgentContext) step (st : State) :
  within c st ->
  within c (fst (pass step st)).
Proof.
  intros [HN HL Hu (s & Hs) (m & Hm) Hp Hc].
  destruct (pass_framed step st) as [Ft FN FL Fu (s' & Fs) (m' & Fm) (new & Fe & Fc & Fg) _].
  split; try congruence.
  - exists (s ++ s')%list. now rewrite Fs, Hs, <- app_assoc.
  - exists (m ++ m')%list. now rewrite Fm, Hm, <- app_assoc.
  - rewrite Fe, passes_app, Ft, <- HN.
    destruct Fg as [(Hg & -> & _)|(Hg & Hone)]; [cbn|rewrite Hone]; lia.
  - rewrite Fe, sandbox_calls_app, passes_app. lia.
Qed.

Lemma within_enter (c : AgentContext) step (st : State) :
  within c st -> within c (enter step st).
Proof. intros [HN HL Hu Hs Hm Hp Hc]. split; auto. Qed.

Lemma within_start (c : AgentContext) (d : D) :
  0 <= max_steps c -> within c (start c d).
Proof.
  intros HN. split; try reflexivity; try (exists []; now rewrite app_nil_r);
    cbn; lia.
Qed.

(** The [while] loop of a step makes at most [lifelines_left + 1] passes,
    stays under the guard unless the guard ends it, and returns only marked
    texts. *)
Lemma while_within (c : AgentContext) (fuel : nat) :
  forall step l (st : State),
    within c st ->
    total_iterations D st <= max_steps c * 2 ->
    let r := while_loop fuel step l st in
    within c (fst r)
    /\ total_iterations D (fst r) <= total_iterations D st + Z.max 0 (l + 1)
    /\ match snd r with
       | LReturn x =>
           total_iterations D (fst r) <= max_steps c * 2 + 1
           /\ startswith x FINAL_ANSWER = true
           /\ final_answer (context D (fst r)) = Some x
       | _ => total_iterations D (fst r) <= max_steps c * 2
       end.
Proof.
  induction fuel as [|fuel IH]; intros step l st Hw Ht; cbn [Loop.while_loop].
  - destruct (l >=? 0); cbn; (split; [exact Hw|]); split; lia.
  - destruct (l >=? 0) eqn:El; [|cbn; (split; [exact Hw|]); split; lia].
    pose proof (within_pass c step st Hw) as Hw1.
    pose proof (pass_framed step st) as [Ft _ _ _ _ _ (new & _ & _ & Fg) Fr].
    rewrite (in_max_steps _ _ _ Hw) in Fg.
    destruct (pass step st) as [st1 [x| |]]; cbn [fst snd] in *.
    + split; [exact Hw1|]. split; [lia|].
      destruct (Fr x eq_refl) as [Hx Hf]. split; [lia|]. auto.
    + split; [exact Hw1|]. split; [lia|].
      destruct Fg as [(_ & _ & Hd)|(Hg & _)]; [discriminate | lia].
    + assert (total_iterations D st1 <= max_steps c * 2) as Ht1
          by (destruct Fg as [(_ & _ & Hd)|(Hg & _)]; [discriminate | lia]).
      destruct (IH step (l - 1) st1 Hw1 Ht1) as (A & B & C).
      split; [exact A|]. split; [lia | exact C].
Qed.

Lemma for_within (c : AgentContext) (steps : list Z) :
  forall st : State,
    within c st ->
    total_iterations D st <= max_steps c * 2 ->
    let r := for_steps steps st in
    within c (fst r)
    /\ total_iterations D (fst r)
       <= total_iterations D st
          + Z.of_nat (List.length steps) * Z.max 0 (max_lifelines_per_step c + 1)
    /\ total_iterations D (fst r) <= max_steps c * 2 + 1
    /\ forall res, snd r = Some res ->
         status res = "done"
         /\ startswith (result res) FINAL_ANSWER = true
         /\ final_answer (context D (fst r)) = Some (result res).
Proof.
  induction steps as [|step rest IH]; intros st Hw Ht; cbn [Loop.for_steps].
  - cbn [fst snd List.length].
    change (total_iterations D (with_context D (set_final_answer MAX_STEPS_REACHED) st))
      with (total_iterations D st).
    split; [|split; [lia|split; [lia|]]].
    + destruct Hw as [HN HL Hu Hs Hm Hp Hc]. split; auto.
    + intros res Hres. injection Hres as <-. repeat split.
  - fold (enter step st).
    pose proof (within_enter c step st Hw) as Hw0.
    replace (max_lifelines_per_step (context D (enter step st)))
      with (max_lifelines_per_step c) by (symmetry; apply (in_lifelines _ _ _ Hw0)).
    destruct (while_within c (Z.to_nat (max_lifelines_per_step c + 1)) step
                (max_lifelines_per_step c) (enter step st) Hw0 Ht) as (A & B & C).
    change (total_iterations D (enter step st)) with (total_iterations D st) in B.
    assert (0 <= Z.of_nat (List.length rest) * Z.max 0 (max_lifelines_per_step c + 1))
      by (apply Z.mul_nonneg_nonneg; lia).
    replace (Z.of_nat (List.length (step :: rest)))
      with (Z.of_nat (List.length rest) + 1) by (cbn [List.length]; lia).
    assert (0 <= Z.max 0 (max_lifelines_per_step c + 1)) as HM by lia.
    revert IH H B HM. generalize (Z.max 0 (max_lifelines_per_step c + 1)).
    intros M IH H B HM.
    destruct (while_loop _ step _ (enter step st)) as [st1 [x| | |]]; cbn [fst snd] in *.
    + split; [exact A|]. split; [lia|]. split; [lia|].
      intros res Hres. injection Hres as <-. cbn. destruct C as (_ & Hx & Hf). auto.
    + destruct (IH st1 A C) as (A' & B' & C' & E').
      split; [exact A'|]. split; [lia|]. split; [exact C' | exact E'].
    + destruct (IH st1 A C) as (A' & B' & C' & E').
      split; [exact A'|]. split; [lia|]. split; [exact C' | exact E'].
    + split; [exact A|]. split; [lia|]. split; [lia|]. discriminate.
Qed.

(** ** The run *)

(** X1.  Whatever perception, the planner, the sandbox and the tools answer,
    a run with [max_steps = N >= 0] counts at most [2 * N + 1] passes, and
    at most [N * (L + 1)] for [L >= 0] lifelines per step (none at all for
    negative [L]); at most [2 * N] of them get past the iteration guard, and
    the sandbox is called at most once in each of those. *)
Theorem run_is_bounded (c : AgentContext) (d : D) :
  0 <= max_steps c ->
  let st' := fst (run c d) in
  total_iterations D st' <= 2 * max_steps c + 1
  /\ total_iterations D st' <= max_steps c * Z.max 0 (max_lifelines_per_step c + 1)
  /\ Z.of_nat (passes (events D st')) <= 2 * max_steps c
  /\ (sandbox_calls (events D st') <= passes (events D st'))%nat.
Proof.
  intros HN st'. subst st'. unfold Loop.run. fold (start c d).
  destruct (for_within c (range (max_steps c)) (start c d)) as (Hw & Hl & Hg & _);
    [apply within_start; exact HN | cbn; lia |].
  rewrite length_range, Z.max_r in Hl by exact HN. cbn in Hl.
  split; [lia|]. split; [lia|].
  split; [pose proof (in_passes _ _ _ Hw); lia | apply (in_sandbox _ _ _ Hw)].
Qed.

(** [run] returns a marked text, which is the context's final answer. *)
Lemma run_answer (c : AgentContext) (d : D) :
  exists r,
    snd (run c d) = Some (done r)
    /\ startswith r FINAL_ANSWER = true
    /\ final_answer (context D (fst (run c d))) = Some r
    /\ user_input (context D (fst (run c d))) = user_input c.
Proof.
  destruct (run_total D dispatch py Tool get_tools_from_servers summarize_tools
              run_perception generate_plan decode_result_field c d) as [[s r] Hr].
  destruct (Z_lt_le_dec (max_steps c) 0) as [Hneg|HN].
  - unfold Loop.run, range in *.
    replace (Z.to_nat (max_steps c)) with O in * by lia.
    cbn in Hr |- *. exists MAX_STEPS_REACHED. repeat split.
  - unfold Loop.run in *. fold (start c d) in *.
    destruct (for_within c (range (max_steps c)) (start c d)) as (Hw & _ & _ & Hres);
      [apply within_start; exact HN | cbn; lia |].
    destruct (Hres _ Hr) as (Hs & Hm & Hf). cbn [status result] in Hs, Hm, Hf. subst s.
    exists r. split; [exact Hr|]. split; [exact Hm|].
    split; [exact Hf | apply (in_user_input _ _ _ Hw)].
Qed.

(** X2.  Whatever the collaborators answer, [run] returns a dictionary with
    the status "done" whose result opens with the final-answer marker, and
    that result is what it leaves in [context.final_answer]; the user's
    input in the context is the one it started with.  No result of [run]
    opens with the continuation marker or is a bare text. *)
Theorem run_returns_a_marked_answer (c : AgentContext) (d : D) :
  exists r,
    snd (run c d) = Some (mkResult "done" r)
    /\ startswith r FINAL_ANSWER = true
    /\ contains FINAL_ANSWER r = true
    /\ startswith r FURTHER_PROCESSING_REQUIRED = false
    /\ final_answer (context D (fst (run c d))) = Some r
    /\ user_input (context D (fst (run c d))) = user_input c.
Proof.
  destruct (run_answer c d) as (r & Hr & Hm & Hf & Hu).
  exists r. split; [exact Hr|]. split; [exact Hm|].
  split; [apply startswith_contains, Hm|].
  split; [|split; [exact Hf | exact Hu]].
  destruct (startswith r FURTHER_PROCESSING_REQUIRED) eqn:E; [|reflexivity].
  apply further_not_final in E. congruence.
Qed.

(** ** Invariants of a run *)

(** What a pass does to the dispatcher and the events: nothing to the
    dispatcher unless it calls the sandbox, which it then does once. *)
Lemma pass_dispatcher step (st : State) :
  (mcp D (fst (pass step st)) = mcp D st
   /\ sandbox_calls (events D (fst (pass step st))) = sandbox_calls (events D st))
  \/ (exists plan d,
        mcp D (fst (pass step st)) = snd (sandbox plan d)
        /\ d = mcp D st
        /\ sandbox_calls (events D (fst (pass step st)))
           = S (sandbox_calls (events D st))).
Proof.
  unfold Loop.pass. pose proof (plan_phase_books step st) as H.
  destruct (plan_phase step st) as [st1|st1|plan st1].
  - destruct H as [_ ->]. left. split; reflexivity.
  - destruct H as (_ & _ & _ & _ & _ & _ & _ & Hd & new & He & _ & Hc).
    left. cbn [fst]. rewrite He, sandbox_calls_app, Hc. split; [exact Hd | lia].
  - destruct H as (_ & _ & _ & _ & _ & _ & _ & Hd & new & He & _ & Hc).
    destruct (defines_solve plan).
    + destruct (execute_books plan st1)
        as (st' & e & -> & _ & _ & _ & _ & _ & _ & He' & Hd' & _).
      right. exists plan, (mcp D st1). cbn [fst].
      split; [exact Hd'|]. split; [exact Hd|].
      rewrite He', He, !sandbox_calls_app, Hc. cbn. lia.
    + left. cbn [fst]. rewrite He, sandbox_calls_app, Hc. split; [exact Hd | lia].
Qed.

(** A property of the dispatcher and the events that every pass keeps holds
    when the run is over. *)
Lemma run_invariant (P : D -> list Event -> Prop) :
  (forall step st,
     P (mcp D st) (events D st) ->
     P (mcp D (fst (pass step st))) (events D (fst (pass step st)))) ->
  forall c d, P d [] -> P (mcp D (fst (run c d))) (events D (fst (run c d))).
Proof.
  intros Hpass c d H0.
  assert (forall fuel step l st,
            P (mcp D st) (events D st) ->
            P (mcp D (fst (while_loop fuel step l st)))
              (events D (fst (while_loop fuel step l st)))) as Hwhile.
  { induction fuel as [|fuel IH]; intros step l st H; cbn [Loop.while_loop];
      (destruct (l >=? 0); [|exact H]); [exact H|].
    pose proof (Hpass step st H) as H1.
    destruct (pass step st) as [st1 [x| |]]; cbn [fst] in *; auto. }
  assert (forall steps st,
            P (mcp D st) (events D st) ->
            P (mcp D (fst (for_steps steps st))) (events D (fst (for_steps steps st))))
    as Hfor.
  { induction steps as [|step rest IH]; intros st H; cbn [Loop.for_steps].
    - exact H.
    - match goal with |- context [while_loop ?f ?s ?l ?x] =>
        pose proof (Hwhile f s l x H) as H1;
        destruct (while_loop f s l x) as [st1 [x'| | |]] end;
        cbn [fst] in *; auto. }
  apply Hfor. exact H0.
Qed.

End LoopBooks.

(* ===================================================================== *)
(** * The outcomes of a pass                                              *)
(* ===================================================================== *)

(** A text that ends in a character that is no blank keeps its end. *)
Lemma rstrip_closed (s : string) (c : ascii) :
  isspace c = false ->
  rstrip (s ++ String c EmptyString) = s ++ String c EmptyString.
Proof.
  intros Hc. induction s as [|a s IH]; cbn [append rstrip].
  - now rewrite Hc.
  - rewrite IH. destruct s; reflexivity.
Qed.

(** The Error text of the sandbox has no blanks to strip, and opens with
    the Error marker. *)
Lemma strip_sandbox_error (e : PyExc) : strip (sandbox_error e) = sandbox_error e.
Proof.
  unfold strip.
  replace (lstrip (sandbox_error e)) with (sandbox_error e) by reflexivity.
  unfold sandbox_error.
  rewrite <- (append_assoc "[sandbox error: " (exc_msg e) "]").
  apply rstrip_closed. reflexivity.
Qed.

Lemma sandbox_error_marked (e : PyExc) :
  startswith (sandbox_error e) SANDBOX_ERROR = true.
Proof. apply (startswith_app SANDBOX_ERROR (" " ++ exc_msg e ++ "]")). Qed.

Lemma error_not_marker (r : string) :
  startswith r SANDBOX_ERROR = true ->
  startswith r FINAL_ANSWER = false /\ startswith r FURTHER_PROCESSING_REQUIRED = false.
Proof.
  unfold SANDBOX_ERROR, FINAL_ANSWER, FURTHER_PROCESSING_REQUIRED.
  destruct r as [|a r]; cbn [startswith]; [discriminate|].
  destruct (Ascii.eqb_spec "[" a) as [<-|]; [|discriminate].
  intros _. split; reflexivity.
Qed.

Section LoopOutcomes.

Variable D : Type.
Variable dispatch : D -> string -> PyVal -> Outcome PyVal * D.
Variable py : Interpreter Empty_set.
Variable Tool : Type.
Variable get_tools_from_servers : list string -> list Tool.
Variable summarize_tools : list Tool -> string.
Variable run_perception : Z -> AgentContext -> string -> PerceptionResult.
Variable generate_plan :
  Z -> string -> PerceptionResult -> list MemoryItem -> string -> Z -> Z -> string.
Variable decode_result_field : string -> option string.

Local Abbreviation State := (RunState D).
Local Abbreviation sandbox := (run_python_sandbox D dispatch py).
Local Abbreviation sandbox_try := (Action.sandbox_try D dispatch py).
Local Abbreviation plan_phase :=
  (@Loop.plan_phase D Tool get_tools_from_servers summarize_tools run_perception
                    generate_plan).
Local Abbreviation execute := (@Loop.execute D dispatch py decode_result_field).
Local Abbreviation pass :=
  (@Loop.pass D dispatch py Tool get_tools_from_servers summarize_tools
              run_perception generate_plan decode_result_field).
Local Abbreviation for_steps :=
  (@Loop.for_steps D dispatch py Tool get_tools_from_servers summarize_tools
                   run_perception generate_plan decode_result_field).
Local Abbreviation run :=
  (@Loop.run D dispatch py Tool get_tools_from_servers summarize_tools
             run_perception generate_plan decode_result_field).
Local Abbreviation enter := (Loop.enter D).
Local Abbreviation start := (Loop.start D).
Local Abbreviation sandbox_text := (Loop.sandbox_text D dispatch py).
Local Abbreviation while_loop :=
  (@Loop.while_loop D dispatch py Tool get_tools_from_servers summarize_tools
                    run_perception generate_plan decode_result_field).
Local Abbreviation first_pass :=
  (for_steps_first_pass D dispatch py Tool get_tools_from_servers summarize_tools
     run_perception generate_plan decode_result_field).
Local Abbreviation while_first_pass :=
  (while_loop_first_pass D dispatch py Tool get_tools_from_servers summarize_tools
     run_perception generate_plan decode_result_field).
Local Abbreviation phase_context :=
  (plan_phase_context D Tool get_tools_from_servers summarize_tools run_perception
     generate_plan).

Local Opaque startswith contains strip.

Lemma execute_final plan (st : State) :
  startswith (sandbox_text plan st) FINAL_ANSWER = true ->
  let r := sandbox_text plan st in
  exists st',
    execute plan st = (st', PReturn r)
    /\ final_answer (context D st') = Some r
    /\ subtasks (context D st')
       = (subtasks (context D st)
            ++ [("solve_sandbox", "pending"); ("solve_sandbox", "success")])%list
    /\ memory (context D st')
       = (memory (context D st)
            ++ [mkItem "solve_sandbox" plan r true ["sandbox"]])%list
    /\ total_iterations D st' = total_iterations D st.
Proof.
  intros H r. subst r. unfold sandbox_text in *. unfold Loop.execute. cbn.
  destruct (sandbox plan (mcp D st)) as [raw d']. cbn in H |- *. rewrite H.
  eexists. split; [reflexivity|]. cbn. rewrite <- app_assoc. repeat split.
Qed.

Lemma execute_error plan (st : State) :
  startswith (sandbox_text plan st) SANDBOX_ERROR = true ->
  let r := sandbox_text plan st in
  exists st',
    execute plan st = (st', PRetry)
    /\ final_answer (context D st') = Some EXECUTION_FAILED
    /\ user_input_override (context D st') = user_input_override (context D st)
    /\ subtasks (context D st')
       = (subtasks (context D st)
            ++ [("solve_sandbox", "pending"); ("solve_sandbox", "failure")])%list
    /\ memory (context D st')
       = (memory (context D st)
            ++ [mkItem "solve_sandbox" plan r false ["sandbox"]])%list
    /\ total_iterations D st' = total_iterations D st.
Proof.
  intros H r. subst r. destruct (error_not_marker _ H) as [H1 H2].
  unfold sandbox_text in *. unfold Loop.execute. cbn.
  destruct (sandbox plan (mcp D st)) as [raw d']. cbn in H, H1, H2 |- *.
  rewrite H, H1, H2. cbn.
  eexists. split; [reflexivity|]. cbn. rewrite <- app_assoc. repeat split.
Qed.

Local Transparent startswith contains strip.

(** X3.  A pass whose sandbox result, stripped, opens with the final-answer
    marker ends the run there and then: the pass returns that text, which
    becomes the context's final answer; the subtask is logged as a success
    and the result is added to the memory; whatever lifelines are left, the
    [while] loop hands the text on, and [run] returns it without entering
    the steps that remain. *)
Theorem final_answer_ends_the_run step (st : State) plan st1 :
  plan_phase step st = Planned D plan st1 ->
  defines_solve plan = true ->
  let r := sandbox_text plan st1 in
  startswith r FINAL_ANSWER = true ->
  exists st',
    pass step st = (st', PReturn r)
    /\ (forall fuel l, 0 <= l -> while_loop (S fuel) step l st = (st', LReturn r))
    /\ (forall rest st0,
          st = enter step st0 ->
          0 <= max_lifelines_per_step (context D st0) ->
          for_steps (step :: rest) st0 = (st', Some (done r)))
    /\ final_answer (context D st') = Some r
    /\ subtasks (context D st')
       = (subtasks (context D st)
            ++ [("solve_sandbox", "pending"); ("solve_sandbox", "success")])%list
    /\ memory (context D st')
       = (memory (context D st)
            ++ [mkItem "solve_sandbox" plan r true ["sandbox"]])%list
    /\ total_iterations D st' = total_iterations D st + 1.
Proof.
  intros Hp Hs r Hr.
  destruct (execute_final plan st1 Hr) as (st' & He & Hf & Hsub & Hmem & Ht).
  destruct (phase_context _ _ _ _ Hp) as (_ & _ & _ & Hsub1 & Hmem1 & Ht1).
  fold r in He, Hf, Hmem.
  assert (pass step st = (st', PReturn r)) as Hpass
      by (unfold Loop.pass; now rewrite Hp, Hs, He).
  exists st'. split; [exact Hpass|]. split; [|split].
  - intros fuel l Hl. rewrite while_first_pass by exact Hl. now rewrite Hpass.
  - intros rest st0 -> HL. rewrite first_pass by exact HL. now rewrite Hpass.
  - rewrite Hf, Hsub, Hmem, Hsub1, Hmem1, Ht, Ht1. repeat split.
Qed.

(** X4.  Whatever exception the sandbox meets (the plan does not compile,
    its module body or [solve] raises, [solve] is missing, the result cannot
    be formatted), the loop does not return: it puts the "execution failed"
    text in the context, logs the subtask as a failure, records the Error
    text as an unsuccessful result, and goes on with the next pass of the
    step with one lifeline fewer. *)
Theorem sandbox_failure_is_retried step (st : State) plan st1 (e : PyExc) :
  plan_phase step st = Planned D plan st1 ->
  defines_solve plan = true ->
  fst (sandbox_try plan (SandboxMCP_init D (mcp D st1))) = Raised e ->
  exists st',
    pass step st = (st', PRetry)
    /\ (forall fuel l, 0 <= l ->
          while_loop (S fuel) step l st = while_loop fuel step (l - 1) st')
    /\ final_answer (context D st') = Some EXECUTION_FAILED
    /\ subtasks (context D st')
       = (subtasks (context D st)
            ++ [("solve_sandbox", "pending"); ("solve_sandbox", "failure")])%list
    /\ memory (context D st')
       = (memory (context D st)
            ++ [mkItem "solve_sandbox" plan (sandbox_error e) false ["sandbox"]])%list
    /\ total_iterations D st' = total_iterations D st + 1.
Proof.
  intros Hp Hs He.
  assert (sandbox_text plan st1 = sandbox_error e) as Htext.
  { unfold Loop.sandbox_text, run_python_sandbox, run_python_sandbox_mcp.
    destruct (sandbox_try plan (SandboxMCP_init D (mcp D st1))) as [o m].
    cbn in He. subst o. cbn [fst]. apply strip_sandbox_error. }
  destruct (execute_error plan st1) as (st' & Hx & Hf & _ & Hsub & Hmem & Ht);
    [rewrite Htext; apply sandbox_error_marked|].
  destruct (phase_context _ _ _ _ Hp) as (_ & _ & _ & Hsub1 & Hmem1 & Ht1).
  rewrite Htext in Hmem.
  assert (pass step st = (st', PRetry)) as Hpass
      by (unfold Loop.pass; now rewrite Hp, Hs, Hx).
  exists st'. split; [exact Hpass|]. split.
  - intros fuel l Hl. rewrite while_first_pass by exact Hl. now rewrite Hpass.
  - rewrite Hf, Hsub, Hmem, Hsub1, Hmem1, Ht, Ht1. repeat split.
Qed.

(** X6.  The forwarding text of a continuation is used for one plan only.
    The pass that finds it, together with a cached perception of a
    non-empty server list, does not ask for perception again, plans on the
    forwarding text, and clears it; if that plan defines no [solve], the
    pass is retried, and the retry perceives afresh and plans on the user's
    original input: the intermediate result is gone. *)
Theorem forwarded_text_is_used_once step (st : State) o p servers :
  user_input_override (context D st) = Some o ->
  o <> EmptyString ->
  last_perception D st = Some p ->
  last_selected_servers D st = Some servers ->
  nonempty servers = true ->
  nonempty (get_tools_from_servers servers) = true ->
  total_iterations D st + 1 <= max_steps (context D st) * 2 ->
  let N := max_steps (context D st) in
  let i := total_iterations D st + 1 in
  let plan :=
    generate_plan i o p (memory (context D st))
      (summarize_tools (get_tools_from_servers servers)) (step + 1) N in
  exists st1,
    plan_phase step st = Planned D plan st1
    /\ user_input_override (context D st1) = None
    /\ events D st1 = (events D st ++ [EvPass step i; EvReuse])%list
    /\ (defines_solve plan = false ->
          pass step st = (st1, PRetry)
          /\ forall step',
               i + 1 <= N * 2 ->
               let input := user_input (context D st) in
               let p' := run_perception (i + 1) (context D st1) input in
               let tools := get_tools_from_servers (selected_servers p') in
               nonempty tools = true ->
               exists st2,
                 plan_phase step' st1
                 = Planned D (generate_plan (i + 1) input p' (memory (context D st))
                                (summarize_tools tools) (step' + 1) N) st2
                 /\ events D st2
                    = (events D st1 ++ [EvPass step' (i + 1); EvPerceive input])%list).
Proof.
  intros Ho Hne Hp Hs Hservers Htools Hg N i plan. subst N i plan.
  assert (String.eqb o EmptyString = false) as Hoe by (now apply String.eqb_neq).
  eexists. split; [|split; [|split]].
  - unfold Loop.plan_phase. cbn.
    destruct (total_iterations D st + 1 >? max_steps (context D st) * 2) eqn:E; [lia|].
    unfold Loop.perceive. cbn. rewrite Hp, Hs, Ho. cbn. rewrite Hoe, Hservers. cbn.
    rewrite Htools. cbn. reflexivity.
  - reflexivity.
  - cbn. now rewrite <- app_assoc.
  - intros Hplan. split.
    + unfold Loop.pass, Loop.plan_phase. cbn.
      destruct (total_iterations D st + 1 >? max_steps (context D st) * 2) eqn:E; [lia|].
      unfold Loop.perceive. cbn. rewrite Hp, Hs, Ho. cbn. rewrite Hoe, Hservers. cbn.
      rewrite Htools. cbn. now rewrite Hplan.
    + intros step' Hg' input p' tools Ht'. subst input p' tools.
      eexists. split.
      * unfold Loop.plan_phase. cbn.
        destruct (total_iterations D st + 1 + 1 >? max_steps (context D st) * 2) eqn:E;
          [lia|].
        unfold Loop.perceive. cbn. rewrite Hp, Hs. cbn.
        cbn in Ht'. rewrite Ht'. cbn. reflexivity.
      * cbn. now rewrite <- !app_assoc.
Qed.

Section NoToolsOnOffer.

Hypothesis no_tools :
  forall servers, nonempty (get_tools_from_servers servers) = false.

Lemma pass_no_tools step (st : State) :
  total_iterations D st + 1 <= max_steps (context D st) * 2 ->
  exists st',
    pass step st = (st', PBreak)
    /\ total_iterations D st' = total_iterations D st + 1
    /\ max_steps (context D st') = max_steps (context D st)
    /\ max_lifelines_per_step (context D st') = max_lifelines_per_step (context D st)
    /\ subtasks (context D st') = subtasks (context D st)
    /\ memory (context D st') = memory (context D st)
    /\ mcp D st' = mcp D st
    /\ sandbox_calls (events D st') = sandbox_calls (events D st).
Proof.
  intros Hg. unfold Loop.pass, Loop.plan_phase. cbn.
  destruct (total_iterations D st + 1 >? max_steps (context D st) * 2) eqn:E; [lia|].
  unfold Loop.perceive. cbn.
  destruct (last_perception D st) as [p|];
    [destruct (last_selected_servers D st) as [servers|];
     [destruct (truthy (user_input_override (context D st)) && nonempty servers)|]|];
    cbn; rewrite no_tools; cbn; eexists; (split; [reflexivity|]); cbn;
    rewrite ?sandbox_calls_app; cbn; repeat split; lia.
Qed.

Lemma for_no_tools (steps : list Z) :
  forall st : State,
    0 <= max_lifelines_per_step (context D st) ->
    total_iterations D st + Z.of_nat (List.length steps) <= max_steps (context D st) * 2 ->
    exists st',
      for_steps steps st = (st', Some (done MAX_STEPS_REACHED))
      /\ total_iterations D st' = total_iterations D st + Z.of_nat (List.length steps)
      /\ subtasks (context D st') = subtasks (context D st)
      /\ memory (context D st') = memory (context D st)
      /\ mcp D st' = mcp D st
      /\ sandbox_calls (events D st') = sandbox_calls (events D st).
Proof.
  induction steps as [|step rest IH]; intros st HL Ht.
  - eexists. split; [reflexivity|]. cbn. repeat split; lia.
  - cbn [List.length] in Ht. rewrite first_pass by exact HL.
    destruct (pass_no_tools step (enter step st))
      as (st1 & Hp & Ht1 & HN & HLL & Hs & Hm & Hd & He); [cbn; lia|].
    rewrite Hp. cbn in Ht1, HN, HLL, Hs, Hm, Hd, He.
    destruct (IH st1) as (st' & Hf & Ht' & Hs' & Hm' & Hd' & He'); [lia | lia |].
    exists st'. split; [exact Hf|].
    cbn [List.length]. repeat split; try congruence; lia.
Qed.

(** X5.  When the dispatcher has no tool to offer, whatever servers are
    selected, every step is left on its first pass: a run with
    [max_steps = N] makes [N] passes and ends with the "max steps reached"
    sentinel, without a call of the sandbox, without an entry in the subtask
    log or the memory, and without using a lifeline. *)
Theorem no_tools_no_work (c : AgentContext) (d : D) :
  0 <= max_steps c -> 0 <= max_lifelines_per_step c ->
  snd (run c d) = Some (done MAX_STEPS_REACHED)
  /\ total_iterations D (fst (run c d)) = max_steps c
  /\ sandbox_calls (events D (fst (run c d))) = 0%nat
  /\ subtasks (context D (fst (run c d))) = subtasks c
  /\ memory (context D (fst (run c d))) = memory c
  /\ mcp D (fst (run c d)) = d.
Proof.
  intros HN HL. unfold Loop.run. fold (start c d).
  pose proof (length_range (max_steps c)) as Hlen. rewrite Z.max_r in Hlen by exact HN.
  destruct (for_no_tools (range (max_steps c)) (start c d))
    as (st' & Hf & Ht & Hs & Hm & Hd & He); [exact HL | cbn; lia |].
  rewrite Hf. cbn [fst snd]. rewrite Ht, Hs, Hm, Hd, He, Hlen. repeat split.
Qed.

End NoToolsOnOffer.

End LoopOutcomes.

(* ===================================================================== *)
(** * The proxy under the budget                                          *)
(* ===================================================================== *)

Section ProxyFacts.

Variable X : Type.
Variable D : Type.
Variable dispatch : D -> string -> PyVal -> Outcome PyVal * D.
Variable py : Interpreter X.

Local Abbreviation Proxy := (SandboxMCP D).
Local Abbreviation call_tool := (Action.call_tool D dispatch).
Local Abbreviation run_prog := (Action.run_prog D dispatch).
Local Abbreviation sandbox_mcp := (run_python_sandbox_mcp D dispatch py).
Local Abbreviation calls := (Action.calls D).
Local Abbreviation accounted := (Action.accounted D).
Local Abbreviation replay := (Action.replay D dispatch).
Local Abbreviation transparent := (Action.transparent D dispatch).

Lemma replay_snoc (cs : list ToolCall) (c : ToolCall) (d : D) :
  replay (cs ++ [c]) d = snd (dispatch (replay cs d) (call_name c) (call_args c)).
Proof. unfold Action.replay. now rewrite fold_left_app. Qed.

Lemma transparent_init (d : D) : transparent d (SandboxMCP_init D d).
Proof.
  split; [reflexivity|]. intros [|i] c r H; discriminate H.
Qed.

Lemma call_tool_transparent (d0 : D) (m : Proxy) t a :
  accounted m -> transparent d0 m -> transparent d0 (snd (call_tool m t a)).
Proof.
  intros [Hc Hd Hr] [Td Ta]. unfold Action.calls in *.
  unfold Action.call_tool, MAX_TOOL_CALLS_PER_PLAN.
  destruct (call_count D m + 1 >? 5) eqn:E.
  - assert (5 <= List.length (issued D m))%nat as Hlen by lia.
    split; unfold Action.calls; cbn [Action.dispatcher Action.dispatched Action.issued snd].
    + exact Td.
    + intros i c r Hn Hi.
      rewrite nth_error_app1 in Hn by lia.
      rewrite map_app, firstn_app, length_map.
      replace (i - List.length (issued D m))%nat with O by lia.
      cbn [firstn]. rewrite app_nil_r. eauto.
  - assert (List.length (issued D m) < 5)%nat as Hlen by lia.
    destruct (dispatch (dispatcher D m) t a) as [r d'] eqn:Ed.
    split; unfold Action.calls; cbn [Action.dispatcher Action.dispatched Action.issued snd].
    + rewrite (replay_snoc (dispatched D m) (mkCall t a) d0), <- Td.
      cbn [call_name call_args]. now rewrite Ed.
    + intros i c r' Hn Hi.
      rewrite map_app, firstn_app, length_map.
      destruct (Nat.lt_ge_cases i (List.length (issued D m))) as [Hlt|Hge].
      * rewrite nth_error_app1 in Hn by exact Hlt.
        replace (i - List.length (issued D m))%nat with O by lia.
        cbn [firstn]. rewrite app_nil_r. eauto.
      * rewrite nth_error_app2 in Hn by exact Hge.
        destruct (i - List.length (issued D m))%nat as [|k] eqn:Ek;
          [|destruct k; discriminate Hn].
        cbn in Hn. injection Hn as <- <-.
        assert (i = List.length (issued D m)) as -> by lia.
        rewrite firstn_all2 by (rewrite length_map; lia).
        cbn [firstn map]. rewrite app_nil_r.
        rewrite firstn_all2 in Hd by (rewrite length_map; lia).
        rewrite <- Hd, <- Td. cbn [call_name call_args]. now rewrite Ed.
Qed.

Lemma run_prog_transparent (d0 : D) (p : Prog X) :
  through_proxy p ->
  forall m, accounted m -> transparent d0 m ->
            accounted (snd (run_prog p m)) /\ transparent d0 (snd (run_prog p m)).
Proof.
  induction 1 as [v|e|x|t a k _ IH|k _ IH]; intros m Hm Tm; cbn [Action.run_prog snd];
    try (split; assumption).
  - pose proof (call_tool_accounted D dispatch m t a Hm) as Hm'.
    pose proof (call_tool_transparent d0 m t a Hm Tm) as Tm'.
    destruct (call_tool m t a) as [r m']. apply IH; assumption.
  - apply IH; assumption.
Qed.

(** The books of the proxy after a plan that keeps to [mcp.call_tool]. *)
Lemma sandbox_mcp_books (code : string) (d : D) :
  (forall body, py_exec py code = Solve body -> through_proxy body) ->
  accounted (snd (sandbox_mcp code d)) /\ transparent d (snd (sandbox_mcp code d)).
Proof.
  intros Hp. destruct (py_exec py code) as [e|e|x| |body] eqn:Ep.
  5: { rewrite (sandbox_mcp_solve X D dispatch py code d body Ep). cbn [snd].
       apply run_prog_transparent;
         [apply Hp; reflexivity | apply accounted_init | apply transparent_init]. }
  all: unfold run_python_sandbox_mcp, Action.sandbox_try; rewrite Ep; cbn [snd];
    split; [apply accounted_init | apply transparent_init].
Qed.


End ProxyFacts.

(* ===================================================================== *)
(** * The tool calls of a run                                             *)
(* ===================================================================== *)

Section ToolCalls.

Variable D : Type.
Variable dispatch : D -> string -> PyVal -> Outcome PyVal * D.
Variable py : Interpreter Empty_set.
Variable Tool : Type.
Variable get_tools_from_servers : list string -> list Tool.
Variable summarize_tools : list Tool -> string.
Variable run_perception : Z -> AgentContext -> string -> PerceptionResult.
Variable generate_plan :
  Z -> string -> PerceptionResult -> list MemoryItem -> string -> Z -> Z -> string.
Variable decode_result_field : string -> option string.

Local Abbreviation counting := (Action.counting D dispatch).
Local Abbreviation sandbox := (run_python_sandbox (D * nat) counting py).
Local Abbreviation sandbox_mcp := (run_python_sandbox_mcp (D * nat) counting py).
Local Abbreviation replay := (Action.replay (D * nat) counting).
Local Abbreviation run :=
  (@Loop.run (D * nat) counting py Tool get_tools_from_servers summarize_tools
             run_perception generate_plan decode_result_field).

Lemma replay_counting (cs : list ToolCall) :
  forall s, snd (replay cs s) = (snd s + List.length cs)%nat.
Proof.
  unfold Action.replay.
  induction cs as [|c cs IH]; intros s; cbn [fold_left List.length]; [lia|].
  rewrite IH. unfold Action.counting.
  destruct (dispatch (fst s) (call_name c) (call_args c)). cbn. lia.
Qed.

(** Plans keep to [mcp.call_tool]: they reach the tools through it only
    and do not assign the counter. *)
Hypothesis plans_keep_to_proxy :
  forall code body, py_exec py code = Solve body -> through_proxy body.

(** One plan has at most five of its calls answered. *)
Lemma sandbox_counting (code : string) (s : D * nat) :
  (snd (snd (sandbox code s)) <= snd s + 5)%nat.
Proof.
  destruct (sandbox_mcp_books Empty_set (D * nat) counting py code s)
    as [[_ Hd _] [Td _]]; [apply plans_keep_to_proxy|].
  unfold run_python_sandbox.
  destruct (sandbox_mcp code s) as [text m]. cbn [fst snd] in *.
  rewrite Td, Hd, replay_counting, length_firstn. lia.
Qed.

(** X17.  With a dispatcher that counts the calls it answers, and plans
    that reach the tools through [mcp.call_tool] only and do not assign the
    counter: whatever perception and the planner do, a run has at most five
    tool calls answered for every call of the sandbox, and so at most
    [10 * max_steps] in all. *)
Theorem tool_calls_are_bounded (c : AgentContext) (d : D) :
  0 <= max_steps c ->
  let st' := fst (run c (d, O)) in
  (snd (mcp (D * nat) st') <= 5 * sandbox_calls (events (D * nat) st'))%nat
  /\ Z.of_nat (snd (mcp (D * nat) st')) <= 10 * max_steps c.
Proof.
  intros HN st'.
  assert (snd (mcp (D * nat) st') <= 5 * sandbox_calls (events (D * nat) st'))%nat as H.
  { subst st'.
    apply (run_invariant (D * nat) counting py Tool get_tools_from_servers
             summarize_tools run_perception generate_plan decode_result_field
             (fun d es => (snd d <= 5 * sandbox_calls es)%nat)).
    - intros step st Hst.
      destruct (pass_dispatcher (D * nat) counting py Tool get_tools_from_servers
                  summarize_tools run_perception generate_plan decode_result_field
                  step st) as [[Hd He]|(plan & d0 & Hd & -> & He)];
        rewrite Hd, He; [exact Hst|].
      pose proof (sandbox_counting plan (mcp (D * nat) st)). lia.
    - cbn. lia. }
  split; [exact H|].
  subst st'. unfold Loop.run in *.
  destruct (for_within (D * nat) counting py Tool get_tools_from_servers
              summarize_tools run_perception generate_plan decode_result_field
              c (range (max_steps c)) (start (D * nat) c (d, O))) as (Hw & _);
    [apply within_start; exact HN | cbn; lia |].
  pose proof (in_passes _ _ _ Hw) as Hp. pose proof (in_sandbox _ _ _ Hw) as Hs.
  fold (start (D * nat) c (d, O)) in H. lia.
Qed.

End ToolCalls.

(* ===================================================================== *)
(** * Blanks and letter case                                              *)
(* ===================================================================== *)

Lemma lower_app (a b : string) : lower (a ++ b) = lower a ++ lower b.
Proof. induction a as [|c a IH]; cbn; [reflexivity | now rewrite IH]. Qed.

Lemma lower_char_idem (c : ascii) : lower_char (lower_char c) = lower_char c.
Proof. destruct c as [[] [] [] [] [] [] [] []]; reflexivity. Qed.

Lemma lower_idem (s : string) : lower (lower s) = lower s.
Proof.
  induction s as [|c s IH]; cbn; [reflexivity | now rewrite IH, lower_char_idem].
Qed.

Lemma isspace_lower_char (c : ascii) : isspace (lower_char c) = isspace c.
Proof. destruct c as [[] [] [] [] [] [] [] []]; reflexivity. Qed.

(** A text of blanks only is one that [lstrip] leaves nothing of; so does
    [rstrip], and so it stays when put in lower case. *)
Lemma blank_rstrip (pad : string) : lstrip pad = EmptyString -> rstrip pad = EmptyString.
Proof.
  induction pad as [|c pad IH]; cbn; [reflexivity|].
  destruct (isspace c); [|discriminate]. intros H. now rewrite (IH H).
Qed.

Lemma blank_lower (pad : string) :
  lstrip pad = EmptyString -> lstrip (lower pad) = EmptyString.
Proof.
  induction pad as [|c pad IH]; cbn [lower lstrip]; [reflexivity|].
  rewrite isspace_lower_char. destruct (isspace c); [exact IH | discriminate].
Qed.

Lemma blank_strip (pad : string) : strip pad = EmptyString -> lstrip pad = EmptyString.
Proof.
  unfold strip. induction pad as [|c pad IH]; cbn [lstrip]; [reflexivity|].
  destruct (isspace c) eqn:Ec; [exact IH|].
  cbn [rstrip]. rewrite Ec. destruct (rstrip pad); discriminate.
Qed.

Lemma lstrip_blank (pad s : string) :
  lstrip pad = EmptyString -> lstrip (pad ++ s) = lstrip s.
Proof.
  induction pad as [|c pad IH]; cbn [append lstrip]; [reflexivity|].
  destruct (isspace c); [exact IH | discriminate].
Qed.

Lemma rstrip_blank (s pad : string) :
  lstrip pad = EmptyString -> rstrip (s ++ pad) = rstrip s.
Proof.
  intros H. induction s as [|c s IH]; cbn [append rstrip].
  - now apply blank_rstrip.
  - now rewrite IH.
Qed.

(** Blanks around a text do not change what [strip] makes of it. *)
Lemma strip_blank (pad s pad' : string) :
  lstrip pad = EmptyString -> lstrip pad' = EmptyString ->
  strip (pad ++ s ++ pad') = strip s.
Proof.
  intros H H'. unfold strip. rewrite lstrip_blank by exact H.
  induction s as [|c s IH]; cbn [append lstrip].
  - now rewrite H'.
  - destruct (isspace c); [exact IH|].
    apply (rstrip_blank (String c s) pad' H').
Qed.

(* ===================================================================== *)
(** * More about the conversation history                                 *)
(* ===================================================================== *)

Section HistoryBooks.

Variable ratio : string -> string -> Q.
Variable json_dump : list Entry -> string.
Variable json_load : string -> option (list Entry).

Local Abbreviation similarity := (History.similarity ratio).
Local Abbreviation search_loop := (History.search_loop ratio).
Local Abbreviation search_similar := (History.search_similar ratio).
Local Abbreviation _load := (History._load json_load).
Local Abbreviation add := (History.add json_dump).
Local Abbreviation add_all := (History.add_all json_dump).
Local Abbreviation best_so_far := (History.best_so_far ratio).

Lemma add_all_app (calls1 calls2 : list AddCall) :
  forall self, add_all (calls1 ++ calls2) self = add_all calls2 (add_all calls1 self).
Proof.
  induction calls1 as [|c rest IH]; intros self; cbn; [reflexivity | apply IH].
Qed.

(** X8.  Every [add] writes the whole store, so one write that goes through
    makes the file complete again, whatever became of the writes before it
    and whatever the file held: after it the file is the dump of the store
    in memory, and, provided [json.load] reads that dump back, loading the
    file gives the store in memory, which is the store from before followed
    by all the records added, those of the failed writes included. *)
Theorem last_write_heals (self : ConversationHistory) (calls : list AddCall)
    (c : AddCall) :
  add_write c = Written ->
  let self' := add_all (calls ++ [c]) self in
  json_load (json_dump (history self')) = Some (history self') ->
  file self' = Some (json_dump (history self'))
  /\ _load (file self') = history self'
  /\ history self' = (history self ++ map entry_of calls ++ [entry_of c])%list.
Proof.
  intros Hw self' Hrt.
  assert (file self' = Some (json_dump (history self'))) as Hf.
  { subst self'. rewrite add_all_app. cbn [History.add_all].
    unfold History.add. now rewrite Hw. }
  split; [exact Hf|]. split.
  - rewrite Hf. unfold History._load. now rewrite Hrt.
  - subst self'. now rewrite (add_all_history json_dump), map_app.
Qed.

Local Open Scope Q_scope.

(** The search for [q] in a store that ends with a record of [q]. *)
Lemma search_appended (h : list Entry) (f : option string) (now q a : string)
    (threshold : Q) :
  (forall x y, ratio x y <= 1) ->
  (forall x, ratio x x == 1) ->
  threshold <= 1 ->
  let new := mkEntry q a now in
  exists e before after,
    search_similar {| history := h ++ [new]; file := f |} q threshold = Some e
    /\ (h ++ [new] = before ++ e :: after)%list
    /\ similarity q (query e) == 1
    /\ (forall x, In x before -> similarity q (query x) < 1)
    /\ ((forall x, In x h -> similarity q (query x) < 1) -> e = new)
    /\ (forall x, In x h -> similarity q (query x) == 1 -> In e h).
Proof.
  intros Hle Hrefl Hth new.
  assert (similarity q q == 1) as Hnew by apply Hrefl.
  unfold History.search_similar. cbn [history].
  pose proof (search_loop_best ratio q threshold (h ++ [new]) [] None 0) as H.
  cbn [app] in H.
  destruct (search_loop q threshold (h ++ [new]) None 0) as [[e|] bs]; cbn [fst snd] in *.
  - destruct H as (-> & Hthe & Hpos & before & after & Hseen & Hb & Ha);
      [split; [reflexivity | intros x []]|].
    assert (similarity q (query e) == 1) as He.
    { apply Qle_antisym; [apply Hle|].
      assert (In new (h ++ [new])) as Hin
          by (apply in_or_app; right; left; reflexivity).
      rewrite Hseen in Hin. apply in_app_or in Hin.
      destruct Hin as [Hin|[Heq|Hin]].
      - apply Qlt_le_weak. rewrite <- Hnew. apply (Hb _ Hin).
      - rewrite Heq. cbn [query new]. rewrite Hnew. apply Qle_refl.
      - rewrite <- Hnew. apply (Ha _ Hin). }
    exists e, before, after. split; [reflexivity|]. split; [exact Hseen|].
    split; [exact He|]. split; [intros x Hx; rewrite <- He; apply Hb, Hx|].
    destruct after as [|t after'] using rev_ind.
    + apply app_inj_tail in Hseen. destruct Hseen as [Hbefore <-].
      split; [reflexivity|].
      intros x Hx Hx1. exfalso. rewrite Hbefore in Hx.
      pose proof (Hb x Hx) as Hlt. rewrite Hx1, He in Hlt.
      exact (Qlt_irrefl _ Hlt).
    + clear IHafter'.
      replace (before ++ e :: after' ++ [t])%list
        with ((before ++ e :: after') ++ [t])%list in Hseen
        by (rewrite <- app_assoc; reflexivity).
      apply app_inj_tail in Hseen. destruct Hseen as [Hold _].
      assert (In e h) as Hin
          by (rewrite Hold; apply in_or_app; right; left; reflexivity).
      split; [|intros; exact Hin].
      intros Hnone. exfalso.
      pose proof (Hnone e Hin) as Hlt. rewrite He in Hlt.
      exact (Qlt_irrefl _ Hlt).
  - exfalso. destruct H as (_ & Hall); [split; [reflexivity | intros x []]|].
    assert (In new (h ++ [new])) as Hin
        by (apply in_or_app; right; left; reflexivity).
    destruct (Hall _ Hin) as [Hlt|Hz]; cbn [query new] in *.
    + rewrite Hnew in Hlt. exact (Qlt_irrefl _ (Qlt_le_trans _ _ _ Hlt Hth)).
    + rewrite Hnew in Hz. revert Hz. unfold Qle. cbn. lia.
Qed.

(** X9.  A question asked again keeps its first answer.  With a ratio that
    is 1 on equal texts and never above 1, and a threshold of at most 1:
    after [add(q, a)] the search for [q] finds an entry; it is the first
    entry of the store whose query matches [q] fully (score 1); it is the
    record just added if no older entry matches fully; and if an older entry
    has the same query up to case and outer blanks, the entry found is an
    older one, not the one just added. *)
Theorem repeated_query_keeps_first_answer (self : ConversationHistory)
    (now : string) (w : WriteOutcome) (q a : string) (threshold : Q) :
  (forall x y, ratio x y <= 1) ->
  (forall x, ratio x x == 1) ->
  threshold <= 1 ->
  let self' := add now w q a self in
  exists e before after,
    search_similar self' q threshold = Some e
    /\ history self' = (before ++ e :: after)%list
    /\ similarity q (query e) == 1
    /\ (forall x, In x before -> similarity q (query x) < 1)
    /\ ((forall x, In x (history self) -> similarity q (query x) < 1) ->
          e = mkEntry q a now)
    /\ (forall x, In x (history self) ->
          strip (lower (query x)) = strip (lower q) -> In e (history self)).
Proof.
  intros Hle Hrefl Hth self'.
  assert (history self' = (history self ++ [mkEntry q a now])%list) as Hh
      by (subst self'; unfold History.add, History._save; destruct w; reflexivity).
  destruct (search_appended (history self) None now q a threshold Hle Hrefl Hth)
    as (e & before & after & Hs & Hseen & He & Hb & Hnew & Hold).
  exists e, before, after.
  split; [unfold History.search_similar in *; rewrite Hh; exact Hs|].
  split; [rewrite Hh; exact Hseen|]. split; [exact He|]. split; [exact Hb|].
  split; [exact Hnew|].
  intros x Hx Hq. apply (Hold x Hx).
  unfold History.similarity. rewrite Hq. apply Hrefl.
Qed.

Local Close Scope Q_scope.

Lemma search_loop_ext (q q' : string) (threshold : Q) (entries : list Entry) :
  (forall x, similarity q x = similarity q' x) ->
  forall bm bs,
    search_loop q threshold entries bm bs = search_loop q' threshold entries bm bs.
Proof.
  intros H. induction entries as [|e rest IH]; intros bm bs; cbn [History.search_loop].
  - reflexivity.
  - rewrite H.
    destruct (Qgt_bool (similarity q' (query e)) bs && Qle_bool threshold (similarity q' (query e)));
      apply IH.
Qed.

(** X10.  The search does not see blanks around the query or its letter
    case: the query with blanks before and after it, the query in lower
    case, and any query that is the same text in lower case, all find what
    the query finds. *)
Theorem search_is_blind_to_case_and_blanks (self : ConversationHistory)
    (q pad pad' q' : string) (threshold : Q) :
  strip pad = EmptyString -> strip pad' = EmptyString ->
  lower q' = lower q ->
  search_similar self (pad ++ q ++ pad') threshold = search_similar self q threshold
  /\ search_similar self (lower q) threshold = search_similar self q threshold
  /\ search_similar self q' threshold = search_similar self q threshold.
Proof.
  intros Hp Hp' Hq. apply blank_strip in Hp, Hp'.
  unfold History.search_similar. repeat split; f_equal; apply search_loop_ext;
    intros x; unfold History.similarity; f_equal.
  - rewrite !lower_app. apply strip_blank; apply blank_lower; assumption.
  - now rewrite lower_idem.
  - now rewrite Hq.
Qed.

End HistoryBooks.

(** ** The threshold *)

Section Threshold.

Variable ratio : string -> string -> Q.

Local Abbreviation similarity := (History.similarity ratio).
Local Abbreviation search_loop := (History.search_loop ratio).
Local Abbreviation search_similar := (History.search_similar ratio).

Local Open Scope Q_scope.

(** A list has one place for the first of its entries with the highest
    score. *)
Lemma first_best_unique (s : Entry -> Q) (b : list Entry) :
  forall b' a a' e e',
    (b ++ e :: a = b' ++ e' :: a')%list ->
    (forall x, In x b -> s x < s e) -> (forall x, In x a -> s x <= s e) ->
    (forall x, In x b' -> s x < s e') -> (forall x, In x a' -> s x <= s e') ->
    e = e'.
Proof.
  induction b as [|y b IH]; intros b' a a' e e' Heq Hb Ha Hb' Ha'.
  - destruct b' as [|y' b']; cbn in Heq; injection Heq as Hy Hrest; [exact Hy|].
    exfalso. subst y'.
    assert (s e < s e') as H1 by (apply Hb'; left; reflexivity).
    assert (s e' <= s e) as H2
        by (apply Ha; rewrite Hrest; apply in_or_app; right; left; reflexivity).
    exact (Qlt_irrefl _ (Qlt_le_trans _ _ _ H1 H2)).
  - destruct b' as [|y' b']; cbn in Heq; injection Heq as Hy Hrest.
    + exfalso. subst y.
      assert (s e' < s e) as H1 by (apply Hb; left; reflexivity).
      assert (s e <= s e') as H2
          by (apply Ha'; rewrite <- Hrest; apply in_or_app; right; left; reflexivity).
      exact (Qlt_irrefl _ (Qlt_le_trans _ _ _ H1 H2)).
    + apply (IH b' a a' e e' Hrest); auto.
      * intros x Hx. apply Hb. right. exact Hx.
      * intros x Hx. apply Hb'. right. exact Hx.
Qed.

(** What the search returns, by the invariant of its loop. *)
Lemma search_similar_spec (self : ConversationHistory) (q : string) (threshold : Q) :
  match search_similar self q threshold with
  | Some e =>
      threshold <= similarity q (query e) /\ 0 < similarity q (query e)
      /\ exists before after,
           history self = (before ++ e :: after)%list
           /\ (forall x, In x before -> similarity q (query x) < similarity q (query e))
           /\ (forall x, In x after -> similarity q (query x) <= similarity q (query e))
  | None =>
      forall x, In x (history self) ->
        similarity q (query x) < threshold \/ similarity q (query x) <= 0
  end.
Proof.
  unfold History.search_similar.
  pose proof (search_loop_best ratio q threshold (history self) [] None 0) as H.
  cbn [app] in H.
  destruct (search_loop q threshold (history self) None 0) as [[e|] bs]; cbn in H |- *.
  - destruct H as (-> & Hth & Hpos & Hex); [split; [reflexivity | intros x []]|]. auto.
  - destruct H as (_ & Hall); [split; [reflexivity | intros x []]|]. exact Hall.
Qed.

(** X20.  The threshold decides whether the search has a hit, never which
    entry it is: an entry found at one threshold is the entry found at every
    threshold its score reaches, so at every lower one; and a search that
    finds nothing finds nothing at any higher threshold. *)
Theorem threshold_only_cuts (self : ConversationHistory) (q : string) (t t' : Q) :
  (forall e, search_similar self q t = Some e ->
             t' <= similarity q (query e) ->
             search_similar self q t' = Some e)
  /\ (forall e, search_similar self q t = Some e -> t' <= t ->
                search_similar self q t' = Some e)
  /\ (search_similar self q t = None -> t <= t' -> search_similar self q t' = None).
Proof.
  assert (forall t1 t2 e,
            search_similar self q t1 = Some e -> t2 <= similarity q (query e) ->
            search_similar self q t2 = Some e) as Hkeep.
  { intros t1 t2 e H1 Hreach.
    pose proof (search_similar_spec self q t1) as S1. rewrite H1 in S1.
    destruct S1 as (Hth & Hpos & b & a & Hh & Hb & Ha).
    pose proof (search_similar_spec self q t2) as S2.
    destruct (search_similar self q t2) as [e2|].
    - destruct S2 as (_ & _ & b2 & a2 & Hh2 & Hb2 & Ha2).
      f_equal. symmetry. rewrite Hh in Hh2.
      exact (first_best_unique (fun x => similarity q (query x)) b b2 a a2 e e2
               Hh2 Hb Ha Hb2 Ha2).
    - exfalso.
      assert (In e (history self)) as Hin
          by (rewrite Hh; apply in_or_app; right; left; reflexivity).
      destruct (S2 e Hin) as [Hlt|Hle].
      + exact (Qlt_irrefl _ (Qlt_le_trans _ _ _ Hlt Hreach)).
      + exact (Qlt_irrefl _ (Qlt_le_trans _ _ _ Hpos Hle)). }
  split; [exact (Hkeep t t')|]. split.
  - intros e H Hle. apply (Hkeep t t' e H).
    pose proof (search_similar_spec self q t) as S. rewrite H in S.
    eapply Qle_trans; [exact Hle | exact (proj1 S)].
  - intros Hnone Hle.
    destruct (search_similar self q t') as [e|] eqn:E; [|reflexivity].
    pose proof (search_similar_spec self q t') as S. rewrite E in S.
    rewrite (Hkeep t' t e E) in Hnone; [discriminate|].
    eapply Qle_trans; [exact Hle | exact (proj1 S)].
Qed.

Local Close Scope Q_scope.

End Threshold.

(* ===================================================================== *)
(** * More about the planner                                              *)
(* ===================================================================== *)

Lemma defines_solve_nonempty (s : string) : defines_solve s = true -> s <> EmptyString.
Proof. intros H ->. discriminate H. Qed.

Lemma contains_nonempty (s : string) : contains FINAL_ANSWER s = true -> s <> EmptyString.
Proof. intros H ->. discriminate H. Qed.

(** X11.  Whatever the model replies, and when it fails, the planner
    returns a text that is not empty and that either defines [solve] or is
    a bare final answer, never a plan of invalid shape; a failure of the
    model gives the final answer "[unknown]".  So the loop's "invalid plan"
    branch is reached by final answers only. *)
Theorem planner_output_shape (reply : Outcome string) :
  let plan := Decision.plan_of_reply reply in
  (defines_solve plan = true \/ bare_final_answer plan)
  /\ ~ invalid_shape plan
  /\ plan <> EmptyString
  /\ (forall e, reply = Raises e -> plan = "FINAL_ANSWER: [unknown]").
Proof.
  intros plan. subst plan.
  pose proof (plan_of_reply_shape reply) as Hshape.
  split; [|split; [|split]].
  - destruct (defines_solve (Decision.plan_of_reply reply)) eqn:E; [left; reflexivity|].
    right. now apply plan_of_reply_bare.
  - intros [Hs Hc]. destruct Hshape as [H|H]; congruence.
  - destruct Hshape as [H|H];
      [exact (defines_solve_nonempty _ H) | exact (contains_nonempty _ H)].
  - intros e ->. reflexivity.
Qed.

(** ** Code fences *)

Lemma rstrip_char_closed (c a : ascii) (s t : string) :
  Ascii.eqb a c = false ->
  Decision.rstrip_char c t = EmptyString ->
  Decision.rstrip_char c (s ++ String a t) = s ++ String a EmptyString.
Proof.
  intros Ha Ht. induction s as [|b s IH]; cbn [append Decision.rstrip_char].
  - now rewrite Ht, Ha.
  - rewrite IH. destruct s; reflexivity.
Qed.

Lemma rstrip_app_kept (a b : string) :
  rstrip b = b -> b <> EmptyString -> rstrip (a ++ b) = a ++ b.
Proof.
  intros Hb Hne. induction a as [|c a IH]; cbn [append rstrip]; [exact Hb|].
  rewrite IH. destruct (a ++ b) eqn:E; [|reflexivity].
  destruct a; [cbn in E; congruence | discriminate E].
Qed.

Lemma strip_kept (b : string) : lstrip b = b -> rstrip b = b -> strip b = b.
Proof. intros Hl Hr. unfold strip. now rewrite Hl, Hr. Qed.

(** What the planner makes of a fenced body, as far as the fence goes. *)
Lemma unfence_python (body : string) :
  lstrip body = body -> rstrip body = body -> body <> EmptyString ->
  let raw := strip (Decision.fenced "python" body) in
  startswith raw Decision.fence = true
  /\ strip (Decision.strip_char "`" raw) = "python" ++ nl ++ body.
Proof.
  intros Hl Hr Hne raw.
  assert (raw = Decision.fenced "python" body) as ->.
  { subst raw. unfold strip.
    replace (lstrip (Decision.fenced "python" body))
      with (Decision.fenced "python" body) by reflexivity.
    unfold Decision.fenced, Decision.fence.
    change ("```" ++ "python" ++ nl ++ body ++ nl ++ "```")
      with ("```python" ++ nl ++ body ++ nl ++ "``" ++ "`").
    rewrite <- !append_assoc. apply rstrip_closed. reflexivity. }
  split; [apply (startswith_app Decision.fence)|].
  unfold Decision.strip_char.
  replace (Decision.lstrip_char "`" (Decision.fenced "python" body))
    with (("python" ++ nl ++ body) ++ String "010" Decision.fence)
    by (rewrite append_assoc; reflexivity).
  rewrite rstrip_char_closed by reflexivity.
  change (rstrip (("python" ++ nl ++ body) ++ nl) = "python" ++ nl ++ body).
  rewrite rstrip_blank by reflexivity.
  apply (rstrip_app_kept ("python" ++ nl) body Hr Hne).
Qed.

Lemma unfence_plain (body : string) :
  lstrip body = body -> rstrip body = body -> body <> EmptyString ->
  let raw := strip (Decision.fenced EmptyString body) in
  startswith raw Decision.fence = true
  /\ strip (Decision.strip_char "`" raw) = body.
Proof.
  intros Hl Hr Hne raw.
  assert (raw = Decision.fenced EmptyString body) as ->.
  { subst raw. unfold strip.
    replace (lstrip (Decision.fenced EmptyString body))
      with (Decision.fenced EmptyString body) by reflexivity.
    unfold Decision.fenced, Decision.fence.
    change ("```" ++ EmptyString ++ nl ++ body ++ nl ++ "```")
      with ("```" ++ nl ++ body ++ nl ++ "``" ++ "`").
    rewrite <- !append_assoc. apply rstrip_closed. reflexivity. }
  split; [apply (startswith_app Decision.fence)|].
  unfold Decision.strip_char.
  replace (Decision.lstrip_char "`" (Decision.fenced EmptyString body))
    with ((nl ++ body) ++ String "010" Decision.fence)
    by (rewrite append_assoc; reflexivity).
  rewrite rstrip_char_closed by reflexivity.
  change (rstrip (lstrip (body ++ nl)) = body).
  destruct body as [|c body]; [congruence|].
  cbn [append lstrip] in Hl |- *.
  destruct (isspace c) eqn:Ec.
  - exfalso. assert (String.length (lstrip body) <= String.length body)%nat as Hlen.
    { clear. induction body as [|x body IH]; cbn; [lia|].
      destruct (isspace x); cbn; lia. }
    rewrite Hl in Hlen. cbn in Hlen. lia.
  - exact (eq_trans (rstrip_blank (String c body) nl eq_refl) Hr).
Qed.

(** X12.  A plan the model wraps in a code fence is unwrapped: for a body
    that is a [solve] definition or a final answer, that is not empty and
    has no blank at either end, the reply made of the fence with the
    language tag "python", the body on lines of its own, and the closing
    fence gives the body as the plan; so does the fence without a tag,
    unless the body itself begins with "python" in any letter case. *)
Theorem fenced_plan_is_unwrapped (body : string) :
  lstrip body = body -> rstrip body = body -> body <> EmptyString ->
  defines_solve body = true \/ contains FINAL_ANSWER body = true ->
  Decision.plan_of_reply (Normal (Decision.fenced "python" body)) = body
  /\ (startswith (lower body) "python" = false ->
        Decision.plan_of_reply (Normal (Decision.fenced EmptyString body)) = body).
Proof.
  intros Hl Hr Hne Hshape.
  assert (forall raw, raw = body ->
            (if defines_solve raw then raw
             else if contains "FINAL_ANSWER:" raw then raw
             else "FINAL_ANSWER: [Could not generate valid solve()]") = body) as Hend.
  { intros raw ->. destruct (defines_solve body); [reflexivity|].
    destruct Hshape as [H|H]; [discriminate|].
    change "FINAL_ANSWER:" with FINAL_ANSWER. now rewrite H. }
  split.
  - destruct (unfence_python body Hl Hr Hne) as [Hf Hs].
    unfold Decision.plan_of_reply. cbv zeta. rewrite Hf, Hs.
    replace (startswith (lower ("python" ++ nl ++ body)) "python") with true
      by (rewrite lower_app; symmetry; apply (startswith_app "python")).
    apply Hend.
    replace (Decision.drop (String.length "python") ("python" ++ nl ++ body))
      with (nl ++ body) by reflexivity.
    unfold strip. replace (lstrip (nl ++ body)) with (lstrip body) by reflexivity.
    now rewrite Hl.
  - intros Htag. destruct (unfence_plain body Hl Hr Hne) as [Hf Hs].
    unfold Decision.plan_of_reply. cbv zeta. rewrite Hf, Hs, Htag.
    apply Hend. reflexivity.
Qed.

(* ===================================================================== *)
(** * Which texts count as a [solve] plan                                 *)
(* ===================================================================== *)

(** The search finds a match at the start of the text and after a newline. *)
Lemma search_from_here (b : bool) (s : string) :
  match_solve_here s = true -> search_from true s = true.
Proof.
  intros H. destruct s; cbn [search_from]; now rewrite H.
Qed.

Lemma search_from_line (pre s : string) :
  match_solve_here s = true ->
  forall b, search_from b (pre ++ nl ++ s) = true.
Proof.
  intros H. induction pre as [|c pre IH]; intros b.
  - change (nl ++ s) with (String "010" s). cbn [append search_from].
    rewrite Ascii.eqb_refl, (search_from_here true s H). apply orb_true_r.
  - cbn [append search_from]. rewrite IH. apply orb_true_r.
Qed.

Lemma eat_literal (lit s : string) : eat lit (lit ++ s) = Some s.
Proof.
  induction lit as [|c lit IH]; cbn [append eat]; [reflexivity|].
  now rewrite Ascii.eqb_refl.
Qed.

Lemma eat_ws1_blank (w s : string) :
  lstrip w = EmptyString -> w <> EmptyString -> eat_ws1 (w ++ s) = Some (lstrip s).
Proof.
  intros Hw Hne. destruct w as [|c w]; [congruence|].
  cbn [append eat_ws1]. cbn [lstrip] in Hw.
  destruct (isspace c); [|discriminate].
  now rewrite lstrip_blank.
Qed.

(** The pattern at the head of a definition line. *)
Lemma match_def_line (indent w1 w2 rest : string) :
  lstrip indent = EmptyString ->
  lstrip w1 = EmptyString -> w1 <> EmptyString ->
  lstrip w2 = EmptyString ->
  match_solve_here (indent ++ "def" ++ w1 ++ "solve" ++ w2 ++ "(" ++ rest) = true.
Proof.
  intros Hi H1 Hne H2. unfold match_solve_here.
  rewrite lstrip_blank by exact Hi.
  change (lstrip ("def" ++ w1 ++ "solve" ++ w2 ++ "(" ++ rest))
    with ("def" ++ w1 ++ "solve" ++ w2 ++ "(" ++ rest).
  change (eat "async" ("def" ++ w1 ++ "solve" ++ w2 ++ "(" ++ rest)) with (@None string).
  cbn [bind_opt]. rewrite eat_literal. cbn [bind_opt].
  rewrite eat_ws1_blank by assumption.
  change (lstrip ("solve" ++ w2 ++ "(" ++ rest)) with ("solve" ++ w2 ++ "(" ++ rest).
  cbn [bind_opt]. rewrite eat_literal. cbn [bind_opt].
  rewrite lstrip_blank by exact H2.
  change (lstrip ("(" ++ rest)) with ("(" ++ rest).
  now rewrite eat_literal.
Qed.

Lemma match_async_def_line (indent w0 w1 w2 rest : string) :
  lstrip indent = EmptyString ->
  lstrip w0 = EmptyString -> w0 <> EmptyString ->
  lstrip w1 = EmptyString -> w1 <> EmptyString ->
  lstrip w2 = EmptyString ->
  match_solve_here
    (indent ++ "async" ++ w0 ++ "def" ++ w1 ++ "solve" ++ w2 ++ "(" ++ rest) = true.
Proof.
  intros Hi H0 Hne0 H1 Hne1 H2. unfold match_solve_here.
  rewrite lstrip_blank by exact Hi.
  change (lstrip ("async" ++ w0 ++ "def" ++ w1 ++ "solve" ++ w2 ++ "(" ++ rest))
    with ("async" ++ w0 ++ "def" ++ w1 ++ "solve" ++ w2 ++ "(" ++ rest).
  rewrite eat_literal, eat_ws1_blank by assumption.
  change (lstrip ("def" ++ w1 ++ "solve" ++ w2 ++ "(" ++ rest))
    with ("def" ++ w1 ++ "solve" ++ w2 ++ "(" ++ rest).
  cbn [bind_opt]. rewrite eat_literal. cbn [bind_opt].
  rewrite eat_ws1_blank by assumption.
  change (lstrip ("solve" ++ w2 ++ "(" ++ rest)) with ("solve" ++ w2 ++ "(" ++ rest).
  cbn [bind_opt]. rewrite eat_literal. cbn [bind_opt].
  rewrite lstrip_blank by exact H2.
  change (lstrip ("(" ++ rest)) with ("(" ++ rest).
  now rewrite eat_literal.
Qed.

(** X19.  What the loop and the planner take for a [solve] plan: every text
    with a line that, after any indentation, reads [def solve(] or
    [async def solve(], with any white space between the words and before
    the bracket, whatever stands on the lines before it and after the
    bracket.  The line may be the first of the text or follow a newline. *)
Theorem solve_lines_are_detected (pre indent w0 w1 w2 rest : string) :
  pre = EmptyString \/ (exists p, pre = p ++ nl) ->
  strip indent = EmptyString ->
  strip w0 = EmptyString -> w0 <> EmptyString ->
  strip w1 = EmptyString -> w1 <> EmptyString ->
  strip w2 = EmptyString ->
  defines_solve (pre ++ indent ++ "def" ++ w1 ++ "solve" ++ w2 ++ "(" ++ rest) = true
  /\ defines_solve
       (pre ++ indent ++ "async" ++ w0 ++ "def" ++ w1 ++ "solve" ++ w2 ++ "(" ++ rest)
     = true.
Proof.
  intros Hpre Hi H0 Hne0 H1 Hne1 H2.
  apply blank_strip in Hi, H0, H1, H2.
  pose proof (match_def_line indent w1 w2 rest Hi H1 Hne1 H2) as Hdef.
  pose proof (match_async_def_line indent w0 w1 w2 rest Hi H0 Hne0 H1 Hne1 H2) as Hasync.
  unfold defines_solve.
  destruct Hpre as [->|[p ->]].
  - split; apply (search_from_here true); assumption.
  - rewrite !append_assoc. split; apply search_from_line; assumption.
Qed.

(* ===================================================================== *)
(** * The shipped planner under the loop                                  *)
(* ===================================================================== *)

Section ShippedPlanner.

Variable D : Type.
Variable dispatch : D -> string -> PyVal -> Outcome PyVal * D.
Variable py : Interpreter Empty_set.
Variable Tool : Type.
Variable get_tools_from_servers : list string -> list Tool.
Variable summarize_tools : list Tool -> string.
Variable run_perception : Z -> AgentContext -> string -> PerceptionResult.
Variable decode_result_field : string -> option string.
Variable generate_text :
  Z -> string -> PerceptionResult -> list MemoryItem -> string -> Z -> Z -> Outcome string.

Local Abbreviation generate_plan := (Decision.generate_plan generate_text).
Local Abbreviation run :=
  (@Loop.run D dispatch py Tool get_tools_from_servers summarize_tools
             run_perception generate_plan decode_result_field).

(** X13.  [generate_plan] of modules/decision.py under [run], with tools on
    offer: as long as the planner's output defines no [solve] (the model
    answers with a final answer of its own, with any other text, or fails),
    the run never calls the sandbox, logs no subtask, and does not return
    what the planner produced; it makes [N * (L + 1)] passes and ends with
    "max steps reached", or is ended by the guard on pass [2 * N + 1]. *)
Theorem replies_without_solve_never_answer (c : AgentContext) (d : D) :
  (forall i c input,
     nonempty (get_tools_from_servers (selected_servers (run_perception i c input)))
     = true) ->
  (forall i ui p m td s ms,
     defines_solve (Decision.plan_of_reply (generate_text i ui p m td s ms)) = false) ->
  0 <= max_steps c -> 0 <= max_lifelines_per_step c ->
  let N := max_steps c in
  let L := max_lifelines_per_step c in
  let st' := fst (run c d) in
  no_sandbox D st'
  /\ subtasks (context D st') = subtasks c
  /\ mcp D st' = d
  /\ ((N * (L + 1) <= N * 2
       /\ snd (run c d) = Some (done MAX_STEPS_REACHED)
       /\ total_iterations D st' = N * (L + 1))
      \/ (N * 2 < N * (L + 1)
          /\ snd (run c d) = Some (done MAX_ITERATIONS_REACHED)
          /\ total_iterations D st' = N * 2 + 1)).
Proof.
  intros Htools Hreply HN HL N L st'.
  assert (forall plan, Loop.generated generate_plan plan -> defines_solve plan = false)
    as Hno.
  { intros plan (i & ui & p & m & td & s & ms & ->). apply Hreply. }
  destruct (run_no_solve D dispatch py Tool get_tools_from_servers summarize_tools
              run_perception generate_plan decode_result_field Htools Hno c d HN HL)
    as (Hq & Hcases).
  fold st' in Hq, Hcases. destruct Hq as [Hd Hs _ Hsb].
  split; [apply Hsb; intros plan []|]. split; [exact Hs|]. split; [exact Hd|].
  destruct Hcases as [(A & B & C & _)|(A & B & C & _)]; [left | right]; auto.
Qed.

End ShippedPlanner.

(* ===================================================================== *)
(** * Facts about the driver                                              *)
(* ===================================================================== *)

Lemma append_nil_r (s : string) : s ++ EmptyString = s.
Proof. induction s as [|c s IH]; cbn; [reflexivity | now rewrite IH]. Qed.

(** A text without the separator is one piece. *)
Lemma split_go_whole (sep s : string) :
  contains sep s = false ->
  forall cur, split_go sep O cur s = [cur ++ s].
Proof.
  induction s as [|c s IH]; intros H cur.
  - cbn. now rewrite append_nil_r.
  - cbn [contains] in H. apply orb_false_iff in H. destruct H as [Hs Hc].
    cbn [split_go]. rewrite Hs, (IH Hc), append_assoc. reflexivity.
Qed.

(** What [answer.split('FINAL_ANSWER:')[1]] is for an answer that opens
    with the marker and has it once. *)
Lemma split_final_answer (rest : string) :
  contains FINAL_ANSWER rest = false ->
  nth 1 (split (FINAL_ANSWER ++ rest) FINAL_ANSWER) EmptyString = rest.
Proof.
  intros H. unfold split.
  change (split_go FINAL_ANSWER 0 EmptyString (FINAL_ANSWER ++ rest))
    with (EmptyString :: split_go FINAL_ANSWER 0 EmptyString rest).
  now rewrite (split_go_whole _ _ H).
Qed.

Section DriverFacts.

Variable D : Type.
Variable dispatch : D -> string -> PyVal -> Outcome PyVal * D.
Variable py : Interpreter Empty_set.
Variable Tool : Type.
Variable get_tools_from_servers : list string -> list Tool.
Variable summarize_tools : list Tool -> string.
Variable run_perception : nat -> Z -> AgentContext -> string -> PerceptionResult.
Variable generate_plan :
  nat -> Z -> string -> PerceptionResult -> list MemoryItem -> string -> Z -> Z -> string.
Variable decode_result_field : string -> option string.
Variable ratio : string -> string -> Q.
Variable json_dump : list Entry -> string.
Variable json_load : string -> option (list Entry).
Variable AgentContext_init : nat -> string -> option string -> AgentContext * string.
Variable clock : nat -> string.
Variable disk : nat -> WriteOutcome.

Local Abbreviation MainState := (Agent.MainState D).
Local Abbreviation agent_run :=
  (Agent.agent_run D dispatch py Tool get_tools_from_servers summarize_tools
     run_perception generate_plan decode_result_field).
Local Abbreviation solve_task :=
  (Agent.solve_task D dispatch py Tool get_tools_from_servers summarize_tools
     run_perception generate_plan decode_result_field json_dump AgentContext_init
     clock disk).
Local Abbreviation main_loop :=
  (Agent.main_loop D dispatch py Tool get_tools_from_servers summarize_tools
     run_perception generate_plan decode_result_field ratio json_dump
     AgentContext_init clock disk).

(** The text [main] cuts out of an answer of the agent. *)
Local Abbreviation cut r := (strip (nth 1 (split r FINAL_ANSWER) EmptyString)).

(** One task: one run, one record. *)
Lemma solve_task_records (fuel : nat) (u : string) (st : MainState) :
  exists r rs st',
    agent_run (Agent.runs D st)
      (fst (AgentContext_init (Agent.runs D st) u (Agent.current_session D st)))
      (Agent.multi_mcp D st)
    = (rs, Some (done r))
    /\ startswith r FINAL_ANSWER = true
    /\ solve_task (S fuel) u st = Some st'
    /\ history (Agent.conv_history D st')
       = (history (Agent.conv_history D st)
            ++ [mkEntry
                  (user_input
                     (fst (AgentContext_init (Agent.runs D st) u
                             (Agent.current_session D st))))
                  (cut r) (clock (Agent.runs D st))])%list
    /\ Agent.runs D st' = S (Agent.runs D st)
    /\ Agent.multi_mcp D st' = mcp D rs
    /\ Agent.output D st' = (Agent.output D st ++ [Agent.FinalAnswer (cut r)])%list
    /\ Agent.current_session D st'
       = if truthy (Agent.current_session D st) then Agent.current_session D st
         else Some (snd (AgentContext_init (Agent.runs D st) u
                           (Agent.current_session D st))).
Proof.
  cbn [Agent.solve_task].
  destruct (AgentContext_init (Agent.runs D st) u (Agent.current_session D st))
    as [ctx sid]. cbn [fst snd].
  destruct (run_answer D dispatch py Tool get_tools_from_servers summarize_tools
              (run_perception (Agent.runs D st)) (generate_plan (Agent.runs D st))
              decode_result_field ctx (Agent.multi_mcp D st))
    as (r & Hr & Hm & _ & Hu).
  unfold Agent.agent_run.
  destruct (run D dispatch py Tool get_tools_from_servers summarize_tools
              (run_perception (Agent.runs D st)) (generate_plan (Agent.runs D st))
              decode_result_field ctx (Agent.multi_mcp D st)) as [rs o].
  cbn [fst snd] in Hr, Hu. subst o. cbn [result done].
  change "FINAL_ANSWER:" with FINAL_ANSWER.
  rewrite (startswith_contains _ _ Hm).
  do 3 eexists. split; [reflexivity|]. split; [exact Hm|]. split; [reflexivity|].
  cbn. rewrite Hu. unfold History.add, History._save.
  destruct (disk (Agent.runs D st)); repeat split.
Qed.

(** X14.  Whatever the agent does, the driver runs it once for a task and
    records the outcome: the result of [run] always carries the final-answer
    marker, so the first branch of [main] is taken, the text after the
    marker is printed as the final answer and added to the history under the
    context's user input, and the branches for continuations and raw
    answers are never taken.  The sentinels are recorded like answers: a run
    that ends with "max steps reached" leaves the entry "[Max steps
    reached]" in the history.  A session id that is set is kept, and the
    context's own is taken when none is. *)
Theorem every_run_is_recorded (fuel : nat) (u : string) (st : MainState) :
  let n := Agent.runs D st in
  let ctx := fst (AgentContext_init n u (Agent.current_session D st)) in
  exists r st',
    snd (agent_run n ctx (Agent.multi_mcp D st)) = Some (done r)
    /\ solve_task (S fuel) u st = Some st'
    /\ history (Agent.conv_history D st')
       = (history (Agent.conv_history D st)
            ++ [mkEntry (user_input ctx) (cut r) (clock n)])%list
    /\ Agent.runs D st' = S n
    /\ Agent.output D st' = (Agent.output D st ++ [Agent.FinalAnswer (cut r)])%list
    /\ Agent.current_session D st'
       = (if truthy (Agent.current_session D st) then Agent.current_session D st
          else Some (snd (AgentContext_init n u (Agent.current_session D st))))
    /\ (forall rest, r = FINAL_ANSWER ++ rest -> contains FINAL_ANSWER rest = false ->
          cut r = strip rest)
    /\ (r = MAX_STEPS_REACHED -> cut r = "[Max steps reached]")
    /\ (r = MAX_ITERATIONS_REACHED -> cut r = "[Max iterations reached]").
Proof.
  intros n ctx. subst n ctx.
  destruct (solve_task_records fuel u st)
    as (r & rs & st' & Hr & _ & Hs & Hh & Hn & _ & Ho & Hsess).
  exists r, st'. rewrite Hr. split; [reflexivity|].
  split; [exact Hs|]. split; [exact Hh|]. split; [exact Hn|]. split; [exact Ho|].
  split; [exact Hsess|]. split; [|split].
  - intros rest -> Hrest. now rewrite split_final_answer.
  - intros ->. reflexivity.
  - intros ->. reflexivity.
Qed.

(** X15.  Whatever arrives at the prompts, the driver needs no more than
    one run per task, and the history only grows: [main] leaves the store
    it found followed by one new record for every run of the agent it made,
    at most one for each line typed; "exit", "new" and a cached answer that
    is accepted add nothing. *)
Theorem history_grows_by_one_per_run (fuel : nat) (console : list Agent.Key)
    (st : MainState) :
  let r := main_loop (S fuel) console st in
  snd r <> Agent.OutOfFuel
  /\ exists added,
       history (Agent.conv_history D (fst r))
       = (history (Agent.conv_history D st) ++ added)%list
       /\ (Agent.runs D (fst r) = Agent.runs D st + List.length added)%nat
       /\ (List.length added <= List.length console)%nat.
Proof.
  cbv zeta. generalize (Nat.le_refl (List.length console)).
  generalize (List.length console) at 2. intros n. revert console st.
  induction n as [|n IH]; intros console st Hlen.
  - destruct console; [|cbn in Hlen; lia]. cbn. split; [discriminate|].
    exists []. rewrite app_nil_r. repeat split; cbn [List.length]; lia.
  - destruct console as [|[u|] rest]; cbn [Agent.main_loop].
    1, 3: cbn; (split; [discriminate|]); exists []; rewrite app_nil_r;
      repeat split; cbn [List.length]; lia.
    cbn [List.length] in Hlen.
    destruct (String.eqb (lower u) "exit").
    { cbn. split; [discriminate|]. exists []. rewrite app_nil_r.
      repeat split; cbn [List.length]; lia. }
    destruct (String.eqb (lower u) "new").
    { destruct (IH rest (Agent.mkMain D None (Agent.conv_history D st)
                           (Agent.multi_mcp D st) (Agent.runs D st) (Agent.output D st)))
        as (Hx & added & Hh & Hr & Hl); [lia|].
      split; [exact Hx|]. exists added. cbn [List.length]. repeat split; auto. }
    destruct (History.search_similar ratio (Agent.conv_history D st) u (3 # 4))
      as [cached|].
    + cbv zeta. destruct rest as [|[y|] rest'].
      1, 3: cbn; (split; [discriminate|]); exists []; rewrite app_nil_r;
        repeat split; cbn [List.length]; lia.
      cbn [List.length] in Hlen.
      destruct (String.eqb (strip (lower y)) "y").
      * destruct (IH rest' (Agent.print D (Agent.CachedAnswer (answer cached))
                              (Agent.print D (Agent.OfferCached cached) st)))
          as (Hx & added & Hh & Hr & Hl); [lia|].
        split; [exact Hx|]. exists added. cbn [List.length]. repeat split; auto.
      * destruct (solve_task_records fuel u
                    (Agent.print D (Agent.OfferCached cached) st))
          as (r & rs & st1 & _ & _ & Hs & Hh1 & Hr1 & _).
        rewrite Hs. destruct (IH rest' st1) as (Hx & added & Hh & Hr & Hl); [lia|].
        split; [exact Hx|]. eexists (_ :: added).
        rewrite Hh, Hh1, Hr, Hr1, <- app_assoc. cbn [List.length app].
        split; [reflexivity|]. cbn. split; lia.
    + destruct (solve_task_records fuel u st)
        as (r & rs & st1 & _ & _ & Hs & Hh1 & Hr1 & _).
      rewrite Hs. destruct (IH rest st1) as (Hx & added & Hh & Hr & Hl); [lia|].
      split; [exact Hx|]. eexists (_ :: added).
      rewrite Hh, Hh1, Hr, Hr1, <- app_assoc. cbn [List.length app].
      split; [reflexivity|]. cbn. split; lia.
Qed.

(** X18.  What the driver recorded for a question is what it offers when
    the question comes again.  With a ratio that is 1 on equal texts and
    never above 1, a context that keeps the user input it is given, and no
    full match of the question in the store: after the task the search for
    the question at the driver's threshold finds the record of this run, so
    the next time the question is typed the driver offers that record, and
    on "y" shows its answer without running the agent; after a run that
    ended with "max steps reached" that answer is "[Max steps reached]". *)
Theorem recorded_answer_is_offered_again (fuel : nat) (u : string) (st : MainState) :
  (forall x y, (ratio x y <= 1)%Q) ->
  (forall x, (ratio x x == 1)%Q) ->
  (forall n u s, user_input (fst (AgentContext_init n u s)) = u) ->
  (forall x, In x (history (Agent.conv_history D st)) ->
             (History.similarity ratio u (query x) < 1)%Q) ->
  let n := Agent.runs D st in
  let ctx := fst (AgentContext_init n u (Agent.current_session D st)) in
  exists r st',
    snd (agent_run n ctx (Agent.multi_mcp D st)) = Some (done r)
    /\ solve_task (S fuel) u st = Some st'
    /\ History.search_similar ratio (Agent.conv_history D st') u (3 # 4)
       = Some (mkEntry u (cut r) (clock n))
    /\ (forall yes rest,
          String.eqb (lower u) "exit" = false ->
          String.eqb (lower u) "new" = false ->
          strip (lower yes) = "y" ->
          main_loop (S fuel) (Agent.Line u :: Agent.Line yes :: rest) st'
          = main_loop (S fuel) rest
              (Agent.print D (Agent.CachedAnswer (cut r))
                 (Agent.print D (Agent.OfferCached (mkEntry u (cut r) (clock n))) st')))
    /\ (r = MAX_STEPS_REACHED -> cut r = "[Max steps reached]").
Proof.
  intros Hle Hrefl Hinit Hnone n ctx. subst n ctx.
  destruct (solve_task_records fuel u st) as (r & rs & st' & Hr & _ & Hs & Hh & _).
  rewrite Hinit in Hh.
  destruct (search_appended ratio (history (Agent.conv_history D st)) None
              (clock (Agent.runs D st)) u (cut r) (3 # 4) Hle Hrefl)
    as (e & _ & _ & Hfound & _ & _ & _ & Hnew & _);
    [unfold Qle; cbn; lia|].
  rewrite (Hnew Hnone) in Hfound.
  assert (History.search_similar ratio (Agent.conv_history D st') u (3 # 4)
          = Some (mkEntry u (cut r) (clock (Agent.runs D st)))) as Hsearch
      by (unfold History.search_similar in *; rewrite Hh; exact Hfound).
  exists r, st'. rewrite Hr. split; [reflexivity|]. split; [exact Hs|].
  split; [exact Hsearch|]. split.
  - intros yes rest Hexit Hnew' Hyes.
    cbn [Agent.main_loop]. now rewrite Hexit, Hnew', Hsearch, Hyes.
  - intros ->. reflexivity.
Qed.

End DriverFacts.

(* ===================================================================== *)
(** * A history file that cannot be read                                  *)
(* ===================================================================== *)

Section UnreadableFile.

Variable json_dump : list Entry -> string.
Variable json_load : string -> option (list Entry).

Local Abbreviation init := (History.init json_load).
Local Abbreviation add_all := (History.add_all json_dump).

(** X16.  A history file that [json.load] cannot read is taken for an empty
    store, without an error, and the first [add] whose write goes through
    replaces it: the file then holds the records added since, and nothing
    of what it held before. *)
Theorem unreadable_file_is_replaced (text : string) (calls : list AddCall)
    (c : AddCall) :
  json_load text = None ->
  add_write c = Written ->
  let self := add_all (calls ++ [c]) (init (Some text)) in
  history (init (Some text)) = []
  /\ history self = map entry_of (calls ++ [c])
  /\ file self = Some (json_dump (map entry_of (calls ++ [c]))).
Proof.
  intros Hload Hw self.
  assert (history (init (Some text)) = []) as H0
      by (unfold History.init, History._load; cbn; now rewrite Hload).
  assert (history self = map entry_of (calls ++ [c])) as Hh
      by (subst self; now rewrite (add_all_history json_dump), H0).
  split; [exact H0|]. split; [exact Hh|].
  rewrite <- Hh. subst self. rewrite (add_all_app json_dump). cbn [History.add_all].
  unfold History.add. now rewrite Hw.
Qed.

End UnreadableFile.

(* ===================================================================== *)
(** * Runs                                                                *)
(* ===================================================================== *)

(** ** The loop *)

Lemma demo_tools_ok :
  forall i c input,
    nonempty (Demo.get_tools (selected_servers (Demo.perception i c input))) = true.
Proof. reflexivity. Qed.

Lemma generated_planner (s : Demo.Scenario) (p : string) :
  generated (Demo.planner s) p -> p = Demo.plan s.
Proof. intros (i & ui & pe & m & td & st & ms & ->). reflexivity. Qed.

(** C2, at [N = 2], [L = 1]: four passes, then "max steps reached". *)
Lemma invalid_plans_run_witness :
  snd (Demo.run_in Demo.unsure 2 1) = Some (done MAX_STEPS_REACHED)
  /\ total_iterations unit (fst (Demo.run_in Demo.unsure 2 1)) = 4.
Proof.
  refine (proj1 (invalid_plans_run unit Demo.dispatch (Demo.interpreter Demo.unsure)
            string Demo.get_tools Demo.summarize Demo.perception
            (Demo.planner Demo.unsure) Demo.decode demo_tools_ok
            (Demo.task 2 1) tt _ _ _) _).
  - intros p Hp. rewrite (generated_planner _ _ Hp). split; reflexivity.
  - cbn. lia.
  - cbn. lia.
  - cbn. lia.
Defined.

(** C2 as the claim has it fails at [N = 1], [L = 3]: the plans have an
    invalid shape, the claim promises [1 * (3 + 1) = 4] passes and "max
    steps reached", and the guard ends the run on pass 3 with "max
    iterations reached". *)
Lemma invalid_plans_counterexample :
  let r := Demo.run_in Demo.unsure 1 3 in
  invalid_shape (Demo.plan Demo.unsure)
  /\ snd r = Some (done MAX_ITERATIONS_REACHED)
  /\ total_iterations unit (fst r) = 3
  /\ ~ (snd r = Some (done MAX_STEPS_REACHED)
        /\ total_iterations unit (fst r) = 1 * (3 + 1)).
Proof.
  vm_compute. repeat split; try reflexivity.
  intros [H _]. discriminate H.
Qed.

(** C4, at the plan "FINAL_ANSWER: 42" with [N = 1], [L = 1]. *)
Lemma bare_final_answer_is_retried_witness :
  no_sandbox unit (fst (Demo.run_in Demo.final42 1 1))
  /\ subtasks (context unit (fst (Demo.run_in Demo.final42 1 1))) = []
  /\ (snd (Demo.run_in Demo.final42 1 1) = Some (done MAX_STEPS_REACHED)
      \/ snd (Demo.run_in Demo.final42 1 1) = Some (done MAX_ITERATIONS_REACHED)).
Proof.
  refine (bare_final_answer_is_retried unit Demo.dispatch (Demo.interpreter Demo.final42)
            string Demo.get_tools Demo.summarize Demo.perception
            (Demo.planner Demo.final42) Demo.decode demo_tools_ok
            (Demo.task 1 1) tt _ _ _).
  - intros p Hp. rewrite (generated_planner _ _ Hp). split; reflexivity.
  - cbn. lia.
  - cbn. lia.
Defined.

(** The run of C4 in full, under the profile [N = 3], [L = 3]: four passes
    in step 0, two in step 1, and the guard on the seventh; the answer 42 is
    never returned. *)
Lemma bare_final_answer_run :
  let r := Demo.run_in Demo.final42 3 3 in
  snd r = Some (done MAX_ITERATIONS_REACHED)
  /\ final_answer (context unit (fst r)) = Some MAX_ITERATIONS_REACHED
  /\ total_iterations unit (fst r) = 7
  /\ events unit (fst r)
     = [EvPass 0 1; EvPerceive "What is 2+2?"; EvPass 0 2; EvPerceive "What is 2+2?";
        EvPass 0 3; EvPerceive "What is 2+2?"; EvPass 0 4; EvPerceive "What is 2+2?";
        EvPass 1 5; EvPerceive "What is 2+2?"; EvPass 1 6; EvPerceive "What is 2+2?"].
Proof. vm_compute. repeat split. Qed.

(** The planner of modules/decision.py passes a final answer of the model
    on as its plan, and turns any other reply without [solve] into one; the
    loop retries such a plan until the guard ends the run. *)
Lemma final_answer_reply_run :
  Demo.plan (Demo.shipped "FINAL_ANSWER: 4") = "FINAL_ANSWER: 4"
  /\ Demo.plan (Demo.shipped "The answer is 4.")
     = "FINAL_ANSWER: [Could not generate valid solve()]"
  /\ snd (Demo.run_in (Demo.shipped "FINAL_ANSWER: 4") 3 3)
     = Some (done MAX_ITERATIONS_REACHED).
Proof. vm_compute. repeat split. Qed.

(** C3, at [N = 2], [L = 3]. *)
Lemma continuations_use_up_the_steps_witness :
  let r := Demo.run_in Demo.further 2 3 in
  snd r = Some (done MAX_STEPS_REACHED)
  /\ total_iterations unit (fst r) = 2
  /\ final_answer (context unit (fst r)) = Some MAX_STEPS_REACHED.
Proof.
  refine (continuations_use_up_the_steps unit Demo.dispatch
            (Demo.interpreter Demo.further) string
            Demo.get_tools Demo.summarize Demo.perception
            (Demo.planner Demo.further) Demo.decode demo_tools_ok _ _
            (Demo.task 2 3) tt _ _).
  - intros p Hp. rewrite (generated_planner _ _ Hp). reflexivity.
  - intros p Hp d. rewrite (generated_planner _ _ Hp). reflexivity.
  - cbn. lia.
  - cbn. lia.
Defined.

(** The run of C1 and C3 in full: the pass after the continuation of step 0
    is the first pass of step 1, and it reuses the cached perception. *)
Lemma continuation_run :
  let r := Demo.run_in Demo.further 2 3 in
  events unit (fst r)
  = [EvPass 0 1; EvPerceive "What is 2+2?"; EvSandbox (Demo.plan Demo.further);
     EvPass 1 2; EvReuse; EvSandbox (Demo.plan Demo.further)]
  /\ snd r = Some (done MAX_STEPS_REACHED).
Proof. vm_compute. split; reflexivity. Qed.

(** C1, at [N = 2], [L = 3]: after the continuation of step 0 the run goes
    on with the steps [[1]]. *)
Lemma continuation_advances_step_witness :
  exists st',
    Demo.for_steps_in Demo.further [0; 1] (Demo.st0 2 3)
    = Demo.for_steps_in Demo.further [1] st'
    /\ user_input_override (context unit st') = Some (forward_text (Demo.task 2 3) "4")
    /\ Loop.step (context unit st') = 0
    /\ total_iterations unit st' = 1.
Proof.
  apply (continuation_advances_step unit Demo.dispatch (Demo.interpreter Demo.further)
           string Demo.get_tools Demo.summarize Demo.perception
           (Demo.planner Demo.further) Demo.decode 0 [1] (Demo.st0 2 3)
           (Demo.plan Demo.further) (Demo.st1 Demo.further 2 3)).
  - cbn. lia.
  - reflexivity.
  - reflexivity.
  - reflexivity.
Defined.

(** C7, at the result 4: the run returns "FINAL_ANSWER: 4" on its first
    pass. *)
Lemma raw_outcome_witness :
  snd (Demo.run_in Demo.four 3 3) = Some (done "FINAL_ANSWER: 4").
Proof.
  destruct (raw_outcome unit Demo.dispatch (Demo.interpreter Demo.four) string
              Demo.get_tools Demo.summarize Demo.perception
              (Demo.planner Demo.four) Demo.decode 0 [1; 2] (Demo.st0 3 3)
              (Demo.plan Demo.four) (Demo.st1 Demo.four 3 3))
    as (st' & _ & _ & _ & H & _).
  - cbn. lia.
  - reflexivity.
  - reflexivity.
  - reflexivity.
  - reflexivity.
  - reflexivity.
  - change (Demo.run_in Demo.four 3 3)
      with (Loop.for_steps unit Demo.dispatch (Demo.interpreter Demo.four) string
              Demo.get_tools Demo.summarize Demo.perception
              (Demo.planner Demo.four) Demo.decode [0; 1; 2] (Demo.st0 3 3)).
    rewrite (H eq_refl). reflexivity.
Defined.

(** C7 as the claim has it fails at a result with the continuation marker
    inside: it opens with none of the three markers, it is logged as a
    success, and the pass does not return it but takes a lifeline; with none
    left the step ends and the run closes with "max steps reached". *)
Lemma raw_outcome_counterexample :
  let r := Demo.run_in Demo.note 1 0 in
  fst (Demo.sandbox_in Demo.note) = Demo.note_text
  /\ startswith (strip Demo.note_text) FINAL_ANSWER = false
  /\ startswith (strip Demo.note_text) FURTHER_PROCESSING_REQUIRED = false
  /\ startswith (strip Demo.note_text) SANDBOX_ERROR = false
  /\ snd (Demo.pass_in Demo.note 0 (Demo.st0 1 0)) = PRetry
  /\ subtasks (context unit (fst r))
     = [("solve_sandbox", "pending"); ("solve_sandbox", "success")]
  /\ snd r = Some (done MAX_STEPS_REACHED)
  /\ snd r <> Some (done ("FINAL_ANSWER: " ++ Demo.note_text)).
Proof.
  vm_compute. repeat split; try reflexivity. discriminate.
Qed.

(** ** The sandbox *)

Lemma through_add_loop {X} (ns : list Z) :
  forall r, through_proxy (@Demo.add_loop X ns r).
Proof.
  induction ns as [|n rest IH]; intros r; cbn.
  - constructor.
  - constructor. intros [v|e]; [apply IH | constructor].
Qed.

Lemma through_guarded_add_loop {X} (ns : list Z) :
  forall r, through_proxy (@Demo.guarded_add_loop X ns r).
Proof.
  induction ns as [|n rest IH]; intros r; cbn.
  - constructor.
  - constructor. intros [v|e]; [apply IH | constructor].
Qed.



(** C6, at a plan text that defines no [solve]. *)
Lemma sandbox_errors_are_results_witness :
  fst (run_python_sandbox_mcp unit Demo.dispatch (Demo.interpreter Demo.no_solve)
         (Demo.plan Demo.no_solve) tt)
  = Returns "[sandbox error: No solve() function found in plan.]".
Proof.
  destruct (sandbox_errors_are_results Empty_set unit Demo.dispatch
              (Demo.interpreter Demo.no_solve) (Demo.plan Demo.no_solve) tt)
    as (_ & _ & H & _).
  exact (H eq_refl).
Defined.

(** C6 as the claim has it fails at a plan whose [solve] calls [sys.exit]:
    [SystemExit] is no [Exception], the handler does not take it, and the
    caller of [run_python_sandbox] gets it in place of a text.  So it is
    with a [KeyboardInterrupt] raised by the module body, and with an
    exception whose [__str__] raises. *)
Lemma sandbox_errors_are_results_counterexample :
  let out := fst (Demo.leaving_in Demo.sys_exit_code Demo.sys_exit) in
  out = Propagates (ExitOf "SystemExit" "stop")
  /\ (forall text, out <> Returns text)
  /\ fst (Demo.leaving_in Demo.interrupt_code Demo.interrupt)
     = Propagates (ExitOf "KeyboardInterrupt" EmptyString)
  /\ fst (Demo.leaving_in Demo.mute_code Demo.mute) = Propagates (Unprintable "Mute").
Proof.
  cbv zeta. split; [reflexivity|]. split; [|split; reflexivity].
  intros text H. discriminate H.
Qed.

(** C10, at a dictionary with a "result" key. *)
Lemma sandbox_normalizes_witness :
  fst (run_python_sandbox_mcp unit Demo.dispatch (Demo.interpreter Demo.result_dict)
         (Demo.plan Demo.result_dict) tt)
  = Returns "4".
Proof.
  destruct (sandbox_normalizes Empty_set unit Demo.dispatch
              (Demo.interpreter Demo.result_dict)
              (Demo.plan Demo.result_dict) tt _ _ eq_refl eq_refl)
    as (H & _).
  exact (proj1 (H _ (VInt 4) eq_refl eq_refl) "4" eq_refl).
Defined.

(** The other cases of C10, run: dictionaries without a "result" key, with
    a float, with keys that are not texts and with a set; lists; a
    number. *)
Lemma sandbox_normalizes_runs :
  fst (Demo.sandbox_in Demo.sum_dict)
  = "{" ++ quote ++ "sum" ++ quote ++ ": 4, " ++ quote ++ "ok" ++ quote ++ ": true}"
  /\ fst (Demo.sandbox_in Demo.float_dict)
     = "{" ++ quote ++ "x" ++ quote ++ ": 1.5}"
  /\ fst (Demo.sandbox_in Demo.number_keys)
     = "{" ++ quote ++ "1" ++ quote ++ ": " ++ quote ++ "one" ++ quote ++ ", "
           ++ quote ++ "null" ++ quote ++ ": [2.0, Infinity]}"
  /\ fst (Demo.sandbox_in Demo.set_dict)
     = "[sandbox error: Object of type set is not JSON serializable]"
  /\ fst (Demo.sandbox_in Demo.a_list) = "1 two None"
  /\ fst (Demo.sandbox_in Demo.set_list) = "a b 1.5 {1}"
  /\ fst (Demo.sandbox_in Demo.four) = "4".
Proof. vm_compute. repeat split. Qed.

(** C10 as the claim has it fails at a dictionary that holds a tool result
    object: it has no "result" key, [json.dumps] refuses it, and the sandbox
    returns the Error text instead of JSON text.  It fails as well at a
    tuple, a sequence that is not joined. *)
Lemma sandbox_normalizes_counterexample :
  let v := VDict [(VStr "output", Demo.tool_result)] in
  let out := fst (Demo.sandbox_in Demo.wrapped) in
  let out_pair := fst (Demo.sandbox_in Demo.a_pair) in
  fst (run_prog unit Demo.dispatch
         (await_call "add" (Demo.add_args 2)
                     (fun r => Ret (VDict [(VStr "output", r)])))
         (SandboxMCP_init unit tt))
  = @Returned Empty_set PyVal v
  /\ dict_get "result" [(VStr "output", Demo.tool_result)] = None
  /\ out = "[sandbox error: Object of type CallToolResult is not JSON serializable]"
  /\ ~ (exists text, json_dumps v = Normal text /\ out = text)
  /\ out_pair = "(1, 2)"
  /\ out_pair <> join " " (map py_str [VInt 1; VInt 2]).
Proof.
  cbv zeta. split; [reflexivity|]. split; [reflexivity|]. split; [reflexivity|]. split.
  - intros (text & H & _). discriminate H.
  - split; [reflexivity | vm_compute; discriminate].
Qed.

(** ** The history *)

Lemma demo_ratio_bounds (a b : string) :
  (0 <= HistoryDemo.ratio a b <= 1)%Q.
Proof.
  unfold HistoryDemo.ratio. destruct (String.eqb a b); split; unfold Qle; cbn; lia.
Qed.

(** C8, at a query that differs from a stored one by case and blanks; the
    entry is stored twice and the first is returned. *)
Lemma search_similar_best_witness :
  History.search_similar HistoryDemo.ratio
    (HistoryDemo.store [HistoryDemo.gold; HistoryDemo.france; HistoryDemo.france])
    "  what is the capital of FRANCE? " (3 # 4)
  = Some HistoryDemo.france
  /\ (3 # 4 <= History.similarity HistoryDemo.ratio
                 "  what is the capital of FRANCE? " (query HistoryDemo.france))%Q.
Proof.
  pose proof (search_similar_best HistoryDemo.ratio
                (HistoryDemo.store [HistoryDemo.gold; HistoryDemo.france; HistoryDemo.france])
                "  what is the capital of FRANCE? " (3 # 4) demo_ratio_bounds)
    as (_ & _ & H).
  change (History.search_similar HistoryDemo.ratio
            (HistoryDemo.store [HistoryDemo.gold; HistoryDemo.france; HistoryDemo.france])
            "  what is the capital of FRANCE? " (3 # 4))
    with (Some HistoryDemo.france) in H |- *.
  split; [reflexivity | exact (proj1 H)].
Defined.

(** C8 as the claim has it fails at the threshold 0: the only entry scores
    0, which is at the threshold and the highest score there is, and the
    search returns none. *)
Lemma search_similar_counterexample :
  let self := HistoryDemo.store [mkEntry "abc" "first" "2025-01-01T10:00:00"] in
  (History.similarity HistoryDemo.ratio "xyz" "abc" == 0)%Q
  /\ (0 <= History.similarity HistoryDemo.ratio "xyz" "abc")%Q
  /\ History.search_similar HistoryDemo.ratio self "xyz" 0%Q = None.
Proof. vm_compute. repeat split; discriminate. Qed.

(** C9, at two records added to a store that had no file. *)
Lemma history_round_trip_witness :
  History._load Json.load
    (file (History.add_all Json.dump HistoryDemo.two_adds (History.init Json.load None)))
  = map entry_of HistoryDemo.two_adds.
Proof.
  refine (proj2 (proj2 (history_round_trip Json.dump Json.load None
                          HistoryDemo.two_adds _ _)) eq_refl).
  - intros c [<-|[<-|[]]]; reflexivity.
  - reflexivity.
Defined.

(** A write that fails leaves the file behind the store: the round trip
    needs its assumption. *)
Lemma failed_write_run :
  let self := History.add_all Json.dump
                [mkAdd "What is 2+2?" "4" "2025-01-01T10:00:00" (WriteFails None)]
                (History.init Json.load None) in
  history self = [mkEntry "What is 2+2?" "4" "2025-01-01T10:00:00"]
  /\ History._load Json.load (file self) = [].
Proof. vm_compute. split; reflexivity. Qed.

(** ** The loop, whatever the collaborators answer *)

(** X1, at [N = 3], [L = 3] with bare final answers for plans: seven passes
    counted, six past the guard. *)
Lemma run_is_bounded_witness :
  let st' := fst (Demo.run_in Demo.final42 3 3) in
  total_iterations unit st' <= 7
  /\ total_iterations unit st' <= 12
  /\ Z.of_nat (passes (events unit st')) <= 6
  /\ (sandbox_calls (events unit st') <= passes (events unit st'))%nat.
Proof.
  apply (run_is_bounded unit Demo.dispatch (Demo.interpreter Demo.final42) string
           Demo.get_tools Demo.summarize Demo.perception (Demo.planner Demo.final42)
           Demo.decode (Demo.task 3 3) tt).
  cbn. lia.
Defined.

(** The bounds of X1 are reached there. *)
Lemma run_is_bounded_run :
  let st' := fst (Demo.run_in Demo.final42 3 3) in
  total_iterations unit st' = 7 /\ passes (events unit st') = 6%nat.
Proof. vm_compute. split; reflexivity. Qed.

(** X3, at a plan that returns "FINAL_ANSWER: 4": the run ends in step 0
    of 3. *)
Lemma final_answer_ends_the_run_witness :
  snd (Demo.for_steps_in Demo.final_four [0; 1; 2] (Demo.st0 3 3))
  = Some (done "FINAL_ANSWER: 4").
Proof.
  destruct (final_answer_ends_the_run unit Demo.dispatch
              (Demo.interpreter Demo.final_four) string
              Demo.get_tools Demo.summarize Demo.perception
              (Demo.planner Demo.final_four) Demo.decode 0
              (enter unit 0 (Demo.st0 3 3))
              (Demo.plan Demo.final_four) (Demo.st1 Demo.final_four 3 3))
    as (st' & _ & _ & H & _).
  - reflexivity.
  - reflexivity.
  - reflexivity.
  - unfold Demo.for_steps_in. rewrite (H [1; 2] (Demo.st0 3 3) eq_refl).
    + reflexivity.
    + cbn. lia.
Defined.

(** X4, at a plan whose [solve] raises. *)
Lemma sandbox_failure_is_retried_witness :
  exists st',
    Demo.pass_in Demo.crash 0 (Demo.st0 1 1) = (st', PRetry)
    /\ final_answer (context unit st') = Some EXECUTION_FAILED
    /\ memory (context unit st')
       = [mkItem "solve_sandbox" (Demo.plan Demo.crash) "[sandbox error: no data]"
                 false ["sandbox"]].
Proof.
  destruct (sandbox_failure_is_retried unit Demo.dispatch
              (Demo.interpreter Demo.crash) string
              Demo.get_tools Demo.summarize Demo.perception
              (Demo.planner Demo.crash) Demo.decode 0 (Demo.st0 1 1)
              (Demo.plan Demo.crash) (Demo.st1 Demo.crash 1 1)
              (Exc "ValueError" "no data"))
    as (st' & Hp & _ & Hf & _ & Hm & _).
  - reflexivity.
  - reflexivity.
  - reflexivity.
  - exists st'. split; [exact Hp|]. split; [exact Hf | exact Hm].
Defined.

(** The run of X4 in full, with one step and one lifeline: two failures,
    and the run ends with "max steps reached". *)
Lemma sandbox_failure_run :
  let r := Demo.run_in Demo.crash 1 1 in
  snd r = Some (done MAX_STEPS_REACHED)
  /\ subtasks (context unit (fst r))
     = [("solve_sandbox", "pending"); ("solve_sandbox", "failure");
        ("solve_sandbox", "pending"); ("solve_sandbox", "failure")].
Proof. vm_compute. split; reflexivity. Qed.

(** X5, at [N = 3], [L = 3] with a dispatcher without tools. *)
Lemma no_tools_no_work_witness :
  let r := run unit Demo.dispatch (Demo.interpreter Demo.four) string
               Demo.no_tools Demo.summarize Demo.perception (Demo.planner Demo.four)
               Demo.decode (Demo.task 3 3) tt in
  snd r = Some (done MAX_STEPS_REACHED)
  /\ total_iterations unit (fst r) = 3
  /\ sandbox_calls (events unit (fst r)) = 0%nat.
Proof.
  destruct (no_tools_no_work unit Demo.dispatch (Demo.interpreter Demo.four) string
              Demo.no_tools Demo.summarize Demo.perception (Demo.planner Demo.four)
              Demo.decode (fun _ => eq_refl) (Demo.task 3 3) tt)
    as (H1 & H2 & H3 & _).
  - cbn. lia.
  - cbn. lia.
  - cbv zeta. split; [exact H1|]. split; [exact H2 | exact H3].
Defined.

(** X6, after the continuation of step 0: the next pass plans on the
    forwarding text without perceiving, its plan is refused, and the retry
    perceives and plans on "What is 2+2?". *)
Lemma forwarded_text_is_used_once_witness :
  let pass_ :=
    pass unit Demo.dispatch (Demo.interpreter Demo.further) string Demo.get_tools
         Demo.summarize Demo.perception Demo.forgetful_planner Demo.decode in
  exists st1,
    pass_ 1 (Demo.st_forwarded 3 3) = (st1, PRetry)
    /\ user_input_override (context unit st1) = None
    /\ events unit st1
       = [EvPass 0 1; EvPerceive "What is 2+2?"; EvSandbox (Demo.plan Demo.further);
          EvPass 1 2; EvReuse]
    /\ events unit (fst (pass_ 1 st1))
       = (events unit st1 ++ [EvPass 1 3; EvPerceive "What is 2+2?";
                              EvSandbox (Demo.plan Demo.further)])%list.
Proof.
  destruct (forwarded_text_is_used_once unit Demo.dispatch
              (Demo.interpreter Demo.further) string
              Demo.get_tools Demo.summarize Demo.perception Demo.forgetful_planner
              Demo.decode 1 (Demo.st_forwarded 3 3)
              (forward_text (Demo.task 3 3) "4")
              (Demo.perception 1 (Demo.task 3 3) "What is 2+2?") ["math"])
    as (st1 & Hp & Ho & He & Hretry).
  - reflexivity.
  - discriminate.
  - reflexivity.
  - reflexivity.
  - reflexivity.
  - reflexivity.
  - vm_compute. discriminate.
  - destruct (Hretry eq_refl) as [Hpass _].
    exists st1. cbv zeta. split; [exact Hpass|]. split; [exact Ho|].
    split; [exact He|].
    unfold Loop.pass in Hpass. rewrite Hp in Hpass.
    injection Hp as <-. reflexivity.
Defined.

(** ** The proxy *)


(** X7 run on the plan of six calls with a dispatcher that counts: it has
    answered five calls, with 1 to 5, and the sixth call was refused. *)
Lemma proxy_is_transparent_run :
  let r := run_python_sandbox_mcp Z Demo.counting_dispatch
             (Demo.interpreter Demo.six_calls_guarded)
             (Demo.plan Demo.six_calls_guarded) 0 in
  dispatcher Z (snd r) = 5
  /\ map snd (issued Z (snd r))
     = [Normal (VInt 1); Normal (VInt 2); Normal (VInt 3); Normal (VInt 4);
        Normal (VInt 5); Raises budget_error].
Proof. vm_compute. split; reflexivity. Qed.

(** ** The history *)

(** X8, at a write that fails followed by one that goes through, on a
    store without a file: the file then holds both records. *)
Lemma last_write_heals_witness :
  History._load Json.load
    (file (History.add_all Json.dump [HistoryDemo.lost_add; HistoryDemo.kept_add]
             (History.init Json.load None)))
  = [entry_of HistoryDemo.lost_add; entry_of HistoryDemo.kept_add].
Proof.
  destruct (last_write_heals Json.dump Json.load (History.init Json.load None)
              [HistoryDemo.lost_add] HistoryDemo.kept_add eq_refl
              (json_round_trip _))
    as (_ & Hload & Hh).
  change ([HistoryDemo.lost_add] ++ [HistoryDemo.kept_add])%list
    with [HistoryDemo.lost_add; HistoryDemo.kept_add] in Hload, Hh.
  rewrite Hload, Hh. reflexivity.
Defined.

Lemma demo_ratio_refl (x : string) : (HistoryDemo.ratio x x == 1)%Q.
Proof. unfold HistoryDemo.ratio. now rewrite String.eqb_refl. Qed.

Lemma demo_ratio_le (x y : string) : (HistoryDemo.ratio x y <= 1)%Q.
Proof. apply demo_ratio_bounds. Qed.

(** X9, at a question that is in the store and is recorded again with
    another answer: the search still gives the first record. *)
Lemma repeated_query_keeps_first_answer_witness :
  In (match History.search_similar HistoryDemo.ratio
              (History.add Json.dump "2025-02-01T09:00:00" Written
                 "what is the capital of france?" "Lyon"
                 (HistoryDemo.store [HistoryDemo.gold; HistoryDemo.france]))
              "what is the capital of france?" (3 # 4)
      with Some e => e | None => HistoryDemo.gold end)
     [HistoryDemo.gold; HistoryDemo.france].
Proof.
  destruct (repeated_query_keeps_first_answer HistoryDemo.ratio Json.dump
              (HistoryDemo.store [HistoryDemo.gold; HistoryDemo.france])
              "2025-02-01T09:00:00" Written
              "what is the capital of france?" "Lyon" (3 # 4)
              demo_ratio_le demo_ratio_refl)
    as (e & before & after & Hs & _ & _ & _ & _ & Hold).
  - unfold Qle. cbn. lia.
  - rewrite Hs. apply (Hold HistoryDemo.france).
    + right. left. reflexivity.
    + reflexivity.
Defined.

(** The run of X9: the answer found is "Paris", not "Lyon". *)
Lemma repeated_query_run :
  option_map answer
    (History.search_similar HistoryDemo.ratio
       (History.add Json.dump "2025-02-01T09:00:00" Written
          "what is the capital of france?" "Lyon"
          (HistoryDemo.store [HistoryDemo.gold; HistoryDemo.france]))
       "what is the capital of france?" (3 # 4))
  = Some "Paris".
Proof. vm_compute. reflexivity. Qed.

(** X10, at a query with blanks around it and capitals in it. *)
Lemma search_is_blind_to_case_and_blanks_witness :
  History.search_similar HistoryDemo.ratio
    (HistoryDemo.store [HistoryDemo.gold; HistoryDemo.france])
    ("  " ++ "What is the capital of France?" ++ nl) (3 # 4)
  = Some HistoryDemo.france
  /\ History.search_similar HistoryDemo.ratio
       (HistoryDemo.store [HistoryDemo.gold; HistoryDemo.france])
       "WHAT IS THE CAPITAL OF FRANCE?" (3 # 4)
     = Some HistoryDemo.france.
Proof.
  destruct (search_is_blind_to_case_and_blanks HistoryDemo.ratio
              (HistoryDemo.store [HistoryDemo.gold; HistoryDemo.france])
              "What is the capital of France?" "  " nl
              "WHAT IS THE CAPITAL OF FRANCE?" (3 # 4))
    as (H1 & _ & H3).
  - reflexivity.
  - reflexivity.
  - reflexivity.
  - rewrite H1, H3. split; reflexivity.
Defined.

(** ** The planner *)

(** X12, at a [solve] definition in a fence tagged "python". *)
Lemma fenced_plan_is_unwrapped_witness :
  Decision.plan_of_reply
    (Normal (Decision.fenced "python" (Demo.plan Demo.four)))
  = Demo.plan Demo.four.
Proof.
  refine (proj1 (fenced_plan_is_unwrapped (Demo.plan Demo.four) _ _ _ _)).
  - reflexivity.
  - reflexivity.
  - discriminate.
  - left. reflexivity.
Defined.

(** A fence with another tag is not unwrapped as far: the tag stays in the
    plan, which still passes for a [solve] definition. *)
Lemma other_tag_run :
  Decision.plan_of_reply (Normal (Decision.fenced "py" (Demo.plan Demo.four)))
  = "py" ++ nl ++ Demo.plan Demo.four
  /\ defines_solve ("py" ++ nl ++ Demo.plan Demo.four) = true.
Proof. vm_compute. split; reflexivity. Qed.

(** X13, at a model that answers "FINAL_ANSWER: 4" every time, [N = 3],
    [L = 3]: the guard ends the run on pass 7. *)
Lemma replies_without_solve_never_answer_witness :
  let r := run unit Demo.dispatch (Demo.interpreter Demo.final42) string
               Demo.get_tools Demo.summarize Demo.perception
               (Decision.generate_plan Demo.direct_answer) Demo.decode
               (Demo.task 3 3) tt in
  snd r = Some (done MAX_ITERATIONS_REACHED)
  /\ total_iterations unit (fst r) = 7.
Proof.
  destruct (replies_without_solve_never_answer unit Demo.dispatch
              (Demo.interpreter Demo.final42) string
              Demo.get_tools Demo.summarize Demo.perception Demo.decode
              Demo.direct_answer (Demo.task 3 3) tt)
    as (_ & _ & _ & [(A & _)|(_ & B & C)]).
  - reflexivity.
  - reflexivity.
  - cbn. lia.
  - cbn. lia.
  - cbn in A. lia.
  - cbv zeta. split; [exact B | exact C].
Defined.

(** ** The driver *)

(** X14 and X15 run: with plans of invalid shape the task ends with "max
    steps reached"; the driver prints "[Max steps reached]" as the final
    answer and records it; asked the same question again, it offers that
    record, and on "y" shows it as the cached answer. *)
Lemma sentinel_is_recorded_run :
  let r := AgentDemo.main_in Demo.unsure
             [Agent.Line "What is 2+2?"; Agent.Line "what is 2+2?"; Agent.Line "y";
              Agent.Line "exit"] in
  let e := mkEntry "What is 2+2?" "[Max steps reached]" "2025-01-01T10:00:00" in
  snd r = Agent.Exited
  /\ history (Agent.conv_history unit (fst r)) = [e]
  /\ Agent.runs unit (fst r) = 1%nat
  /\ Agent.output unit (fst r)
     = [Agent.FinalAnswer "[Max steps reached]"; Agent.OfferCached e;
        Agent.CachedAnswer "[Max steps reached]"].
Proof. vm_compute. repeat split. Qed.

(** X16, at a file cut off after its first character. *)
Lemma unreadable_file_is_replaced_witness :
  let self := History.add_all Json.dump [HistoryDemo.kept_add]
                (History.init Json.load (Some "[")) in
  history self = [entry_of HistoryDemo.kept_add]
  /\ History._load Json.load (file self) = [entry_of HistoryDemo.kept_add].
Proof.
  destruct (unreadable_file_is_replaced Json.dump Json.load "[" [] HistoryDemo.kept_add
              eq_refl eq_refl)
    as (_ & Hh & Hf).
  cbv zeta. change ([] ++ [HistoryDemo.kept_add])%list with [HistoryDemo.kept_add] in Hh, Hf.
  split; [exact Hh|]. rewrite Hf. reflexivity.
Defined.

(** X17, at a plan of six calls that lets the budget failure through, with
    one step and one lifeline: two plans run, ten calls are answered. *)
Lemma tool_calls_are_bounded_witness :
  let r := run (unit * nat) (counting unit Demo.dispatch)
               (Demo.interpreter Demo.six_calls) string Demo.get_tools Demo.summarize
               Demo.perception (Demo.planner Demo.six_calls) Demo.decode
               (Demo.task 1 1) (tt, O) in
  Z.of_nat (snd (mcp (unit * nat) (fst r))) <= 10.
Proof.
  refine (proj2 (tool_calls_are_bounded unit Demo.dispatch
                   (Demo.interpreter Demo.six_calls) string Demo.get_tools
                   Demo.summarize Demo.perception (Demo.planner Demo.six_calls)
                   Demo.decode _ (Demo.task 1 1) tt _)).
  - intros code body. unfold Demo.interpreter, Demo.interpreter_of. cbn [py_exec].
    destruct (String.eqb code (Demo.plan Demo.six_calls)); [|discriminate].
    intros [= <-]. apply (through_add_loop [1; 2; 3; 4; 5; 6] VNone).
  - cbn. lia.
Defined.

(** The bound of X17 is reached there. *)
Lemma tool_calls_run :
  let r := run (unit * nat) (counting unit Demo.dispatch)
               (Demo.interpreter Demo.six_calls) string Demo.get_tools Demo.summarize
               Demo.perception (Demo.planner Demo.six_calls) Demo.decode
               (Demo.task 1 1) (tt, O) in
  snd (mcp (unit * nat) (fst r)) = 10%nat
  /\ sandbox_calls (events (unit * nat) (fst r)) = 2%nat
  /\ snd r = Some (done MAX_STEPS_REACHED).
Proof. vm_compute. repeat split. Qed.

(** Without the condition on the plans the bound of X17 is not kept: a
    plan that calls the dispatcher itself has seven calls answered in the
    one call of the sandbox. *)
Lemma tool_calls_direct_run :
  let r := run (unit * nat) (counting unit Demo.dispatch)
               (Demo.interpreter Demo.seven_calls_direct) string Demo.get_tools
               Demo.summarize Demo.perception (Demo.planner Demo.seven_calls_direct)
               Demo.decode (Demo.task 1 1) (tt, O) in
  snd (mcp (unit * nat) (fst r)) = 7%nat
  /\ sandbox_calls (events (unit * nat) (fst r)) = 1%nat.
Proof. vm_compute. split; reflexivity. Qed.

(** X18, at the first question of a session with an empty store and plans
    of invalid shape: the search then finds the sentinel. *)
Lemma recorded_answer_is_offered_again_witness :
  exists st',
    Agent.solve_task unit Demo.dispatch (Demo.interpreter Demo.unsure) string
      Demo.get_tools Demo.summarize (fun _ => Demo.perception)
      (fun _ => Demo.planner Demo.unsure) Demo.decode Json.dump
      AgentDemo.context_init AgentDemo.clock AgentDemo.disk 1 "What is 2+2?"
      (Agent.mkMain unit None (HistoryDemo.store []) tt O [])
    = Some st'
    /\ History.search_similar HistoryDemo.ratio (Agent.conv_history unit st')
         "What is 2+2?" (3 # 4)
       = Some (mkEntry "What is 2+2?" "[Max steps reached]" "2025-01-01T10:00:00").
Proof.
  destruct (recorded_answer_is_offered_again unit Demo.dispatch
              (Demo.interpreter Demo.unsure) string
              Demo.get_tools Demo.summarize (fun _ => Demo.perception)
              (fun _ => Demo.planner Demo.unsure) Demo.decode HistoryDemo.ratio Json.dump
              AgentDemo.context_init AgentDemo.clock AgentDemo.disk O "What is 2+2?"
              (Agent.mkMain unit None (HistoryDemo.store []) tt O [])
              demo_ratio_le demo_ratio_refl)
    as (r & st' & Hr & Hs & Hfound & _ & Hsentinel).
  - reflexivity.
  - intros x [].
  - exists st'. split; [exact Hs|].
    assert (r = MAX_STEPS_REACHED) as Hmax by (injection Hr as <-; reflexivity).
    rewrite Hfound, (Hsentinel Hmax). reflexivity.
Defined.

(** X19, at an indented [async def solve (] on the second line of a text. *)
Lemma solve_lines_are_detected_witness :
  defines_solve
    ("import json" ++ nl ++ "    async  def solve (x):" ++ nl ++ "        return x")
  = true.
Proof.
  refine (proj2 (solve_lines_are_detected ("import json" ++ nl) "    " "  " " " " "
                   ("x):" ++ nl ++ "        return x") _ _ _ _ _ _ _)).
  - right. exists "import json". reflexivity.
  - reflexivity.
  - reflexivity.
  - discriminate.
  - reflexivity.
  - discriminate.
  - reflexivity.
Defined.

(** Texts around X19: another name, a definition that is not at the start
    of its line, and a definition inside a string are told apart only by
    where the line starts. *)
Lemma solve_lines_run :
  defines_solve "def solve_it():" = false
  /\ defines_solve "def resolve():" = false
  /\ defines_solve "x = 1; def solve():" = false
  /\ defines_solve ("doc = '''" ++ nl ++ "  def solve():" ++ nl ++ "'''") = true.
Proof. vm_compute. repeat split. Qed.

(** X20 run: the entry found at the threshold 3/4 is the entry found at
    1/2, and a miss at 1/2 is a miss at 3/4. *)
Lemma threshold_run :
  let self := HistoryDemo.store [HistoryDemo.gold; HistoryDemo.france] in
  History.search_similar HistoryDemo.ratio self "Current Gold Price" (3 # 4)
  = Some HistoryDemo.gold
  /\ History.search_similar HistoryDemo.ratio self "Current Gold Price" (1 # 2)
     = Some HistoryDemo.gold
  /\ History.search_similar HistoryDemo.ratio self "silver" (1 # 2) = None
  /\ History.search_similar HistoryDemo.ratio self "silver" (3 # 4) = None.
Proof. vm_compute. repeat split. Qed.
